(** * fan.py: CPU-temperature driven iDRAC fan control

    A shallow embedding of [fan.py] and the properties of its control logic.

    Conventions of the embedding.
    - A Python [str] is a Rocq [string]; every [ascii] stands for the code
      point of the same number, so the texts covered are those over code
      points 0..255.
    - A Python [float] is a [spec_float] (IEEE 754 binary64 without NaN
      payload); comparisons are [SFltb], [SFleb] and [SFcompare].
    - The module-level variable [idrac_fan_mode_is_manual], the commands handed
      to [subprocess.run] and the lines printed on the console are fields of
      an explicit program state that is threaded through the functions.
    - What the outside world answers (the decoded telemetry document, the
      result of each [ipmitool] process) is an input of the model. *)

From Stdlib Require Import ZArith List String Ascii Bool Lia.
From Stdlib Require Import Floats.SpecFloat.
Import ListNotations.

Local Open Scope string_scope.
Local Open Scope list_scope.
Local Open Scope Z_scope.

(** ** Python built-ins used by the script *)

Module Py.

Definition code (c : ascii) : Z := Z.of_N (N_of_ascii c).

(** [str.isspace] on one character. *)
Definition isspace (c : ascii) : bool :=
  let n := code c in
  ((9 <=? n) && (n <=? 13)) || ((28 <=? n) && (n <=? 32))
  || (n =? 133) || (n =? 160).

Definition isdigit (c : ascii) : bool :=
  let n := code c in (48 <=? n) && (n <=? 57).

(** [str.lower] on one character: A-Z and the upper-case letters of the
    Latin-1 block move 32 places up. *)
Definition lower_char (c : ascii) : ascii :=
  let n := code c in
  if ((65 <=? n) && (n <=? 90))
     || ((192 <=? n) && (n <=? 222) && negb (n =? 215))
  then ascii_of_N (Z.to_N (n + 32)) else c.

Fixpoint lower (s : string) : string :=
  match s with
  | EmptyString => EmptyString
  | String c s' => String (lower_char c) (lower s')
  end.

(** [sub in s] for strings. *)
Fixpoint contains (sub s : string) : bool :=
  prefix sub s ||
  match s with
  | EmptyString => false
  | String _ s' => contains sub s'
  end.

Fixpoint rev (acc s : string) : string :=
  match s with
  | EmptyString => acc
  | String c s' => rev (String c acc) s'
  end.

(** [s.endswith(suffix)]. *)
Definition endswith (s suffix : string) : bool :=
  prefix (rev EmptyString suffix) (rev EmptyString s).

Fixpoint lstrip_by (space : ascii -> bool) (s : string) : string :=
  match s with
  | String c s' => if space c then lstrip_by space s' else s
  | EmptyString => EmptyString
  end.

Definition strip_by (space : ascii -> bool) (s : string) : string :=
  rev EmptyString (lstrip_by space (rev EmptyString (lstrip_by space s))).

(** [s.strip()]. *)
Definition strip (s : string) : string := strip_by isspace s.

(** [s.split()]: the maximal runs of non-whitespace characters.  [cur] is
    the run being read, last character first. *)
Fixpoint split_from (cur s : string) : list string :=
  match s with
  | EmptyString =>
      match cur with
      | EmptyString => []
      | _ => [rev EmptyString cur]
      end
  | String c s' =>
      if isspace c then
        match cur with
        | EmptyString => split_from EmptyString s'
        | _ => rev EmptyString cur :: split_from EmptyString s'
        end
      else split_from (String c cur) s'
  end.

Definition split (s : string) : list string := split_from EmptyString s.

(** [" ".join(l)]. *)
Fixpoint join (l : list string) : string :=
  match l with
  | [] => EmptyString
  | [x] => x
  | x :: l' => (x ++ " " ++ join l')%string
  end.

(** *** Numeric literals *)

(** The characters [float] and [int] skip around a literal: the white space
    of [str.isspace] without the four separators 28..31. *)
Definition numeric_space (c : ascii) : bool :=
  let n := code c in
  ((9 <=? n) && (n <=? 13)) || (n =? 32) || (n =? 133) || (n =? 160).

(** The longest prefix of decimal digits, and what follows it. *)
Fixpoint span_digits (s : string) : string * string :=
  match s with
  | String c s' =>
      if isdigit c
      then let (d, r) := span_digits s' in (String c d, r)
      else (EmptyString, s)
  | EmptyString => (EmptyString, EmptyString)
  end.

Fixpoint decimal_value (acc : Z) (digits : string) : Z :=
  match digits with
  | String c s' => decimal_value (10 * acc + (code c - 48)) s'
  | EmptyString => acc
  end.

(** Underscores in a numeric literal: each one must stand between two
    decimal digits.  [prev] is the character before [s]. *)
Fixpoint drop_underscores (prev : ascii) (s : string) : option string :=
  match s with
  | EmptyString => if Ascii.eqb prev "_" then None else Some EmptyString
  | String c s' =>
      if Ascii.eqb c "_" then
        if isdigit prev then drop_underscores c s' else None
      else if Ascii.eqb prev "_" && negb (isdigit c) then None
      else option_map (String c) (drop_underscores c s')
  end.

Definition binary64 (negative : bool) (num den : positive) : spec_float :=
  SFdiv 53 1024 (S754_finite negative num 0) (S754_finite false den 0).

(** The binary64 nearest to [(-1)^negative * digits * 10^exp10], ties to
    even. *)
Definition decimal_to_binary64 (negative : bool) (digits exp10 : Z)
  : spec_float :=
  match digits * 10 ^ Z.max exp10 0 with
  | Zpos num => binary64 negative num (Z.to_pos (10 ^ Z.max (- exp10) 0))
  | _ => S754_zero negative
  end.

(** An exponent part [e[+-]digits] at the head of [s]; when [s] does not
    start with a complete one, nothing is read. *)
Definition read_exponent (s : string) : Z * string :=
  match s with
  | String c s' =>
      if Ascii.eqb (lower_char c) "e" then
        let (negative, s'') :=
          match s' with
          | String "-" t => (true, t)
          | String "+" t => (false, t)
          | _ => (false, s')
          end in
        match span_digits s'' with
        | (EmptyString, _) => (0, s)
        | (d, r) =>
            ((if negative then - decimal_value 0 d else decimal_value 0 d), r)
        end
      else (0, s)
  | EmptyString => (0, s)
  end.

(** [float(s)]; [None] is [ValueError]. *)
Definition float (s : string) : option spec_float :=
  match drop_underscores "000" s with
  | None => None
  | Some s1 =>
      let s2 := strip_by numeric_space s1 in
      let (negative, body) :=
        match s2 with
        | String "-" t => (true, t)
        | String "+" t => (false, t)
        | _ => (false, s2)
        end in
      let word := lower body in
      if String.eqb word "inf" || String.eqb word "infinity"
      then Some (S754_infinity negative)
      else if String.eqb word "nan" then Some S754_nan
      else
        let (int_part, r1) := span_digits body in
        let (frac_part, r2) :=
          match r1 with
          | String "." t => span_digits t
          | _ => (EmptyString, r1)
          end in
        match (int_part ++ frac_part)%string with
        | EmptyString => None
        | digits =>
            match read_exponent r2 with
            | (e, EmptyString) =>
                Some (decimal_to_binary64 negative (decimal_value 0 digits)
                        (e - Z.of_nat (String.length frac_part)))
            | _ => None
            end
        end
  end.

Definition hex_digit (c : ascii) : option Z :=
  let n := code c in
  if isdigit c then Some (n - 48)
  else if (97 <=? n) && (n <=? 102) then Some (n - 87)
  else if (65 <=? n) && (n <=? 70) then Some (n - 55)
  else None.

(** The digits of a hexadecimal literal, single underscores allowed between
    them; stops at the first character that is neither.  [prev_us] says that
    the previous character was an underscore, [seen] that a digit was
    read. *)
Fixpoint read_hex (acc : Z) (prev_us seen : bool) (s : string)
  : option (Z * string) :=
  match s with
  | String c s' =>
      if Ascii.eqb c "_" then
        if prev_us then None else read_hex acc true seen s'
      else
        match hex_digit c with
        | Some d => read_hex (16 * acc + d) false true s'
        | None => if prev_us || negb seen then None else Some (acc, s)
        end
  | EmptyString => if prev_us || negb seen then None else Some (acc, s)
  end.

(** [int(s, 16)]; [None] is [ValueError]. *)
Definition int16 (s : string) : option Z :=
  let s1 := lstrip_by numeric_space s in
  let (negative, s2) :=
    match s1 with
    | String "-" t => (true, t)
    | String "+" t => (false, t)
    | _ => (false, s1)
    end in
  let s3 :=
    match s2 with
    | String "0" (String x t) =>
        if Ascii.eqb (lower_char x) "x"
        then match t with String "_" t' => t' | _ => t end
        else s2
    | _ => s2
    end in
  match s3 with
  | String "_" _ => None
  | _ =>
      match read_hex 0 false false s3 with
      | Some (v, rest) =>
          match lstrip_by numeric_space rest with
          | EmptyString => Some (if negative then - v else v)
          | _ => None
          end
      | None => None
      end
  end.

End Py.

(** ** The decoded telemetry document *)

Module Json.

#[local] Set Warnings "-register-all".

(** What [response.json()] returns. A [dict] is kept as the list of its
    items; [find] reads the first item of a key. *)
Inductive value :=
| Null
| Bool (b : bool)
| Int (n : Z)
| Float (f : spec_float)
| Str (s : string)
| Arr (items : list value)
| Obj (members : list (string * value)).

Inductive exn := AttributeError | TypeError.

(** Outcome of a piece of Python code that may raise past its caller. *)
Inductive result (A : Type) :=
| Ok (a : A)
| Raise (e : exn).
Arguments Ok {A} a.
Arguments Raise {A} e.

Definition bind {A B} (r : result A) (k : A -> result B) : result B :=
  match r with
  | Ok a => k a
  | Raise e => Raise e
  end.

Fixpoint find (key : string) (members : list (string * value))
  : option value :=
  match members with
  | [] => None
  | (k, v) :: rest => if String.eqb k key then Some v else find key rest
  end.

(** [v.get(key, default)]: only a [dict] has the method. *)
Definition get (v : value) (key : string) (default : value) : result value :=
  match v with
  | Obj members =>
      Ok (match find key members with Some x => x | None => default end)
  | _ => Raise AttributeError
  end.

(** [key in v] for a [dict]. *)
Definition has_key (v : value) (key : string) : bool :=
  match v with
  | Obj members => match find key members with Some _ => true | None => false end
  | _ => false
  end.

(** [bool(v)]. *)
Definition truthy (v : value) : bool :=
  match v with
  | Null => false
  | Bool b => b
  | Int n => negb (n =? 0)
  | Float (S754_zero _) => false
  | Float _ => true
  | Str EmptyString => false
  | Str _ => true
  | Arr [] => false
  | Arr _ => true
  | Obj [] => false
  | Obj _ => true
  end.

(** [isinstance(v, list)]. *)
Definition is_list (v : value) : bool :=
  match v with Arr _ => true | _ => false end.

(** [v == s] for a string constant [s]. *)
Definition eq_str (v : value) (s : string) : bool :=
  match v with Str x => String.eqb x s | _ => false end.

(** [v.lower()], [v.endswith(suffix)]: methods of [str] alone. *)
Definition lower (v : value) : result string :=
  match v with Str s => Ok (Py.lower s) | _ => Raise AttributeError end.

Definition endswith (v : value) (suffix : string) : result bool :=
  match v with Str s => Ok (Py.endswith s suffix) | _ => Raise AttributeError end.

Fixpoint chars (s : string) : list value :=
  match s with
  | EmptyString => []
  | String c s' => Str (String c EmptyString) :: chars s'
  end.

(** The elements a [for] loop over [v] visits: the items of a list, the keys
    of a dict, the characters of a string; anything else is not iterable. *)
Definition iterate (v : value) : result (list value) :=
  match v with
  | Arr items => Ok items
  | Obj members => Ok (map (fun kv => Str (fst kv)) members)
  | Str s => Ok (chars s)
  | _ => Raise TypeError
  end.

End Json.

Import Json.

Declare Scope py_scope.
Delimit Scope py_scope with py.
Notation "x <- e ;; k" := (Json.bind e (fun x => k))
  (at level 61, e at next level, right associativity) : py_scope.

(** ** Telemetry extractor *)

(** What [requests.get(OHM_URL, timeout=4)], [raise_for_status()] and
    [response.json()] come to. *)
Inductive ohm_response :=
| RequestException
| JSONDecodeError
| Document (data : value).

(** [max(l)] of a non-empty list: a later item replaces the current one when
    it compares greater. *)
Definition py_max (first : spec_float) (others : list spec_float) : spec_float :=
  fold_left (fun m x => if SFltb m x then x else m) others first.

Section Extractor.
Local Open Scope py_scope.

(** Lines 67-74: the test that sets [is_cpu]. *)
Definition is_cpu (hardware_item : value) : result bool :=
  text <- get hardware_item "Text" (Str EmptyString) ;;
  hardware_text_lower <- lower text ;;
  if Py.contains "cpu" hardware_text_lower
     || Py.contains "intel" hardware_text_lower
     || Py.contains "amd" hardware_text_lower
  then Ok true
  else
    image <- get hardware_item "ImageURL" (Str EmptyString) ;;
    endswith image "cpu.png".

(** Lines 79-87, the loop over the sensors of one group.  [Ok (Some t)]:
    [t] was appended and [break] left the loop; [Ok None]: the loop ran to
    its end without appending. *)
Fixpoint scan_sensors (sensors : list value) : result (option spec_float) :=
  match sensors with
  | [] => Ok None
  | temp_sensor :: rest =>
      text <- get temp_sensor "Text" (Str EmptyString) ;;
      if eq_str text "CPU Package" && has_key temp_sensor "Value" then
        reading <- get temp_sensor "Value" Null ;;
        match reading with
        | Str v =>
            match Py.split v with
            | temp_str :: _ =>
                match Py.float temp_str with
                | Some temp_val => Ok (Some temp_val)
                | None => scan_sensors rest          (* ValueError *)
                end
            | [] => scan_sensors rest                 (* IndexError *)
            end
        | _ => Raise AttributeError                   (* no [split] *)
        end
      else scan_sensors rest
  end.

(** Lines 77-87, the loop over the children of one hardware item. *)
Fixpoint scan_components (components : list value)
    (package_temps : list spec_float) : result (list spec_float) :=
  match components with
  | [] => Ok package_temps
  | component :: rest =>
      text <- get component "Text" (Str EmptyString) ;;
      if eq_str text "Temperatures" then
        children <- get component "Children" (Arr []) ;;
        sensors <- iterate children ;;
        found <- scan_sensors sensors ;;
        scan_components rest
          match found with
          | Some temp_val => package_temps ++ [temp_val]
          | None => package_temps
          end
      else scan_components rest package_temps
  end.

(** Lines 66-87, the loop over the hardware items. *)
Fixpoint scan_hardware (hardware_list : list value)
    (package_temps : list spec_float) : result (list spec_float) :=
  match hardware_list with
  | [] => Ok package_temps
  | hardware_item :: rest =>
      cpu <- is_cpu hardware_item ;;
      if cpu then
        children <- get hardware_item "Children" (Arr []) ;;
        components <- iterate children ;;
        package_temps' <- scan_components components package_temps ;;
        scan_hardware rest package_temps'
      else scan_hardware rest package_temps
  end.

(** [None] is the Python [None]: no reading. *)
Definition get_cpu_package_temp_from_ohm (response : ohm_response)
  : result (option spec_float) :=
  match response with
  | RequestException => Ok None
  | JSONDecodeError => Ok None
  | Document data =>
      children <- get data "Children" Null ;;
      if negb (truthy children) || negb (is_list children)
         || negb (truthy children)
      then Ok None
      else
        match children with
        | Arr (computer_node :: _) =>
            hardware <- get computer_node "Children" Null ;;
            if negb (truthy hardware) || negb (is_list hardware)
            then Ok None
            else
              match hardware with
              | Arr hardware_list =>
                  package_temps <- scan_hardware hardware_list [] ;;
                  match package_temps with
                  | [] => Ok None
                  | t :: others => Ok (Some (py_max t others))
                  end
              | _ => Ok None
              end
        | _ => Ok None
        end
  end.

End Extractor.

(** ** Configuration *)

Definition IDRAC_IP := "10.10.10.194".
Definition IDRAC_USER := "root".
Definition IDRAC_PASSWORD := "calvin".
Definition IPMITOOL_PATH := "C:\DFan\ipmitool.exe".

Definition TEMP_LOW_THRESHOLD_NEW : Z := 60.
Definition TEMP_AUTO_THRESHOLD_NEW : Z := 70.

Definition FAN_SPEED_LOW_HEX_NEW := "0x0A".
Definition FAN_SPEED_MEDIUM_HEX_NEW := "0x32".

Definition DELL_DISABLE_AUTO_FAN_CMD_ARGS := ["raw"; "0x30"; "0x30"; "0x01"; "0x00"].
Definition DELL_ENABLE_AUTO_FAN_CMD_ARGS := ["raw"; "0x30"; "0x30"; "0x01"; "0x01"].
Definition DELL_SET_FAN_SPEED_PREFIX_CMD_ARGS := ["raw"; "0x30"; "0x30"; "0x02"; "0xff"].

(** ** Comparing a float with an integer constant *)

(** The float an [int] is compared as; exact for the small constants of the
    script. *)
Definition float_of_int (n : Z) : spec_float := binary_normalize 53 1024 n 0 false.

(** [x >= n] and [x < n] for a float [x] and an int [n]. *)
Definition ge_int (x : spec_float) (n : Z) : bool := SFleb (float_of_int n) x.
Definition lt_int (x : spec_float) (n : Z) : bool := SFltb x (float_of_int n).

(** ** Program state, console and processes *)

(** One call of [subprocess.run]. *)
Record invocation := { argv : list string; timeout : Z }.

(** What [subprocess.run(..., capture_output=True, text=True, check=True,
    timeout=...)] comes to: the process ends with a return code, or the call
    raises. *)
Inductive run_result :=
| Exited (returncode : Z) (stdout stderr : string)
| TimeoutExpired
| FileNotFoundError
| OtherException.

(** The value [run_ipmi_command] returns: a string, [True]/[False] or [None]. *)
Inductive pyval :=
| PStr (s : string)
| PBool (b : bool)
| PNone.

Definition is_true (v : pyval) : bool :=
  match v with
  | PStr EmptyString => false
  | PStr _ => true
  | PBool b => b
  | PNone => false
  end.

(** The messages of the script, one constructor for each [print] (or block of
    adjacent prints), with the values it interpolates. *)
Inductive line :=
| IpmiMaybeExecuted (cmd : string) (returncode : Z)
| IpmiError
| IpmiErrorCommand (cmd : string)
| IpmiErrorCode (returncode : Z)
| IpmiErrorStdout (out : string)
| IpmiErrorStderr (err : string)
| IpmiTimeout (cmd : string)
| IpmiNotFound
| IpmiUnknownError (cmd : string)
| AutoAttempt
| AutoDone
| AutoFailed
| ManualAttempt
| ManualDone
| ManualFailed
| SpeedInvalid (speed_hex : string)
| SpeedNeedsManual
| SpeedFailed (speed_hex : string)
| Banner
| TickHeader
| LocalTemp (t : spec_float)
| DecisionAuto (t : spec_float)
| DecisionLow (t : spec_float) (speed_hex : string)
| DecisionMedium (t : spec_float) (speed_hex : string)
| SpeedApplied (speed_hex : string) (percent : Z)
| NoReading
| Waiting
| Interrupted
| UncaughtError (e : exn)
| Exiting
| LastTemp (t : spec_float)
| FinalAuto (t : spec_float)
| FinalKeep (t : spec_float)
| FinalBlind
| Finished.

Record state := {
  idrac_fan_mode_is_manual : option bool;   (* None, Some false (auto), Some true (manual) *)
  spawned : list invocation;                (* every subprocess.run so far, oldest first *)
  console : list line                       (* everything printed so far, oldest first *)
}.

Definition initial : state :=
  {| idrac_fan_mode_is_manual := None; spawned := []; console := [] |}.

(** A computation that reads and updates the program state. *)
Definition M (A : Type) : Type := state -> A * state.

Definition ret {A} (a : A) : M A := fun st => (a, st).

Definition bind {A B} (m : M A) (k : A -> M B) : M B :=
  fun st => let (a, st') := m st in k a st'.

Declare Scope ctl_scope.
Delimit Scope ctl_scope with ctl.
Notation "x <- e ;; k" := (bind e (fun x => k))
  (at level 61, e at next level, right associativity) : ctl_scope.
Notation "e ;; k" := (bind e (fun _ => k))
  (at level 61, right associativity) : ctl_scope.

Definition print (l : line) : M unit :=
  fun st => (tt, {| idrac_fan_mode_is_manual := idrac_fan_mode_is_manual st;
                    spawned := spawned st;
                    console := console st ++ [l] |}).

Definition set_mode (m : option bool) : M unit :=
  fun st => (tt, {| idrac_fan_mode_is_manual := m;
                    spawned := spawned st;
                    console := console st |}).

Definition get_mode : M (option bool) :=
  fun st => (idrac_fan_mode_is_manual st, st).

Definition when (b : bool) (m : M unit) : M unit := if b then m else ret tt.

Definition nonempty (s : string) : bool :=
  match s with EmptyString => false | _ => true end.

Definition member (x : string) (l : list string) : bool := existsb (String.eqb x) l.

(** ** Command layer and control loop *)

Section Control.
Local Open Scope ctl_scope.

(** The answer of the outside world to the [n]-th process the script
    starts. *)
Variable subprocess_run : nat -> invocation -> run_result.

Definition run (full_cmd : list string) (timeout_duration : Z) : M run_result :=
  fun st =>
    let call := {| argv := full_cmd; timeout := timeout_duration |} in
    (subprocess_run (List.length (spawned st)) call,
     {| idrac_fan_mode_is_manual := idrac_fan_mode_is_manual st;
        spawned := spawned st ++ [call];
        console := console st |}).

Definition base_cmd : list string :=
  [IPMITOOL_PATH; "-I"; "lanplus"; "-H"; IDRAC_IP;
   "-U"; IDRAC_USER; "-P"; IDRAC_PASSWORD].

Definition run_ipmi_command (command_args : list string) (expect_output : bool)
  : M pyval :=
  let full_cmd := base_cmd ++ command_args in
  let timeout_duration := if member "sdr" command_args then 45 else 15 in
  let failed := if expect_output then PNone else PBool false in
  result <- run full_cmd timeout_duration ;;
  match result with
  | Exited returncode stdout stderr =>
      if returncode =? 0 then
        ret (if expect_output then PStr (Py.strip stdout) else PBool true)
      else
        let stderr_output := if nonempty stderr then Py.strip stderr else EmptyString in
        if negb expect_output && negb (nonempty stderr_output)
           && member "raw" full_cmd
        then
          print (IpmiMaybeExecuted (Py.join full_cmd) returncode) ;;
          ret (PBool true)
        else
          print IpmiError ;;
          when (match full_cmd with [] => false | _ => true end)
            (print (IpmiErrorCommand (Py.join full_cmd))) ;;
          print (IpmiErrorCode returncode) ;;
          when (nonempty stdout) (print (IpmiErrorStdout (Py.strip stdout))) ;;
          when (nonempty stderr_output) (print (IpmiErrorStderr stderr_output)) ;;
          ret failed
  | TimeoutExpired => print (IpmiTimeout (Py.join full_cmd)) ;; ret failed
  | FileNotFoundError => print IpmiNotFound ;; ret failed
  | OtherException => print (IpmiUnknownError (Py.join full_cmd)) ;; ret failed
  end.

Definition set_idrac_fan_mode_auto : M bool :=
  print AutoAttempt ;;
  r <- run_ipmi_command DELL_ENABLE_AUTO_FAN_CMD_ARGS false ;;
  if is_true r then
    print AutoDone ;; set_mode (Some false) ;; ret true
  else
    print AutoFailed ;; set_mode None ;; ret false.

Definition ensure_idrac_fan_mode_manual : M bool :=
  mode <- get_mode ;;
  match mode with
  | Some true => ret true
  | _ =>
      print ManualAttempt ;;
      r <- run_ipmi_command DELL_DISABLE_AUTO_FAN_CMD_ARGS false ;;
      if is_true r then
        print ManualDone ;; set_mode (Some true) ;; ret true
      else
        print ManualFailed ;; set_mode None ;; ret false
  end.

Definition set_idrac_fan_speed_percentage (speed_hex : string) : M bool :=
  match Py.int16 speed_hex with
  | None => print (SpeedInvalid speed_hex) ;; ret false
  | Some speed_decimal =>
      manual <- ensure_idrac_fan_mode_manual ;;
      if negb manual then
        print SpeedNeedsManual ;; ret false
      else
        let command_args := DELL_SET_FAN_SPEED_PREFIX_CMD_ARGS ++ [speed_hex] in
        r <- run_ipmi_command command_args false ;;
        if is_true r then ret true
        else print (SpeedFailed speed_hex) ;; ret false
  end.

(** Lines 215-237: what one pass of the loop does with the value the
    extractor returned. *)
Definition control_step (local_cpu_temp : option spec_float) : M unit :=
  match local_cpu_temp with
  | Some t =>
      print (LocalTemp t) ;;
      if ge_int t TEMP_AUTO_THRESHOLD_NEW then
        print (DecisionAuto t) ;;
        set_idrac_fan_mode_auto ;;
        ret tt
      else
        let target_speed_hex :=
          if lt_int t TEMP_LOW_THRESHOLD_NEW
          then FAN_SPEED_LOW_HEX_NEW else FAN_SPEED_MEDIUM_HEX_NEW in
        print (if lt_int t TEMP_LOW_THRESHOLD_NEW
               then DecisionLow t target_speed_hex
               else DecisionMedium t target_speed_hex) ;;
        done <- set_idrac_fan_speed_percentage target_speed_hex ;;
        when done
          (print (SpeedApplied target_speed_hex
                    match Py.int16 target_speed_hex with Some n => n | None => 0 end))
  | None => print NoReading
  end.

(** How [main_control_loop] is left: it never returns. *)
Inductive loop_exit :=
| KeyboardInterrupt
| Uncaught (e : exn).

(** The [while True] loop, run on the telemetry answers of its successive
    passes.  Ctrl+C arrives in the wait that follows the last answer listed;
    an exception of the extractor leaves the loop at once. *)
Fixpoint control_loop (passes : list ohm_response) : M loop_exit :=
  match passes with
  | [] => ret KeyboardInterrupt
  | response :: later =>
      print TickHeader ;;
      match get_cpu_package_temp_from_ohm response with
      | Raise e => ret (Uncaught e)
      | Ok local_cpu_temp =>
          control_step local_cpu_temp ;;
          print Waiting ;;
          control_loop later
      end
  end.

Definition main_control_loop (passes : list ohm_response) : M loop_exit :=
  print Banner ;;
  set_mode None ;;
  control_loop passes.

(** The [finally] block of the script; [Raise e] when the extractor raises
    in it. *)
Definition finalization (response : ohm_response) : M (result unit) :=
  print Exiting ;;
  match get_cpu_package_temp_from_ohm response with
  | Raise e => ret (Raise e)
  | Ok last_known_local_temp =>
      match last_known_local_temp with
      | Some t =>
          print (LastTemp t) ;;
          if ge_int t TEMP_AUTO_THRESHOLD_NEW then
            print (FinalAuto t) ;; set_idrac_fan_mode_auto ;; ret tt
          else print (FinalKeep t)
      | None => print FinalBlind ;; set_idrac_fan_mode_auto ;; ret tt
      end ;;
      print Finished ;;
      ret (Ok tt)
  end.

(** The script run as a program: the loop, the [except] clause of its exit
    and the [finally] block. *)
Definition main (passes : list ohm_response) (last : ohm_response)
  : M (result unit) :=
  exit <- main_control_loop passes ;;
  match exit with
  | KeyboardInterrupt => print Interrupted
  | Uncaught e => print (UncaughtError e)
  end ;;
  finalization last.

End Control.

(** ** Vocabulary of the properties *)

(** *** Commands and the tracked mode *)

(** The three commands the script sends, as [subprocess.run] receives them. *)
Definition ipmi (command_args : list string) : invocation :=
  {| argv := base_cmd ++ command_args; timeout := 15 |}.

Definition ENABLE_AUTO : invocation := ipmi DELL_ENABLE_AUTO_FAN_CMD_ARGS.
Definition ENABLE_MANUAL : invocation := ipmi DELL_DISABLE_AUTO_FAN_CMD_ARGS.
Definition SET_SPEED (speed_hex : string) : invocation :=
  ipmi (DELL_SET_FAN_SPEED_PREFIX_CMD_ARGS ++ [speed_hex]).

Definition is_enable_manual (c : invocation) : bool :=
  if list_eq_dec string_dec (argv c) (argv ENABLE_MANUAL) then true else false.

(** How many of the calls are the manual-mode command. *)
Definition manual_enables (calls : list invocation) : nat :=
  List.length (filter is_enable_manual calls).

(** What a computation leaves of the fan: the tracked mode and the commands
    sent. *)
Definition fan (st : state) : option bool * list invocation :=
  (idrac_fan_mode_is_manual st, spawned st).

(** [run_ipmi_command], called with [command_args] from state [st], returns
    a true value. *)
Definition command_succeeds (subprocess_run : nat -> invocation -> run_result)
    (command_args : list string) (st : state) : bool :=
  is_true (fst (run_ipmi_command subprocess_run command_args false st)).

(** *** Actions *)

(** The target a pass of the loop announces before it acts. *)
Inductive FanAction :=
| SetAutoMode
| SetManualSpeed (speed_hex : string).

Definition announced (l : line) : list FanAction :=
  match l with
  | DecisionAuto _ => [SetAutoMode]
  | DecisionLow _ speed_hex => [SetManualSpeed speed_hex]
  | DecisionMedium _ speed_hex => [SetManualSpeed speed_hex]
  | _ => []
  end.

Definition actions (lines : list line) : list FanAction := flat_map announced lines.

(** The function of the script that carries an action out. *)
Definition perform (subprocess_run : nat -> invocation -> run_result)
    (a : FanAction) : M bool :=
  match a with
  | SetAutoMode => set_idrac_fan_mode_auto subprocess_run
  | SetManualSpeed speed_hex =>
      set_idrac_fan_speed_percentage subprocess_run speed_hex
  end.

(** A pass of the loop on reading [t] from state [st] announces the action
    [a] and nothing else, and does to the fan what carrying [a] out does. *)
Definition takes_action (subprocess_run : nat -> invocation -> run_result)
    (t : spec_float) (st : state) (a : FanAction) : Prop :=
  let st' := snd (control_step subprocess_run (Some t) st) in
  actions (console st') = actions (console st) ++ [a]
  /\ fan st' = fan (snd (perform subprocess_run a st)).

(** The two manual bands of the threshold policy, and the speed of each. *)
Definition manual_band (t : spec_float) : bool :=
  lt_int t TEMP_LOW_THRESHOLD_NEW
  || (ge_int t TEMP_LOW_THRESHOLD_NEW && lt_int t TEMP_AUTO_THRESHOLD_NEW).

Definition speed_for (t : spec_float) : string :=
  if lt_int t TEMP_LOW_THRESHOLD_NEW
  then FAN_SPEED_LOW_HEX_NEW else FAN_SPEED_MEDIUM_HEX_NEW.

(** The action the loop takes on reading [t] (lines 217-228). *)
Definition target (t : spec_float) : FanAction :=
  if ge_int t TEMP_AUTO_THRESHOLD_NEW then SetAutoMode
  else SetManualSpeed (speed_for t).

(** *** Outcome classes of a command *)

Inductive CommandOutcome := Success | AmbiguousSuccess | Failure.

(** [run_ipmi_command] reported a failure. *)
Definition is_failure (v : pyval) : bool :=
  match v with
  | PNone | PBool false => true
  | _ => false
  end.

Definition is_maybe_executed (l : line) : bool :=
  match l with IpmiMaybeExecuted _ _ => true | _ => false end.

(** The outcome class of a call of [run_ipmi_command], as its caller and a
    reader of the console see it: a false value is a failure; a true value
    comes with the "may have been executed" line or without it. *)
Definition classified (subprocess_run : nat -> invocation -> run_result)
    (command_args : list string) (expect_output : bool) (st : state)
  : CommandOutcome :=
  let result := run_ipmi_command subprocess_run command_args expect_output st in
  if is_failure (fst result) then Failure
  else if existsb is_maybe_executed
            (skipn (List.length (console st)) (console (snd result)))
       then AmbiguousSuccess
       else Success.

(** The outcome classes of the design document read literally: "non-empty
    diagnostic output" means that [stderr] is not the empty string. *)
Definition outcome_as_documented (raw_no_output : bool) (r : run_result)
  : CommandOutcome :=
  match r with
  | Exited returncode _ stderr =>
      if returncode =? 0 then Success
      else if nonempty stderr then Failure
      else if raw_no_output then AmbiguousSuccess else Failure
  | _ => Failure
  end.

(** The same classes with the diagnostic output taken after [strip()]. *)
Definition outcome_on_stripped_stderr (raw_no_output : bool) (r : run_result)
  : CommandOutcome :=
  match r with
  | Exited returncode _ stderr =>
      if returncode =? 0 then Success
      else if nonempty (Py.strip stderr) then Failure
      else if raw_no_output then AmbiguousSuccess else Failure
  | _ => Failure
  end.

(** *** Shutdown *)

Definition is_exiting (l : line) : bool :=
  match l with Exiting => true | _ => false end.

(** How many times the [finally] block was entered. *)
Definition finalizations (lines : list line) : nat :=
  List.length (filter is_exiting lines).

(** *** Telemetry documents read as trees *)

Module Snapshot.

Definition field (v : value) (key : string) : option value :=
  match v with Obj members => find key members | _ => None end.

Definition text (v : value) : string :=
  match field v "Text" with Some (Str s) => s | _ => EmptyString end.

Definition image (v : value) : string :=
  match field v "ImageURL" with Some (Str s) => s | _ => EmptyString end.

Definition children (v : value) : list value :=
  match field v "Children" with Some (Arr items) => items | _ => [] end.

Definition is_object (v : value) : bool :=
  match v with Obj _ => true | _ => false end.

Definition is_str (v : value) : bool :=
  match v with Str _ => true | _ => false end.

Definition typed (v : value) (key : string) (ok : value -> bool) : bool :=
  match field v key with Some x => ok x | None => true end.

(** A node: an object whose label, icon reference and value, where present,
    are texts and whose children, where present, are an array. *)
Definition node (v : value) : bool :=
  is_object v
  && typed v "Text" is_str && typed v "ImageURL" is_str
  && typed v "Value" is_str && typed v "Children" is_list.

Definition is_temperatures (g : value) : bool :=
  String.eqb (text g) "Temperatures".

Definition temperatures (hardware : value) : list value :=
  filter is_temperatures (children hardware).

Definition group_ok (g : value) : bool := node g && forallb node (children g).

(** A hardware node has at most one "Temperatures" group. *)
Definition hardware_ok (h : value) : bool :=
  node h && forallb group_ok (children h)
  && (Nat.leb (List.length (temperatures h)) 1).

Definition computer_ok (c : value) : bool :=
  node c && forallb hardware_ok (children c).

(** A well-formed snapshot: a root node whose children are computer nodes,
    with hardware nodes, groups and sensor leaves below. *)
Definition well_formed (data : value) : bool :=
  node data && forallb computer_ok (children data).

(** The root object has no non-empty "Children" array, or its first child is
    an object without one. *)
Definition lacks_hardware_array (data : value) : bool :=
  match children data with
  | [] => true
  | computer :: _ =>
      is_object computer
      && match children computer with [] => true | _ => false end
  end.

(** The hardware nodes: the children of the first child of the root. *)
Definition hardware_nodes (data : value) : list value :=
  match children data with
  | computer :: _ => children computer
  | [] => []
  end.

Definition cpu_class (hardware : value) : bool :=
  let label := Py.lower (text hardware) in
  Py.contains "cpu" label || Py.contains "intel" label
  || Py.contains "amd" label || Py.endswith (image hardware) "cpu.png".

(** The number a leaf named "CPU Package" shows, when its text starts with
    one. *)
Definition package_value (sensor : value) : option spec_float :=
  if String.eqb (text sensor) "CPU Package" then
    match field sensor "Value" with
    | Some (Str v) =>
        match Py.split v with
        | token :: _ => Py.float token
        | [] => None
        end
    | _ => None
    end
  else None.

Definition shown (sensor : value) : list spec_float :=
  match package_value sensor with Some t => [t] | None => [] end.

(** Every "CPU Package" value of a group, in the order of its leaves. *)
Definition package_values (group : value) : list spec_float :=
  flat_map shown (children group).

(** Every "CPU Package" value under the CPU-class nodes. *)
Definition every_package_value (data : value) : list spec_float :=
  flat_map (fun h => if cpu_class h
                     then flat_map package_values (temperatures h) else [])
    (hardware_nodes data).

(** What one group contributes: its first "CPU Package" value. *)
Definition group_reading (group : value) : list spec_float :=
  firstn 1 (package_values group).

Definition hardware_readings (hardware : value) : list spec_float :=
  if cpu_class hardware
  then flat_map group_reading (temperatures hardware)
  else [].

(** The first "CPU Package" value of each group of the CPU-class nodes. *)
Definition first_package_values (data : value) : list spec_float :=
  flat_map hardware_readings (hardware_nodes data).

Definition maximum (l : list spec_float) : option spec_float :=
  match l with
  | [] => None
  | t :: others => Some (py_max t others)
  end.

End Snapshot.

Definition is_nan (x : spec_float) : bool :=
  match x with S754_nan => true | _ => false end.

(** No value of the list is NaN. *)
Definition numbers (l : list spec_float) : bool :=
  forallb (fun x => negb (is_nan x)) l.

(** *** Observations a computation keeps *)

(** [m] leaves the observation [obs] of the state as it found it. *)
Definition preserves {A X : Type} (obs : state -> X) (m : M A) : Prop :=
  forall st, obs (snd (m st)) = obs st.

(** What [m] returns and does to the fan depends on the tracked mode and on
    the commands sent so far only, not on the console. *)
Definition fan_only {A : Type} (m : M A) : Prop :=
  forall st1 st2, fan st1 = fan st2 ->
    fst (m st1) = fst (m st2) /\ fan (snd (m st1)) = fan (snd (m st2)).

(** *** Concrete inputs *)

(** The float a decimal literal denotes. *)
Definition literal (s : string) : spec_float :=
  match Py.float s with Some x => x | None => S754_nan end.

(** The text of a temperature as the monitor shows it: the number, a space,
    the degree sign (code point 176) and "C". *)
Definition celsius (number : string) : string :=
  (number ++ " " ++ String "176" "C")%string.

(** A document with one CPU whose "Temperatures" group shows the given
    "CPU Package" texts. *)
Definition cpu_document (package_texts : list string) : value :=
  Obj [("id", Int 0); ("Text", Str "Sensor"); ("Children", Arr [
    Obj [("id", Int 1); ("Text", Str "HOST"); ("Children", Arr [
      Obj [("id", Int 2); ("Text", Str "Intel Xeon E5-2680");
           ("ImageURL", Str "images_icon/cpu.png");
           ("Children", Arr [
             Obj [("id", Int 3); ("Text", Str "Temperatures");
                  ("Children",
                   Arr (map (fun v => Obj [("Text", Str "CPU Package");
                                           ("Value", Str v)])
                          package_texts))]])]])]])].

(** The readings of the end-to-end scenario and telemetry documents that
    show them. *)
Definition scenario_readings : list spec_float :=
  map literal ["50.0"; "65.0"; "72.0"; "68.0"].

Definition scenario_passes : list ohm_response :=
  map (fun number => Document (cpu_document [celsius number]))
    ["50.0"; "65.0"; "72.0"; "68.0"].

(** Answers of the outside world to the commands. *)
Definition every_process_exits_0 (n : nat) (c : invocation) : run_result :=
  Exited 0 EmptyString EmptyString.

Definition first_process_times_out (n : nat) (c : invocation) : run_result :=
  match n with
  | O => TimeoutExpired
  | _ => Exited 0 EmptyString EmptyString
  end.

Definition every_process_times_out (n : nat) (c : invocation) : run_result :=
  TimeoutExpired.

Definition only_first_process_exits_0 (n : nat) (c : invocation) : run_result :=
  match n with
  | O => Exited 0 EmptyString EmptyString
  | _ => TimeoutExpired
  end.

Definition exits_1_blank_stderr (n : nat) (c : invocation) : run_result :=
  Exited 1 EmptyString " ".

Definition believed_manual : state :=
  {| idrac_fan_mode_is_manual := Some true; spawned := []; console := [] |}.

(** A document whose only hardware node has a null label. *)
Definition unlabelled_hardware_document : value :=
  Obj [("Children", Arr [
    Obj [("Children", Arr [
      Obj [("Text", Null); ("Children", Arr [])]])]])].

(** The program on one pass with the reading 50.0, every command accepted,
    left by Ctrl+C, with [last] the telemetry answer of the [finally]
    block. *)
Definition run_ending_on (last : ohm_response) : result unit * state :=
  main every_process_exits_0 [Document (cpu_document [celsius "50.0"])] last
    initial.

(** *** More vocabulary: what a computation prints *)

(** Every line [m] prints satisfies [P]. *)
Definition prints {A : Type} (P : line -> Prop) (m : M A) : Prop :=
  forall st, exists new,
    console (snd (m st)) = console st ++ new /\ Forall P new.



(** The process that [run_ipmi_command] starts from state [st]. *)
Definition call_of (command_args : list string) : invocation :=
  {| argv := base_cmd ++ command_args;
     timeout := if member "sdr" command_args then 45 else 15 |}.

(** *** More vocabulary: the commands of a whole run *)

Definition is_enable_auto (c : invocation) : bool :=
  if list_eq_dec string_dec (argv c) (argv ENABLE_AUTO) then true else false.

(** The two speeds of the threshold policy. *)
Definition speed_constant (speed_hex : string) : Prop :=
  In speed_hex [FAN_SPEED_LOW_HEX_NEW; FAN_SPEED_MEDIUM_HEX_NEW].

(** The only four processes the script has a reason to start. *)
Definition known_commands : list invocation :=
  [ENABLE_AUTO; ENABLE_MANUAL;
   SET_SPEED FAN_SPEED_LOW_HEX_NEW; SET_SPEED FAN_SPEED_MEDIUM_HEX_NEW].

(** The process of a raw command that expects no output ended in a way
    that [run_ipmi_command] takes for a success (possibly an ambiguous
    one). *)
Definition accepted (r : run_result) : bool :=
  match outcome_on_stripped_stderr true r with
  | Failure => false
  | _ => true
  end.

(** [pass_sends env n mode more mode']: from tracked mode [mode], when [n]
    processes were started before, the commands [more] are sent and the
    tracked mode becomes [mode'].  The five things a pass of the loop (or the
    [finally] block) can do to the fan. *)
Inductive pass_sends (subprocess_run : nat -> invocation -> run_result)
    (n : nat) : option bool -> list invocation -> option bool -> Prop :=
| SendsNothing mode : pass_sends subprocess_run n mode [] mode
| SendsAuto mode :
    pass_sends subprocess_run n mode [ENABLE_AUTO]
      (if accepted (subprocess_run n ENABLE_AUTO) then Some false else None)
| SendsSpeed speed_hex :
    speed_constant speed_hex ->
    pass_sends subprocess_run n (Some true) [SET_SPEED speed_hex] (Some true)
| SendsManualThenSpeed mode speed_hex :
    mode <> Some true -> speed_constant speed_hex ->
    accepted (subprocess_run n ENABLE_MANUAL) = true ->
    pass_sends subprocess_run n mode
      [ENABLE_MANUAL; SET_SPEED speed_hex] (Some true)
| SendsManualOnly mode :
    mode <> Some true ->
    accepted (subprocess_run n ENABLE_MANUAL) = false ->
    pass_sends subprocess_run n mode [ENABLE_MANUAL] None.

(** Whether the iDRAC is in manual mode going by the commands and their
    answers alone: the last mode command was the manual one and it was
    accepted.  [calls] are the processes number [n], [n+1], ...; [manual] is
    the answer before the first of them. *)
Fixpoint told_manual (subprocess_run : nat -> invocation -> run_result)
    (n : nat) (manual : bool) (calls : list invocation) : bool :=
  match calls with
  | [] => manual
  | c :: rest =>
      told_manual subprocess_run (S n)
        (if is_enable_manual c then accepted (subprocess_run n c)
         else if is_enable_auto c then false else manual)
        rest
  end.

(** Every command that is not a mode command (every speed command) comes
    when the last mode command sent was the manual one and was accepted. *)
Fixpoint speed_follows_manual (subprocess_run : nat -> invocation -> run_result)
    (n : nat) (manual : bool) (calls : list invocation) : bool :=
  match calls with
  | [] => true
  | c :: rest =>
      if is_enable_manual c
      then speed_follows_manual subprocess_run (S n)
             (accepted (subprocess_run n c)) rest
      else if is_enable_auto c
      then speed_follows_manual subprocess_run (S n) false rest
      else manual && speed_follows_manual subprocess_run (S n) manual rest
  end.

(** The extractor returns on this answer (it does not raise). *)
Definition returns (response : ohm_response) : bool :=
  match get_cpu_package_temp_from_ohm response with
  | Ok _ => true
  | Raise _ => false
  end.

(** *** More vocabulary: comparing actions and readings *)

(** How far an action lets the fans go: the low speed, the medium speed,
    the firmware's own control. *)
Definition escalation (a : FanAction) : nat :=
  match a with
  | SetManualSpeed speed_hex =>
      if String.eqb speed_hex FAN_SPEED_LOW_HEX_NEW then 0%nat else 1%nat
  | SetAutoMode => 2%nat
  end.

(** Two results of the extractor are the same reading: none both, or two
    floats that compare equal. *)
Definition same_reading (r1 r2 : option spec_float) : bool :=
  match r1, r2 with
  | Some x, Some y => SFeqb x y
  | None, None => true
  | _, _ => false
  end.

(** A document with two CPUs, each with one "CPU Package" leaf. *)
Definition two_cpu_document (first second : string) : value :=
  Obj [("id", Int 0); ("Text", Str "Sensor"); ("Children", Arr [
    Obj [("id", Int 1); ("Text", Str "HOST"); ("Children", Arr [
      Obj [("id", Int 2); ("Text", Str "Intel Xeon E5-2680 #1");
           ("ImageURL", Str "images_icon/cpu.png");
           ("Children", Arr [
             Obj [("id", Int 3); ("Text", Str "Temperatures");
                  ("Children",
                   Arr [Obj [("Text", Str "CPU Package");
                             ("Value", Str first)]])]])];
      Obj [("id", Int 4); ("Text", Str "Intel Xeon E5-2680 #2");
           ("ImageURL", Str "images_icon/cpu.png");
           ("Children", Arr [
             Obj [("id", Int 5); ("Text", Str "Temperatures");
                  ("Children",
                   Arr [Obj [("Text", Str "CPU Package");
                             ("Value", Str second)]])]])]])]])].

(** *** More vocabulary: console lines and value texts *)

Definition is_speed_applied (l : line) : bool :=
  match l with SpeedApplied _ _ => true | _ => false end.

(** No character of the text is whitespace. *)
Fixpoint no_space (s : string) : bool :=
  match s with
  | EmptyString => true
  | String c s' => negb (Py.isspace c) && no_space s'
  end.

(** Every character of the text is whitespace. *)
Fixpoint all_space (s : string) : bool :=
  match s with
  | EmptyString => true
  | String c s' => Py.isspace c && all_space s'
  end.

(** The text is empty or starts with a whitespace character. *)
Definition starts_blank (s : string) : bool :=
  match s with
  | EmptyString => true
  | String c _ => Py.isspace c
  end.

(** * Properties *)

(** ** The built-ins on examples *)

Example float_examples :
  Py.float "45.0" = Some (S754_finite false 6333186975989760 (-47))
  /\ Py.float "0.1" = Some (S754_finite false 7205759403792794 (-56))
  /\ Py.float "1_0.5e1" = Py.float "105"
  /\ Py.float "-Infinity" = Some (S754_infinity true)
  /\ Py.float "NaN" = Some S754_nan
  /\ Py.float "1e400" = Some (S754_infinity false)
  /\ Py.float "9007199254740993" = Py.float "9007199254740992"
  /\ Py.float "45,0" = None
  /\ Py.float "N/A" = None
  /\ Py.float EmptyString = None.
Proof. repeat split. Qed.

Example int16_examples :
  Py.int16 FAN_SPEED_LOW_HEX_NEW = Some 10
  /\ Py.int16 FAN_SPEED_MEDIUM_HEX_NEW = Some 50
  /\ Py.int16 " -0X_ff " = Some (-255)
  /\ Py.int16 "0x" = None
  /\ Py.int16 "1__0" = None
  /\ Py.int16 "50%" = None.
Proof. repeat split. Qed.

Example str_examples :
  Py.split (celsius "45.0") = ["45.0"; String "176" "C"]
  /\ Py.split "   " = []
  /\ Py.strip "  no route to host  " = "no route to host"
  /\ Py.lower "Intel Core i7-9700K" = "intel core i7-9700k"
  /\ Py.contains "amd" (Py.lower "AMD Ryzen 7") = true
  /\ Py.endswith "images_icon/cpu.png" "cpu.png" = true
  /\ Py.endswith "png" "cpu.png" = false.
Proof. repeat split. Qed.

(** The thresholds as floats. *)
Example threshold_examples :
  float_of_int TEMP_LOW_THRESHOLD_NEW = literal "60.0"
  /\ float_of_int TEMP_AUTO_THRESHOLD_NEW = literal "70.0"
  /\ ge_int (literal "69.99") TEMP_AUTO_THRESHOLD_NEW = false
  /\ ge_int S754_nan TEMP_AUTO_THRESHOLD_NEW = false
  /\ lt_int S754_nan TEMP_LOW_THRESHOLD_NEW = false.
Proof. repeat split. Qed.

(** ** The order of floats *)

Section FloatOrder.

Lemma compare_swap x y : SFcompare y x = option_map CompOpp (SFcompare x y).
Proof.
  destruct x as [sx|sx| |sx mx ex], y as [sy|sy| |sy my ey]; simpl;
    try reflexivity; try (destruct sx; reflexivity);
    try (destruct sy; reflexivity);
    try (destruct sx, sy; reflexivity).
  rewrite (Z.compare_antisym ex ey).
  change (Pos.compare_cont Eq my mx) with (Pos.compare my mx).
  change (Pos.compare_cont Eq mx my) with (Pos.compare mx my).
  rewrite (Pos.compare_antisym mx my).
  destruct sx, sy; simpl; try reflexivity;
    destruct (ex ?= ey); simpl; try reflexivity;
    destruct (mx ?= my)%positive; reflexivity.
Qed.

Lemma lt_then_not_ge x y : SFltb x y = true -> SFleb y x = false.
Proof.
  unfold SFltb, SFleb. rewrite (compare_swap x y).
  destruct (SFcompare x y) as [[]|]; simpl; congruence.
Qed.

Lemma lt_then_le x y : SFltb x y = true -> SFleb x y = true.
Proof.
  unfold SFltb, SFleb. destruct (SFcompare x y) as [[]|]; congruence.
Qed.

Lemma le_refl x : is_nan x = false -> SFleb x x = true.
Proof.
  unfold SFleb.
  destruct x as [s|s| |s m e]; simpl; try congruence;
    destruct s; try reflexivity; intros _;
    rewrite Z.compare_refl;
    change (Pos.compare_cont Eq m m) with (Pos.compare m m);
    rewrite Pos.compare_refl; reflexivity.
Qed.

Lemma not_lt_then_ge x y :
  is_nan x = false -> is_nan y = false -> SFltb x y = false -> SFleb y x = true.
Proof.
  unfold SFltb, SFleb. rewrite (compare_swap x y).
  destruct x as [sx|sx| |sx mx ex], y as [sy|sy| |sy my ey]; simpl;
    try congruence; intros _ _;
    try (destruct sx; simpl; congruence);
    try (destruct sy; simpl; congruence);
    try (destruct sx, sy; simpl; congruence).
  destruct sx, sy; simpl; try congruence;
    destruct (ex ?= ey); simpl; try congruence;
    destruct (Pos.compare_cont Eq mx my); simpl; congruence.
Qed.

Lemma le_trans x y z : SFleb x y = true -> SFleb y z = true -> SFleb x z = true.
Proof.
  unfold SFleb.
  destruct x as [sx|sx| |sx mx ex], y as [sy|sy| |sy my ey],
           z as [sz|sz| |sz mz ez]; simpl;
    try congruence;
    try (destruct sx; simpl; congruence);
    try (destruct sy; simpl; congruence);
    try (destruct sz; simpl; congruence);
    try (destruct sx, sy; simpl; congruence);
    try (destruct sy, sz; simpl; congruence);
    try (destruct sx, sz; simpl; congruence);
    try (destruct sx, sy, sz; simpl; congruence).
  change (Pos.compare_cont Eq mx my) with (Pos.compare mx my).
  change (Pos.compare_cont Eq my mz) with (Pos.compare my mz).
  change (Pos.compare_cont Eq mx mz) with (Pos.compare mx mz).
  destruct sx, sy, sz; simpl; try congruence;
    destruct (Z.compare_spec ex ey), (Z.compare_spec ey ez),
             (Z.compare_spec ex ez); try lia; simpl; try congruence;
    destruct (Pos.compare_spec mx my), (Pos.compare_spec my mz),
             (Pos.compare_spec mx mz); try lia; simpl; congruence.
Qed.

End FloatOrder.

(** ** Frame properties of the monadic code *)

Section Frames.

Variable env : nat -> invocation -> run_result.

Lemma preserves_ret {A X} (obs : state -> X) (a : A) : preserves obs (ret a).
Proof. intros st. reflexivity. Qed.

Lemma preserves_bind {A B X} (obs : state -> X) (m : M A) (k : A -> M B) :
  preserves obs m -> (forall a, preserves obs (k a)) -> preserves obs (bind m k).
Proof.
  intros Hm Hk st. unfold bind. specialize (Hm st).
  destruct (m st) as [a st1]. simpl in Hm. rewrite (Hk a st1). exact Hm.
Qed.

Lemma preserves_when {X} (obs : state -> X) (b : bool) (m : M unit) :
  preserves obs m -> preserves obs (when b m).
Proof. destruct b; simpl; auto using preserves_ret. Qed.

Lemma preserves_get_mode {X} (obs : state -> X) : preserves obs get_mode.
Proof. intros st. reflexivity. Qed.

Lemma fan_only_ret {A} (a : A) : fan_only (ret a).
Proof. intros st1 st2 H. split; [reflexivity | exact H]. Qed.

Lemma fan_only_bind {A B} (m : M A) (k : A -> M B) :
  fan_only m -> (forall a, fan_only (k a)) -> fan_only (bind m k).
Proof.
  intros Hm Hk st1 st2 H. unfold bind. specialize (Hm st1 st2 H).
  destruct (m st1) as [a1 s1], (m st2) as [a2 s2]. simpl in Hm.
  destruct Hm as [-> Hs]. exact (Hk a2 s1 s2 Hs).
Qed.

Lemma fan_only_when (b : bool) (m : M unit) : fan_only m -> fan_only (when b m).
Proof. destruct b; simpl; auto using fan_only_ret. Qed.

Lemma fan_only_print l : fan_only (print l).
Proof. intros st1 st2 H. split; [reflexivity | exact H]. Qed.

Lemma fan_only_set_mode m : fan_only (set_mode m).
Proof.
  intros st1 st2 H. split; [reflexivity|].
  unfold fan in *. simpl. congruence.
Qed.

Lemma fan_only_get_mode : fan_only get_mode.
Proof.
  intros st1 st2 H. split; [|exact H]. unfold fan in H. simpl. congruence.
Qed.

Lemma fan_only_run cmd t : fan_only (run env cmd t).
Proof.
  intros st1 st2 H. unfold fan in *. simpl.
  injection H as Hm Hs. rewrite Hm, Hs. split; reflexivity.
Qed.

(** Printing leaves the fan alone. *)
Lemma print_fan l : preserves fan (print l).
Proof. intros st. reflexivity. Qed.

Lemma print_mode l : preserves idrac_fan_mode_is_manual (print l).
Proof. intros st. reflexivity. Qed.

Lemma print_spawned l : preserves spawned (print l).
Proof. intros st. reflexivity. Qed.

Lemma set_mode_console {X} (f : list line -> X) m :
  preserves (fun st => f (console st)) (set_mode m).
Proof. intros st. reflexivity. Qed.

Lemma run_console {X} (f : list line -> X) cmd t :
  preserves (fun st => f (console st)) (run env cmd t).
Proof. intros st. reflexivity. Qed.

Lemma run_mode cmd t : preserves idrac_fan_mode_is_manual (run env cmd t).
Proof. intros st. reflexivity. Qed.

End Frames.

Create HintDb frame.

#[local] Hint Resolve preserves_ret preserves_bind preserves_when
  preserves_get_mode print_fan print_mode print_spawned set_mode_console
  run_console run_mode : frame.
#[local] Hint Resolve fan_only_ret fan_only_bind fan_only_when fan_only_print
  fan_only_set_mode fan_only_get_mode fan_only_run : frame.

(** Splits a goal about a piece of monadic code along its binds and
    branches. *)
Ltac frame :=
  repeat first
    [ solve [auto with frame]
    | progress intros
    | progress cbv zeta
    | apply preserves_bind
    | apply fan_only_bind
    | apply preserves_when
    | apply fan_only_when
    | match goal with
      | |- context [match ?x with _ => _ end] => destruct x
      end ].

Section CommandFrames.

Variable env : nat -> invocation -> run_result.

Lemma run_ipmi_command_fan_only args eo : fan_only (run_ipmi_command env args eo).
Proof. unfold run_ipmi_command. frame. Qed.

Lemma run_ipmi_command_mode args eo :
  preserves idrac_fan_mode_is_manual (run_ipmi_command env args eo).
Proof. unfold run_ipmi_command. frame. Qed.

Lemma set_idrac_fan_mode_auto_fan_only : fan_only (set_idrac_fan_mode_auto env).
Proof.
  unfold set_idrac_fan_mode_auto.
  pose proof run_ipmi_command_fan_only. frame.
Qed.

Lemma ensure_idrac_fan_mode_manual_fan_only :
  fan_only (ensure_idrac_fan_mode_manual env).
Proof.
  unfold ensure_idrac_fan_mode_manual.
  pose proof run_ipmi_command_fan_only. frame.
Qed.

Lemma set_idrac_fan_speed_percentage_fan_only speed_hex :
  fan_only (set_idrac_fan_speed_percentage env speed_hex).
Proof.
  unfold set_idrac_fan_speed_percentage.
  pose proof run_ipmi_command_fan_only.
  pose proof ensure_idrac_fan_mode_manual_fan_only. frame.
Qed.

End CommandFrames.

(** ** What the console and the command list gain *)

Section Traces.

Variable env : nat -> invocation -> run_result.

Lemma snd_bind {A B} (m : M A) (k : A -> M B) st :
  snd (bind m k st) = snd (k (fst (m st)) (snd (m st))).
Proof. unfold bind. destruct (m st); reflexivity. Qed.

Lemma fst_bind {A B} (m : M A) (k : A -> M B) st :
  fst (bind m k st) = fst (k (fst (m st)) (snd (m st))).
Proof. unfold bind. destruct (m st); reflexivity. Qed.

Lemma actions_app l1 l2 : actions (l1 ++ l2) = actions l1 ++ actions l2.
Proof. apply flat_map_app. Qed.

Lemma finalizations_app l1 l2 :
  finalizations (l1 ++ l2) = (finalizations l1 + finalizations l2)%nat.
Proof. unfold finalizations. rewrite filter_app, length_app. reflexivity. Qed.

Lemma print_quiet l :
  announced l = [] -> preserves (fun st => actions (console st)) (print l).
Proof.
  intros H st. simpl. rewrite actions_app. simpl. rewrite H. simpl.
  apply app_nil_r.
Qed.

Lemma print_not_exiting l :
  is_exiting l = false ->
  preserves (fun st => finalizations (console st)) (print l).
Proof.
  intros H st. simpl. rewrite finalizations_app.
  unfold finalizations at 2. simpl. rewrite H. simpl. lia.
Qed.

End Traces.

#[local] Hint Resolve print_quiet print_not_exiting : frame.
#[local] Hint Extern 1 (is_exiting _ = false) => reflexivity : frame.
#[local] Hint Extern 1 (announced _ = []) => reflexivity : frame.

Section CommandTraces.

Variable env : nat -> invocation -> run_result.

Lemma run_ipmi_command_quiet args eo :
  preserves (fun st => actions (console st)) (run_ipmi_command env args eo).
Proof. unfold run_ipmi_command. frame. Qed.

Lemma set_idrac_fan_mode_auto_quiet :
  preserves (fun st => actions (console st)) (set_idrac_fan_mode_auto env).
Proof.
  unfold set_idrac_fan_mode_auto. pose proof run_ipmi_command_quiet. frame.
Qed.

Lemma ensure_idrac_fan_mode_manual_quiet :
  preserves (fun st => actions (console st)) (ensure_idrac_fan_mode_manual env).
Proof.
  unfold ensure_idrac_fan_mode_manual. pose proof run_ipmi_command_quiet. frame.
Qed.

Lemma set_idrac_fan_speed_percentage_quiet speed_hex :
  preserves (fun st => actions (console st))
    (set_idrac_fan_speed_percentage env speed_hex).
Proof.
  unfold set_idrac_fan_speed_percentage.
  pose proof run_ipmi_command_quiet.
  pose proof ensure_idrac_fan_mode_manual_quiet. frame.
Qed.

Lemma perform_quiet a :
  preserves (fun st => actions (console st)) (perform env a).
Proof.
  destruct a; simpl;
    auto using set_idrac_fan_mode_auto_quiet, set_idrac_fan_speed_percentage_quiet.
Qed.

Lemma perform_fan_only a : fan_only (perform env a).
Proof.
  destruct a; simpl;
    auto using set_idrac_fan_mode_auto_fan_only,
               set_idrac_fan_speed_percentage_fan_only.
Qed.

(** A pass that prints two lines, carries [a] out and may print one more
    line that announces nothing. *)
Lemma announce_then_perform (t : spec_float) (l : line) (a : FanAction)
    (after : bool -> M unit) st :
  announced l = [a] ->
  (forall b, preserves (fun s => actions (console s)) (after b)) ->
  (forall b, preserves fan (after b)) ->
  let st' := snd (bind (print (LocalTemp t))
                    (fun _ => bind (print l)
                       (fun _ => bind (perform env a) after)) st) in
  actions (console st') = actions (console st) ++ [a]
  /\ fan st' = fan (snd (perform env a st)).
Proof.
  intros Hl Hq Hf. cbv zeta. rewrite !snd_bind.
  set (st1 := snd (print l (snd (print (LocalTemp t) st)))).
  split.
  - rewrite Hq, perform_quiet. subst st1. simpl.
    rewrite !actions_app. simpl. rewrite Hl. simpl.
    rewrite app_nil_r. reflexivity.
  - rewrite Hf. apply perform_fan_only. reflexivity.
Qed.

End CommandTraces.

(** ** The decision of a pass (C1) *)

Lemma control_step_auto env t st :
  ge_int t TEMP_AUTO_THRESHOLD_NEW = true -> takes_action env t st SetAutoMode.
Proof.
  intros H. unfold takes_action, control_step. rewrite H.
  apply (announce_then_perform env t (DecisionAuto t) SetAutoMode (fun _ => ret tt));
    [reflexivity | frame | frame].
Qed.

Lemma control_step_manual env t st :
  ge_int t TEMP_AUTO_THRESHOLD_NEW = false ->
  takes_action env t st (SetManualSpeed (speed_for t)).
Proof.
  intros H. unfold takes_action, control_step, speed_for. rewrite H.
  apply (announce_then_perform env t _ (SetManualSpeed _)
           (fun done => when done (print (SpeedApplied _ _))));
    [destruct (lt_int t TEMP_LOW_THRESHOLD_NEW); reflexivity | frame | frame].
Qed.

Lemma below_low_not_auto t :
  lt_int t TEMP_LOW_THRESHOLD_NEW = true -> ge_int t TEMP_AUTO_THRESHOLD_NEW = false.
Proof.
  unfold lt_int, ge_int. intros H.
  destruct (SFleb (float_of_int TEMP_AUTO_THRESHOLD_NEW) t) eqn:E; [|reflexivity].
  assert (L : SFleb (float_of_int TEMP_LOW_THRESHOLD_NEW)
                (float_of_int TEMP_AUTO_THRESHOLD_NEW) = true) by reflexivity.
  pose proof (le_trans _ _ _ L E) as C.
  rewrite (lt_then_not_ge _ _ H) in C. discriminate.
Qed.

Lemma below_auto_not_auto t :
  lt_int t TEMP_AUTO_THRESHOLD_NEW = true -> ge_int t TEMP_AUTO_THRESHOLD_NEW = false.
Proof. apply lt_then_not_ge. Qed.

Lemma at_least_low_not_low t :
  ge_int t TEMP_LOW_THRESHOLD_NEW = true -> lt_int t TEMP_LOW_THRESHOLD_NEW = false.
Proof.
  unfold lt_int, ge_int. intros H.
  destruct (SFltb t (float_of_int TEMP_LOW_THRESHOLD_NEW)) eqn:E; [|reflexivity].
  rewrite (lt_then_not_ge _ _ E) in H. discriminate.
Qed.

(** C1. For every reading [t] a pass of the loop takes exactly one action:
    [t >= 70] gives SetAutoMode, [60 <= t < 70] gives SetManualSpeed at the
    medium speed, [t < 60] gives SetManualSpeed at the low speed; a reading of
    exactly 60 is in the medium band and one of exactly 70 in the auto band. *)
Theorem decision_bands :
  forall (subprocess_run : nat -> invocation -> run_result)
         (t : spec_float) (st : state),
    (ge_int t TEMP_AUTO_THRESHOLD_NEW = true ->
       takes_action subprocess_run t st SetAutoMode)
    /\ (ge_int t TEMP_LOW_THRESHOLD_NEW = true ->
        lt_int t TEMP_AUTO_THRESHOLD_NEW = true ->
          takes_action subprocess_run t st (SetManualSpeed FAN_SPEED_MEDIUM_HEX_NEW))
    /\ (lt_int t TEMP_LOW_THRESHOLD_NEW = true ->
          takes_action subprocess_run t st (SetManualSpeed FAN_SPEED_LOW_HEX_NEW))
    /\ takes_action subprocess_run (float_of_int TEMP_LOW_THRESHOLD_NEW) st
         (SetManualSpeed FAN_SPEED_MEDIUM_HEX_NEW)
    /\ takes_action subprocess_run (float_of_int TEMP_AUTO_THRESHOLD_NEW) st
         SetAutoMode.
Proof.
  intros env t st. split; [|split; [|split; [|split]]].
  - apply control_step_auto.
  - intros Hlow Hauto.
    pose proof (control_step_manual env t st (below_auto_not_auto t Hauto)) as H.
    unfold speed_for in H. rewrite (at_least_low_not_low t Hlow) in H. exact H.
  - intros Hlow.
    pose proof (control_step_manual env t st (below_low_not_auto t Hlow)) as H.
    unfold speed_for in H. rewrite Hlow in H. exact H.
  - apply (control_step_manual env (float_of_int TEMP_LOW_THRESHOLD_NEW) st).
    reflexivity.
  - apply control_step_auto. reflexivity.
Qed.

Lemma decision_bands_witness :
  takes_action every_process_exits_0 (literal "72.5") initial SetAutoMode
  /\ takes_action every_process_exits_0 (literal "65.0") initial
       (SetManualSpeed FAN_SPEED_MEDIUM_HEX_NEW)
  /\ takes_action every_process_exits_0 (literal "41.5") initial
       (SetManualSpeed FAN_SPEED_LOW_HEX_NEW).
Proof.
  split; [|split].
  - exact (proj1 (decision_bands every_process_exits_0 (literal "72.5") initial)
             eq_refl).
  - exact (proj1 (proj2 (decision_bands every_process_exits_0 (literal "65.0")
                           initial)) eq_refl eq_refl).
  - exact (proj1 (proj2 (proj2 (decision_bands every_process_exits_0
                                  (literal "41.5") initial))) eq_refl).
Defined.

(** ** What each command function does to the fan *)

Section Commands.

Variable env : nat -> invocation -> run_result.

Lemma run_ipmi_command_spawned args eo st :
  spawned (snd (run_ipmi_command env args eo st))
  = spawned st ++ [{| argv := base_cmd ++ args;
                      timeout := if member "sdr" args then 45 else 15 |}].
Proof.
  unfold run_ipmi_command. cbv zeta. rewrite snd_bind.
  match goal with
  | |- spawned (snd (?m ?s)) = _ =>
      assert (K : preserves spawned m) by frame; rewrite K
  end.
  reflexivity.
Qed.

Lemma run_ipmi_command_fan args eo st :
  fan (snd (run_ipmi_command env args eo st))
  = (idrac_fan_mode_is_manual st,
     spawned st ++ [{| argv := base_cmd ++ args;
                       timeout := if member "sdr" args then 45 else 15 |}]).
Proof.
  unfold fan. rewrite run_ipmi_command_spawned, run_ipmi_command_mode.
  reflexivity.
Qed.

Lemma command_succeeds_fan args st1 st2 :
  fan st1 = fan st2 -> command_succeeds env args st1 = command_succeeds env args st2.
Proof.
  intros H. unfold command_succeeds.
  destruct (run_ipmi_command_fan_only env args false st1 st2 H) as [-> _].
  reflexivity.
Qed.

Lemma set_idrac_fan_mode_auto_spec st :
  let ok := command_succeeds env DELL_ENABLE_AUTO_FAN_CMD_ARGS st in
  fst (set_idrac_fan_mode_auto env st) = ok
  /\ fan (snd (set_idrac_fan_mode_auto env st))
     = ((if ok then Some false else None), spawned st ++ [ENABLE_AUTO]).
Proof.
  cbv zeta. unfold set_idrac_fan_mode_auto.
  rewrite fst_bind, snd_bind, fst_bind, snd_bind.
  set (st1 := snd (print AutoAttempt st)).
  assert (E : command_succeeds env DELL_ENABLE_AUTO_FAN_CMD_ARGS st
              = command_succeeds env DELL_ENABLE_AUTO_FAN_CMD_ARGS st1)
    by (apply command_succeeds_fan; reflexivity).
  rewrite E. unfold command_succeeds.
  pose proof (run_ipmi_command_fan DELL_ENABLE_AUTO_FAN_CMD_ARGS false st1) as F.
  destruct (run_ipmi_command env DELL_ENABLE_AUTO_FAN_CMD_ARGS false st1)
    as [r st2].
  simpl fst in *. simpl snd in *. unfold fan in F. injection F as Fm Fs.
  destruct (is_true r); split; try reflexivity;
    unfold fan; simpl; rewrite Fs; reflexivity.
Qed.

Lemma ensure_manual_when_manual st :
  idrac_fan_mode_is_manual st = Some true ->
  ensure_idrac_fan_mode_manual env st = (true, st).
Proof.
  intros H. unfold ensure_idrac_fan_mode_manual, bind, get_mode.
  rewrite H. reflexivity.
Qed.

Lemma ensure_manual_otherwise st :
  idrac_fan_mode_is_manual st <> Some true ->
  let ok := command_succeeds env DELL_DISABLE_AUTO_FAN_CMD_ARGS st in
  fst (ensure_idrac_fan_mode_manual env st) = ok
  /\ fan (snd (ensure_idrac_fan_mode_manual env st))
     = ((if ok then Some true else None), spawned st ++ [ENABLE_MANUAL]).
Proof.
  intros H. cbv zeta. unfold ensure_idrac_fan_mode_manual.
  rewrite fst_bind, snd_bind. simpl (fst (get_mode st)). simpl (snd (get_mode st)).
  assert (G : forall k : M bool,
             match idrac_fan_mode_is_manual st with
             | Some true => ret true
             | _ => k
             end = k)
    by (intros k; destruct (idrac_fan_mode_is_manual st) as [[]|];
        congruence).
  rewrite G. clear G.
  rewrite fst_bind, snd_bind, fst_bind, snd_bind.
  set (st1 := snd (print ManualAttempt st)).
  assert (E : command_succeeds env DELL_DISABLE_AUTO_FAN_CMD_ARGS st
              = command_succeeds env DELL_DISABLE_AUTO_FAN_CMD_ARGS st1)
    by (apply command_succeeds_fan; reflexivity).
  rewrite E. unfold command_succeeds.
  pose proof (run_ipmi_command_fan DELL_DISABLE_AUTO_FAN_CMD_ARGS false st1) as F.
  destruct (run_ipmi_command env DELL_DISABLE_AUTO_FAN_CMD_ARGS false st1)
    as [r st2].
  simpl fst in *. simpl snd in *. unfold fan in F. injection F as Fm Fs.
  destruct (is_true r); split; try reflexivity;
    unfold fan; simpl; rewrite Fs; reflexivity.
Qed.

Lemma hex_literal_is_not_sdr speed_hex :
  Py.int16 speed_hex <> None ->
  member "sdr" (DELL_SET_FAN_SPEED_PREFIX_CMD_ARGS ++ [speed_hex]) = false.
Proof.
  intros H. unfold member. rewrite existsb_app.
  change (existsb (String.eqb "sdr") DELL_SET_FAN_SPEED_PREFIX_CMD_ARGS) with false.
  cbn [existsb orb]. rewrite orb_false_r.
  destruct (String.eqb_spec "sdr" speed_hex) as [<-|]; [|reflexivity].
  exfalso. apply H. reflexivity.
Qed.

(** The speed command itself, once the mode is settled. *)
Lemma speed_command_fan speed_hex st :
  Py.int16 speed_hex <> None ->
  fan (snd (run_ipmi_command env
              (DELL_SET_FAN_SPEED_PREFIX_CMD_ARGS ++ [speed_hex]) false st))
  = (idrac_fan_mode_is_manual st, spawned st ++ [SET_SPEED speed_hex]).
Proof.
  intros H. rewrite run_ipmi_command_fan, (hex_literal_is_not_sdr _ H).
  reflexivity.
Qed.

(** [set_idrac_fan_speed_percentage] on a hexadecimal literal, by the
    outcome of [ensure_idrac_fan_mode_manual]. *)
Lemma set_speed_after_ensure speed_hex st :
  Py.int16 speed_hex <> None ->
  let entered := ensure_idrac_fan_mode_manual env st in
  if fst entered then
    fst (set_idrac_fan_speed_percentage env speed_hex st)
    = command_succeeds env (DELL_SET_FAN_SPEED_PREFIX_CMD_ARGS ++ [speed_hex])
        (snd entered)
    /\ fan (snd (set_idrac_fan_speed_percentage env speed_hex st))
       = (idrac_fan_mode_is_manual (snd entered),
          spawned (snd entered) ++ [SET_SPEED speed_hex])
  else
    fst (set_idrac_fan_speed_percentage env speed_hex st) = false
    /\ fan (snd (set_idrac_fan_speed_percentage env speed_hex st))
       = fan (snd entered).
Proof.
  intros H. cbv zeta. unfold set_idrac_fan_speed_percentage.
  pose proof H as H'.
  destruct (Py.int16 speed_hex) as [n|] eqn:E in H' |- *; [|congruence].
  rewrite fst_bind, snd_bind.
  pose proof (speed_command_fan speed_hex) as F.
  set (args := DELL_SET_FAN_SPEED_PREFIX_CMD_ARGS ++ [speed_hex]) in *.
  destruct (ensure_idrac_fan_mode_manual env st) as [[] st1]; simpl fst; simpl snd;
    simpl negb; cbv iota.
  - rewrite fst_bind, snd_bind. unfold command_succeeds.
    specialize (F st1 H).
    destruct (run_ipmi_command env args false st1) as [r st2].
    simpl fst in *. simpl snd in *.
    destruct (is_true r); split; try reflexivity; exact F.
  - split; reflexivity.
Qed.

Lemma set_speed_when_manual speed_hex st :
  Py.int16 speed_hex <> None ->
  idrac_fan_mode_is_manual st = Some true ->
  fan (snd (set_idrac_fan_speed_percentage env speed_hex st))
  = (Some true, spawned st ++ [SET_SPEED speed_hex]).
Proof.
  intros Hhex Hmode.
  pose proof (set_speed_after_ensure speed_hex st Hhex) as S.
  cbv zeta in S. rewrite (ensure_manual_when_manual st Hmode) in S.
  simpl in S. destruct S as [_ S]. rewrite S, Hmode. reflexivity.
Qed.

Lemma set_speed_otherwise speed_hex st :
  Py.int16 speed_hex <> None ->
  idrac_fan_mode_is_manual st <> Some true ->
  if command_succeeds env DELL_DISABLE_AUTO_FAN_CMD_ARGS st
  then fan (snd (set_idrac_fan_speed_percentage env speed_hex st))
       = (Some true, spawned st ++ [ENABLE_MANUAL; SET_SPEED speed_hex])
  else fan (snd (set_idrac_fan_speed_percentage env speed_hex st))
       = (None, spawned st ++ [ENABLE_MANUAL])
       /\ fst (set_idrac_fan_speed_percentage env speed_hex st) = false.
Proof.
  intros Hhex Hmode.
  pose proof (set_speed_after_ensure speed_hex st Hhex) as S.
  destruct (ensure_manual_otherwise st Hmode) as [Ev Ef].
  cbv zeta in S. rewrite Ev in S.
  destruct (command_succeeds env DELL_DISABLE_AUTO_FAN_CMD_ARGS st).
  - destruct S as [_ S]. unfold fan in Ef. injection Ef as Em Es.
    rewrite S, Em, Es, <- app_assoc. reflexivity.
  - destruct S as [Sv S]. rewrite Ef in S. split; assumption.
Qed.

End Commands.

(** ** Speed requests (C10, C7) *)

(** C10. A speed argument that is not a hexadecimal integer literal makes
    [set_idrac_fan_speed_percentage] return [False] without sending a command
    and without touching the tracked mode: it only prints its complaint. *)
Theorem invalid_speed_is_refused :
  forall (subprocess_run : nat -> invocation -> run_result)
         (speed_hex : string) (st : state),
    Py.int16 speed_hex = None ->
    let result := set_idrac_fan_speed_percentage subprocess_run speed_hex st in
    fst result = false
    /\ spawned (snd result) = spawned st
    /\ idrac_fan_mode_is_manual (snd result) = idrac_fan_mode_is_manual st
    /\ console (snd result) = console st ++ [SpeedInvalid speed_hex].
Proof.
  intros env speed_hex st H. cbv zeta.
  unfold set_idrac_fan_speed_percentage. rewrite H.
  repeat split; reflexivity.
Qed.

Lemma invalid_speed_is_refused_witness :
  let result := set_idrac_fan_speed_percentage every_process_exits_0 "0xZZ" initial in
  fst result = false
  /\ spawned (snd result) = []
  /\ idrac_fan_mode_is_manual (snd result) = None
  /\ console (snd result) = [SpeedInvalid "0xZZ"].
Proof.
  exact (invalid_speed_is_refused every_process_exits_0 "0xZZ" initial eq_refl).
Defined.

(** C7. A speed request made while the tracked mode is not Manual sends the
    manual-mode command first; the speed command follows exactly when that
    command succeeded, and otherwise the request reports failure. *)
Theorem speed_request_enters_manual_first :
  forall (subprocess_run : nat -> invocation -> run_result)
         (speed_hex : string) (st : state),
    Py.int16 speed_hex <> None ->
    idrac_fan_mode_is_manual st <> Some true ->
    let result := set_idrac_fan_speed_percentage subprocess_run speed_hex st in
    if command_succeeds subprocess_run DELL_DISABLE_AUTO_FAN_CMD_ARGS st
    then spawned (snd result) = spawned st ++ [ENABLE_MANUAL; SET_SPEED speed_hex]
    else spawned (snd result) = spawned st ++ [ENABLE_MANUAL]
         /\ fst result = false.
Proof.
  intros env speed_hex st Hhex Hmode. cbv zeta.
  pose proof (set_speed_otherwise env speed_hex st Hhex Hmode) as S.
  destruct (command_succeeds env DELL_DISABLE_AUTO_FAN_CMD_ARGS st).
  - unfold fan in S. injection S as _ S. exact S.
  - destruct S as [S Sv]. unfold fan in S. injection S as _ S.
    split; assumption.
Qed.

Lemma speed_request_enters_manual_first_witness :
  spawned (snd (set_idrac_fan_speed_percentage every_process_exits_0
                  FAN_SPEED_MEDIUM_HEX_NEW initial))
  = [ENABLE_MANUAL; SET_SPEED FAN_SPEED_MEDIUM_HEX_NEW]
  /\ (spawned (snd (set_idrac_fan_speed_percentage every_process_times_out
                      FAN_SPEED_MEDIUM_HEX_NEW initial))
      = [ENABLE_MANUAL]
      /\ fst (set_idrac_fan_speed_percentage every_process_times_out
                FAN_SPEED_MEDIUM_HEX_NEW initial) = false).
Proof.
  split.
  - apply (speed_request_enters_manual_first every_process_exits_0
             FAN_SPEED_MEDIUM_HEX_NEW initial); simpl; discriminate.
  - apply (speed_request_enters_manual_first every_process_times_out
             FAN_SPEED_MEDIUM_HEX_NEW initial); simpl; discriminate.
Defined.

(** ** Failed commands and the tracked mode (C3) *)

(** C3, as stated, fails: believed Manual, a speed command that times out is
    a failed command, and the tracked mode afterwards is still Manual. *)
Lemma failed_speed_command_keeps_manual :
  command_succeeds every_process_times_out
    (DELL_SET_FAN_SPEED_PREFIX_CMD_ARGS ++ [FAN_SPEED_LOW_HEX_NEW])
    believed_manual = false
  /\ fst (set_idrac_fan_speed_percentage every_process_times_out
            FAN_SPEED_LOW_HEX_NEW believed_manual) = false
  /\ spawned (snd (set_idrac_fan_speed_percentage every_process_times_out
                     FAN_SPEED_LOW_HEX_NEW believed_manual))
     = [SET_SPEED FAN_SPEED_LOW_HEX_NEW]
  /\ idrac_fan_mode_is_manual
       (snd (set_idrac_fan_speed_percentage every_process_times_out
               FAN_SPEED_LOW_HEX_NEW believed_manual)) = Some true
  /\ Some true <> (None : option bool).
Proof. repeat split; discriminate. Qed.

(** C3, amended. Whatever the tracked mode was, a failed enable-auto or
    enable-manual command leaves it Unknown; a speed command is only sent
    when the tracked mode is Manual, and whether it succeeds or fails the
    tracked mode stays Manual.  In full, for a speed request: from the
    tracked mode Manual only the speed command is sent; from another mode
    the manual-mode command is sent first, and the speed command follows
    only when that command succeeded, the tracked mode being Manual when it
    is sent and after it, whatever its outcome; after a failed manual-mode
    command no speed command is sent and the tracked mode is Unknown; an
    argument that is not a hexadecimal literal sends nothing. *)
Theorem failed_mode_command_forgets_mode :
  forall (subprocess_run : nat -> invocation -> run_result) (st : state),
    (command_succeeds subprocess_run DELL_ENABLE_AUTO_FAN_CMD_ARGS st = false ->
       idrac_fan_mode_is_manual (snd (set_idrac_fan_mode_auto subprocess_run st))
       = None)
    /\ (idrac_fan_mode_is_manual st <> Some true ->
        command_succeeds subprocess_run DELL_DISABLE_AUTO_FAN_CMD_ARGS st = false ->
          idrac_fan_mode_is_manual
            (snd (ensure_idrac_fan_mode_manual subprocess_run st)) = None
          /\ forall speed_hex, Py.int16 speed_hex <> None ->
               fst (set_idrac_fan_speed_percentage subprocess_run speed_hex st)
               = false
               /\ fan (snd (set_idrac_fan_speed_percentage subprocess_run
                              speed_hex st))
                  = (None, spawned st ++ [ENABLE_MANUAL]))
    /\ (forall speed_hex, Py.int16 speed_hex <> None ->
        idrac_fan_mode_is_manual st = Some true ->
          fst (set_idrac_fan_speed_percentage subprocess_run speed_hex st)
          = command_succeeds subprocess_run
              (DELL_SET_FAN_SPEED_PREFIX_CMD_ARGS ++ [speed_hex]) st
          /\ fan (snd (set_idrac_fan_speed_percentage subprocess_run speed_hex st))
             = (Some true, spawned st ++ [SET_SPEED speed_hex]))
    /\ (forall speed_hex, Py.int16 speed_hex <> None ->
        idrac_fan_mode_is_manual st <> Some true ->
        command_succeeds subprocess_run DELL_DISABLE_AUTO_FAN_CMD_ARGS st = true ->
          let entered := snd (ensure_idrac_fan_mode_manual subprocess_run st) in
          fan entered = (Some true, spawned st ++ [ENABLE_MANUAL])
          /\ fst (set_idrac_fan_speed_percentage subprocess_run speed_hex st)
             = command_succeeds subprocess_run
                 (DELL_SET_FAN_SPEED_PREFIX_CMD_ARGS ++ [speed_hex]) entered
          /\ fan (snd (set_idrac_fan_speed_percentage subprocess_run speed_hex st))
             = (Some true, spawned entered ++ [SET_SPEED speed_hex]))
    /\ (forall speed_hex,
          fan (snd (set_idrac_fan_speed_percentage subprocess_run speed_hex st))
          = match Py.int16 speed_hex, idrac_fan_mode_is_manual st with
            | None, _ => fan st
            | Some _, Some true =>
                (Some true, spawned st ++ [SET_SPEED speed_hex])
            | Some _, _ =>
                if command_succeeds subprocess_run
                     DELL_DISABLE_AUTO_FAN_CMD_ARGS st
                then (Some true,
                      spawned st ++ [ENABLE_MANUAL; SET_SPEED speed_hex])
                else (None, spawned st ++ [ENABLE_MANUAL])
            end).
Proof.
  intros env st.
  assert (Manual : forall speed_hex, Py.int16 speed_hex <> None ->
            idrac_fan_mode_is_manual st = Some true ->
            fst (set_idrac_fan_speed_percentage env speed_hex st)
            = command_succeeds env
                (DELL_SET_FAN_SPEED_PREFIX_CMD_ARGS ++ [speed_hex]) st
            /\ fan (snd (set_idrac_fan_speed_percentage env speed_hex st))
               = (Some true, spawned st ++ [SET_SPEED speed_hex])).
  { intros speed_hex Hhex Hmode.
    pose proof (set_speed_after_ensure env speed_hex st Hhex) as S.
    cbv zeta in S. rewrite (ensure_manual_when_manual env st Hmode) in S.
    cbn [fst snd] in S. destruct S as [Sv _].
    split; [exact Sv | apply set_speed_when_manual; assumption]. }
  assert (Entered : forall speed_hex, Py.int16 speed_hex <> None ->
            idrac_fan_mode_is_manual st <> Some true ->
            command_succeeds env DELL_DISABLE_AUTO_FAN_CMD_ARGS st = true ->
            fan (snd (ensure_idrac_fan_mode_manual env st))
            = (Some true, spawned st ++ [ENABLE_MANUAL])
            /\ fst (set_idrac_fan_speed_percentage env speed_hex st)
               = command_succeeds env
                   (DELL_SET_FAN_SPEED_PREFIX_CMD_ARGS ++ [speed_hex])
                   (snd (ensure_idrac_fan_mode_manual env st))
            /\ fan (snd (set_idrac_fan_speed_percentage env speed_hex st))
               = (Some true,
                  spawned (snd (ensure_idrac_fan_mode_manual env st))
                  ++ [SET_SPEED speed_hex])).
  { intros speed_hex Hhex Hmode H.
    destruct (ensure_manual_otherwise env st Hmode) as [Ev Ef].
    rewrite H in Ev, Ef.
    pose proof (set_speed_after_ensure env speed_hex st Hhex) as S.
    cbv zeta in S. rewrite Ev in S. destruct S as [Sv Sf].
    split; [exact Ef | split; [exact Sv|]].
    rewrite Sf. f_equal. exact (f_equal fst Ef). }
  assert (Refused : forall speed_hex, Py.int16 speed_hex <> None ->
            idrac_fan_mode_is_manual st <> Some true ->
            command_succeeds env DELL_DISABLE_AUTO_FAN_CMD_ARGS st = false ->
            fst (set_idrac_fan_speed_percentage env speed_hex st) = false
            /\ fan (snd (set_idrac_fan_speed_percentage env speed_hex st))
               = (None, spawned st ++ [ENABLE_MANUAL])).
  { intros speed_hex Hhex Hmode H.
    pose proof (set_speed_otherwise env speed_hex st Hhex Hmode) as S.
    rewrite H in S. destruct S as [Sf Sv]. split; assumption. }
  split; [|split; [|split; [|split]]].
  - intros H. destruct (set_idrac_fan_mode_auto_spec env st) as [_ F].
    rewrite H in F. exact (f_equal fst F).
  - intros Hmode H. destruct (ensure_manual_otherwise env st Hmode) as [Ev Ef].
    rewrite H in Ev, Ef. split; [exact (f_equal fst Ef)|].
    intros speed_hex Hhex. apply Refused; assumption.
  - exact Manual.
  - intros speed_hex Hhex Hmode H. cbv zeta. apply Entered; assumption.
  - intros speed_hex.
    destruct (Py.int16 speed_hex) as [n|] eqn:Hhex.
    + assert (Hhex' : Py.int16 speed_hex <> None) by congruence.
      assert (Other : idrac_fan_mode_is_manual st <> Some true ->
                fan (snd (set_idrac_fan_speed_percentage env speed_hex st))
                = if command_succeeds env DELL_DISABLE_AUTO_FAN_CMD_ARGS st
                  then (Some true,
                        spawned st ++ [ENABLE_MANUAL; SET_SPEED speed_hex])
                  else (None, spawned st ++ [ENABLE_MANUAL])).
      { intros Hmode.
        pose proof (set_speed_otherwise env speed_hex st Hhex' Hmode) as S.
        destruct (command_succeeds env DELL_DISABLE_AUTO_FAN_CMD_ARGS st);
          [exact S | apply S]. }
      destruct (idrac_fan_mode_is_manual st) as [[|]|] eqn:Hmode.
      * apply (Manual speed_hex Hhex' eq_refl).
      * apply Other. discriminate.
      * apply Other. discriminate.
    + unfold set_idrac_fan_speed_percentage. rewrite Hhex. reflexivity.
Qed.

Lemma failed_mode_command_forgets_mode_witness :
  idrac_fan_mode_is_manual
    (snd (set_idrac_fan_mode_auto every_process_times_out believed_manual)) = None
  /\ (idrac_fan_mode_is_manual
        (snd (ensure_idrac_fan_mode_manual every_process_times_out initial))
      = None
      /\ fst (set_idrac_fan_speed_percentage every_process_times_out
                FAN_SPEED_LOW_HEX_NEW initial) = false
      /\ fan (snd (set_idrac_fan_speed_percentage every_process_times_out
                     FAN_SPEED_LOW_HEX_NEW initial))
         = (None, [ENABLE_MANUAL]))
  /\ (fst (set_idrac_fan_speed_percentage every_process_times_out
             FAN_SPEED_LOW_HEX_NEW believed_manual) = false
      /\ fan (snd (set_idrac_fan_speed_percentage every_process_times_out
                     FAN_SPEED_LOW_HEX_NEW believed_manual))
         = (Some true, [SET_SPEED FAN_SPEED_LOW_HEX_NEW]))
  /\ (fst (set_idrac_fan_speed_percentage only_first_process_exits_0
             FAN_SPEED_LOW_HEX_NEW initial) = false
      /\ fan (snd (set_idrac_fan_speed_percentage only_first_process_exits_0
                     FAN_SPEED_LOW_HEX_NEW initial))
         = (Some true, [ENABLE_MANUAL; SET_SPEED FAN_SPEED_LOW_HEX_NEW])).
Proof.
  split; [|split; [|split]].
  - exact (proj1 (failed_mode_command_forgets_mode every_process_times_out
                    believed_manual) eq_refl).
  - destruct (proj1 (proj2 (failed_mode_command_forgets_mode
                              every_process_times_out initial))
                ltac:(simpl; discriminate) eq_refl) as [E S].
    split; [exact E|].
    exact (S FAN_SPEED_LOW_HEX_NEW ltac:(simpl; discriminate)).
  - exact (proj1 (proj2 (proj2 (failed_mode_command_forgets_mode
                                  every_process_times_out believed_manual)))
             FAN_SPEED_LOW_HEX_NEW ltac:(simpl; discriminate) eq_refl).
  - destruct (proj1 (proj2 (proj2 (proj2 (failed_mode_command_forgets_mode
                                            only_first_process_exits_0
                                            initial))))
                FAN_SPEED_LOW_HEX_NEW ltac:(simpl; discriminate)
                ltac:(simpl; discriminate) eq_refl) as (_ & V & F).
    split; [exact V | exact F].
Defined.

(** ** Passes of the loop *)

Section Loop.

Variable env : nat -> invocation -> run_result.

Lemma control_step_fan_only r : fan_only (control_step env r).
Proof.
  unfold control_step.
  pose proof (set_idrac_fan_mode_auto_fan_only env).
  pose proof (set_idrac_fan_speed_percentage_fan_only env).
  frame.
Qed.

Lemma control_loop_fan_only passes : fan_only (control_loop env passes).
Proof.
  induction passes as [|p later IH]; simpl.
  - frame.
  - pose proof control_step_fan_only. frame.
Qed.

Lemma control_step_quiet_none :
  preserves (fun st => actions (console st)) (control_step env None).
Proof. simpl. frame. Qed.

Lemma control_step_target t st : takes_action env t st (target t).
Proof.
  unfold target. destruct (ge_int t TEMP_AUTO_THRESHOLD_NEW) eqn:E.
  - apply control_step_auto, E.
  - apply control_step_manual, E.
Qed.

(** One pass, seen from the fan. *)
Lemma pass_fan p r later st s1 :
  get_cpu_package_temp_from_ohm p = Ok r ->
  fan (snd (control_step env r st)) = fan s1 ->
  fan (snd (control_loop env (p :: later) st))
  = fan (snd (control_loop env later s1)).
Proof.
  intros E H. cbn [control_loop]. rewrite snd_bind, E, !snd_bind.
  apply control_loop_fan_only.
  change (fan (snd (control_step env r (snd (print TickHeader st)))) = fan s1).
  rewrite <- H. apply control_step_fan_only. reflexivity.
Qed.

(** One pass, seen from the console. *)
Lemma pass_actions p t later st :
  get_cpu_package_temp_from_ohm p = Ok (Some t) ->
  exists s1,
    snd (control_loop env (p :: later) st) = snd (control_loop env later s1)
    /\ actions (console s1) = actions (console st) ++ [target t]
    /\ fan s1 = fan (snd (control_step env (Some t) st)).
Proof.
  intros E. cbn [control_loop]. rewrite snd_bind, E, !snd_bind.
  eexists. split; [reflexivity|].
  set (st0 := snd (print TickHeader st)).
  destruct (control_step_target t st0) as [A _].
  split.
  - change (actions (console (snd (control_step env (Some t) st0)) ++ [Waiting])
            = actions (console st) ++ [target t]).
    rewrite actions_app, A. subst st0.
    change (console (snd (print TickHeader st))) with (console st ++ [TickHeader]).
    rewrite !actions_app. simpl. rewrite !app_nil_r. reflexivity.
  - change (fan (snd (control_step env (Some t) st0))
            = fan (snd (control_step env (Some t) st))).
    apply control_step_fan_only. reflexivity.
Qed.

Lemma step_fan t st :
  fan (snd (control_step env (Some t) st)) = fan (snd (perform env (target t) st)).
Proof. apply control_step_target. Qed.

Lemma speed_for_is_hex t : Py.int16 (speed_for t) <> None.
Proof.
  unfold speed_for. destruct (lt_int t TEMP_LOW_THRESHOLD_NEW); discriminate.
Qed.

Lemma manual_band_not_auto t :
  manual_band t = true -> ge_int t TEMP_AUTO_THRESHOLD_NEW = false.
Proof.
  unfold manual_band. intros H.
  apply orb_true_iff in H. destruct H as [H|H].
  - apply below_low_not_auto, H.
  - apply andb_true_iff in H. apply below_auto_not_auto, H.
Qed.

Lemma step_fan_manual t st :
  ge_int t TEMP_AUTO_THRESHOLD_NEW = false ->
  idrac_fan_mode_is_manual st = Some true ->
  fan (snd (control_step env (Some t) st))
  = (Some true, spawned st ++ [SET_SPEED (speed_for t)]).
Proof.
  intros Hband Hmode. rewrite step_fan. unfold target. rewrite Hband.
  apply set_speed_when_manual; [apply speed_for_is_hex | exact Hmode].
Qed.

Lemma step_fan_manual_otherwise t st :
  ge_int t TEMP_AUTO_THRESHOLD_NEW = false ->
  idrac_fan_mode_is_manual st <> Some true ->
  fan (snd (control_step env (Some t) st))
  = if command_succeeds env DELL_DISABLE_AUTO_FAN_CMD_ARGS st
    then (Some true, spawned st ++ [ENABLE_MANUAL; SET_SPEED (speed_for t)])
    else (None, spawned st ++ [ENABLE_MANUAL]).
Proof.
  intros Hband Hmode. rewrite step_fan. unfold target. rewrite Hband.
  pose proof (set_speed_otherwise env (speed_for t) st (speed_for_is_hex t) Hmode) as S.
  cbn [perform].
  destruct (command_succeeds env DELL_DISABLE_AUTO_FAN_CMD_ARGS st);
    [exact S | apply S].
Qed.

Lemma step_fan_auto t st :
  ge_int t TEMP_AUTO_THRESHOLD_NEW = true ->
  fan (snd (control_step env (Some t) st))
  = ((if command_succeeds env DELL_ENABLE_AUTO_FAN_CMD_ARGS st
      then Some false else None),
     spawned st ++ [ENABLE_AUTO]).
Proof.
  intros Hband. rewrite step_fan. unfold target. rewrite Hband.
  apply set_idrac_fan_mode_auto_spec.
Qed.

Lemma manual_enables_app calls new :
  manual_enables (calls ++ new) = (manual_enables calls + manual_enables new)%nat.
Proof. unfold manual_enables. rewrite filter_app, length_app. reflexivity. Qed.

Lemma speed_is_not_manual_enable speed_hex :
  is_enable_manual (SET_SPEED speed_hex) = false.
Proof.
  unfold is_enable_manual.
  destruct (list_eq_dec string_dec (argv (SET_SPEED speed_hex)) (argv ENABLE_MANUAL))
    as [E|]; [|reflexivity].
  discriminate E.
Qed.

(** A run of manual-band readings from tracked mode Manual. *)
Lemma manual_run passes : forall temps st,
  map get_cpu_package_temp_from_ohm passes = map (fun t => Ok (Some t)) temps ->
  forallb manual_band temps = true ->
  idrac_fan_mode_is_manual st = Some true ->
  fan (snd (control_loop env passes st))
  = (Some true, spawned st ++ map (fun t => SET_SPEED (speed_for t)) temps).
Proof.
  induction passes as [|p later IH]; intros [|t temps] st E B Hmode;
    try discriminate E.
  - simpl. unfold fan. rewrite Hmode, app_nil_r. reflexivity.
  - cbn [map] in E. injection E as Ep El.
    cbn [forallb] in B. apply andb_true_iff in B. destruct B as [Bt B].
    pose proof (step_fan_manual t st (manual_band_not_auto t Bt) Hmode) as F.
    set (s1 := {| idrac_fan_mode_is_manual := Some true;
                  spawned := spawned st ++ [SET_SPEED (speed_for t)];
                  console := [] |}).
    rewrite (pass_fan p (Some t) later st s1 Ep F).
    rewrite (IH temps s1 El B eq_refl). subst s1. cbn [spawned map].
    rewrite <- app_assoc. reflexivity.
Qed.

End Loop.

(** ** A pass without a reading (C5) *)

(** C5. A pass on which the extractor returns no reading leaves the tracked
    mode as it was and sends no command: none of the command functions runs,
    the pass only prints that the fans are left alone. *)
Theorem pass_without_reading_changes_nothing :
  forall (subprocess_run : nat -> invocation -> run_result)
         (response : ohm_response) (st : state),
    get_cpu_package_temp_from_ohm response = Ok None ->
    let st' := snd (control_loop subprocess_run [response] st) in
    idrac_fan_mode_is_manual st' = idrac_fan_mode_is_manual st
    /\ spawned st' = spawned st
    /\ console st' = console st ++ [TickHeader; NoReading; Waiting].
Proof.
  intros env response st H. cbv zeta. cbn [control_loop].
  rewrite snd_bind, H. simpl. rewrite <- !app_assoc.
  repeat split; reflexivity.
Qed.

Lemma pass_without_reading_changes_nothing_witness :
  let st' := snd (control_loop every_process_exits_0 [RequestException]
                    believed_manual) in
  idrac_fan_mode_is_manual st' = Some true
  /\ spawned st' = []
  /\ console st' = [TickHeader; NoReading; Waiting].
Proof.
  exact (pass_without_reading_changes_nothing every_process_exits_0
           RequestException believed_manual eq_refl).
Defined.

(** ** Runs of manual-band readings (C2) *)

(** C2. From tracked mode Manual, a run of passes whose readings all lie in a
    manual band sends exactly one command on each pass, the speed command of
    that pass's band, whatever the commands answer: the manual-mode command
    is sent on none of them, and the tracked mode stays Manual. *)
Theorem manual_mode_is_not_reissued :
  forall (subprocess_run : nat -> invocation -> run_result)
         (passes : list ohm_response) (temps : list spec_float) (st : state),
    map get_cpu_package_temp_from_ohm passes = map (fun t => Ok (Some t)) temps ->
    forallb manual_band temps = true ->
    idrac_fan_mode_is_manual st = Some true ->
    let st' := snd (control_loop subprocess_run passes st) in
    let sent := map (fun t => SET_SPEED (speed_for t)) temps in
    spawned st' = spawned st ++ sent
    /\ manual_enables sent = 0%nat
    /\ idrac_fan_mode_is_manual st' = Some true.
Proof.
  intros env passes temps st E B Hmode. cbv zeta.
  pose proof (manual_run env passes temps st E B Hmode) as F.
  unfold fan in F. injection F as Fm Fs.
  split; [exact Fs | split; [|exact Fm]].
  clear. induction temps as [|t temps IH]; [reflexivity|].
  cbn [map]. change (SET_SPEED (speed_for t) :: ?l) with ([SET_SPEED (speed_for t)] ++ l).
  rewrite manual_enables_app, IH.
  unfold manual_enables. cbn [filter]. rewrite speed_is_not_manual_enable.
  reflexivity.
Qed.

Lemma manual_mode_is_not_reissued_witness :
  let st' := snd (control_loop every_process_times_out
                    [Document (cpu_document [celsius "50.0"]);
                     Document (cpu_document [celsius "65.0"]);
                     Document (cpu_document [celsius "59.9"])] believed_manual) in
  let sent := [SET_SPEED FAN_SPEED_LOW_HEX_NEW; SET_SPEED FAN_SPEED_MEDIUM_HEX_NEW;
               SET_SPEED FAN_SPEED_LOW_HEX_NEW] in
  spawned st' = [] ++ sent
  /\ manual_enables sent = 0%nat
  /\ idrac_fan_mode_is_manual st' = Some true.
Proof.
  exact (manual_mode_is_not_reissued every_process_times_out
           [Document (cpu_document [celsius "50.0"]);
            Document (cpu_document [celsius "65.0"]);
            Document (cpu_document [celsius "59.9"])]
           [literal "50.0"; literal "65.0"; literal "59.9"]
           believed_manual eq_refl eq_refl eq_refl).
Defined.

(** ** The end-to-end scenario (C9) *)

(** C9, as stated, fails: when the first manual-mode command times out, the
    readings 50.0, 65.0, 72.0, 68.0 from tracked mode Unknown make the loop
    send the manual-mode command three times, on the passes 1, 2 and 4. *)
Lemma scenario_with_a_failed_first_command :
  map get_cpu_package_temp_from_ohm scenario_passes
  = map (fun t => Ok (Some t)) scenario_readings
  /\ map argv (spawned (snd (main_control_loop first_process_times_out
                              scenario_passes initial)))
     = map argv [ENABLE_MANUAL;
                 ENABLE_MANUAL; SET_SPEED FAN_SPEED_MEDIUM_HEX_NEW;
                 ENABLE_AUTO;
                 ENABLE_MANUAL; SET_SPEED FAN_SPEED_MEDIUM_HEX_NEW]
  /\ manual_enables (spawned (snd (main_control_loop first_process_times_out
                                     scenario_passes initial))) = 3%nat.
Proof. repeat split; vm_compute; reflexivity. Qed.

(** C9, amended. From tracked mode Unknown the readings 50.0, 65.0, 72.0,
    68.0 make the loop announce SetManualSpeed(low), SetManualSpeed(medium),
    SetAutoMode, SetManualSpeed(medium), whatever the commands answer; and
    when the manual-mode command of the first pass succeeds, the manual-mode
    command is sent exactly twice, as the first command of the first pass and
    as the first command of the pass after SetAutoMode. *)
Theorem scenario_50_65_72_68 :
  forall (subprocess_run : nat -> invocation -> run_result)
         (passes : list ohm_response) (st : state),
    map get_cpu_package_temp_from_ohm passes
    = map (fun t => Ok (Some t)) scenario_readings ->
    idrac_fan_mode_is_manual st = None ->
    let st' := snd (control_loop subprocess_run passes st) in
    actions (console st')
    = actions (console st)
      ++ [SetManualSpeed FAN_SPEED_LOW_HEX_NEW;
          SetManualSpeed FAN_SPEED_MEDIUM_HEX_NEW;
          SetAutoMode;
          SetManualSpeed FAN_SPEED_MEDIUM_HEX_NEW]
    /\ (command_succeeds subprocess_run DELL_DISABLE_AUTO_FAN_CMD_ARGS st = true ->
        exists last,
          (last = [] \/ last = [SET_SPEED FAN_SPEED_MEDIUM_HEX_NEW])
          /\ spawned st'
             = spawned st
               ++ [ENABLE_MANUAL; SET_SPEED FAN_SPEED_LOW_HEX_NEW;
                   SET_SPEED FAN_SPEED_MEDIUM_HEX_NEW;
                   ENABLE_AUTO;
                   ENABLE_MANUAL] ++ last
          /\ manual_enables (spawned st') = (manual_enables (spawned st) + 2)%nat).
Proof.
  intros env passes st E Hmode. cbv zeta.
  destruct passes as [|p1 [|p2 [|p3 [|p4 [|]]]]]; try discriminate E.
  unfold scenario_readings in E. cbn [map] in E.
  injection E as E1 E2 E3 E4.
  destruct (pass_actions env p1 _ [p2; p3; p4] st E1) as (s1 & L1 & A1 & F1).
  destruct (pass_actions env p2 _ [p3; p4] s1 E2) as (s2 & L2 & A2 & F2).
  destruct (pass_actions env p3 _ [p4] s2 E3) as (s3 & L3 & A3 & F3).
  destruct (pass_actions env p4 _ [] s3 E4) as (s4 & L4 & A4 & F4).
  rewrite L1, L2, L3, L4. cbn [control_loop ret snd].
  split.
  - rewrite A4, A3, A2, A1, <- !app_assoc. reflexivity.
  - intros Hok.
    assert (N : idrac_fan_mode_is_manual st <> Some true) by congruence.
    rewrite (step_fan_manual_otherwise env (literal "50.0") st eq_refl N), Hok in F1.
    unfold fan in F1. injection F1 as M1 S1.
    rewrite (step_fan_manual env (literal "65.0") s1 eq_refl M1) in F2.
    unfold fan in F2. injection F2 as M2 S2.
    rewrite (step_fan_auto env (literal "72.0") s2 eq_refl) in F3.
    unfold fan in F3. injection F3 as M3 S3.
    assert (N3 : idrac_fan_mode_is_manual s3 <> Some true)
      by (rewrite M3; destruct (command_succeeds env _ s2); discriminate).
    rewrite (step_fan_manual_otherwise env (literal "68.0") s3 eq_refl N3) in F4.
    assert (S4 : exists last,
               (last = [] \/ last = [SET_SPEED FAN_SPEED_MEDIUM_HEX_NEW])
               /\ spawned s4 = spawned s3 ++ [ENABLE_MANUAL] ++ last).
    { destruct (command_succeeds env DELL_DISABLE_AUTO_FAN_CMD_ARGS s3);
        unfold fan in F4; injection F4 as _ F4; rewrite F4.
      - exists [SET_SPEED FAN_SPEED_MEDIUM_HEX_NEW]. split; [right|]; reflexivity.
      - exists []. split; [left|]; reflexivity. }
    destruct S4 as (last & Hlast & S4). exists last.
    assert (S : spawned s4
                = spawned st
                  ++ [ENABLE_MANUAL; SET_SPEED FAN_SPEED_LOW_HEX_NEW;
                      SET_SPEED FAN_SPEED_MEDIUM_HEX_NEW; ENABLE_AUTO;
                      ENABLE_MANUAL] ++ last).
    { rewrite S4, S3, S2, S1, <- !app_assoc. reflexivity. }
    split; [exact Hlast | split; [exact S|]].
    rewrite S, manual_enables_app. f_equal.
    destruct Hlast as [-> | ->]; reflexivity.
Qed.

Lemma scenario_50_65_72_68_witness :
  let st' := snd (control_loop every_process_exits_0 scenario_passes initial) in
  actions (console st')
  = [] ++ [SetManualSpeed FAN_SPEED_LOW_HEX_NEW;
           SetManualSpeed FAN_SPEED_MEDIUM_HEX_NEW;
           SetAutoMode;
           SetManualSpeed FAN_SPEED_MEDIUM_HEX_NEW]
  /\ exists last,
       (last = [] \/ last = [SET_SPEED FAN_SPEED_MEDIUM_HEX_NEW])
       /\ spawned st'
          = [] ++ [ENABLE_MANUAL; SET_SPEED FAN_SPEED_LOW_HEX_NEW;
                   SET_SPEED FAN_SPEED_MEDIUM_HEX_NEW;
                   ENABLE_AUTO;
                   ENABLE_MANUAL] ++ last
       /\ manual_enables (spawned st') = (0 + 2)%nat.
Proof.
  destruct (scenario_50_65_72_68 every_process_exits_0 scenario_passes initial
              eq_refl eq_refl) as [A S].
  split; [exact A | exact (S eq_refl)].
Defined.

(** ** Outcome classes of a command (C6) *)

Section Outcomes.

Variable env : nat -> invocation -> run_result.

Lemma skipn_own_length {A} (l new : list A) : skipn (List.length l) (l ++ new) = new.
Proof. induction l as [|x l IH]; [reflexivity | exact IH]. Qed.

Lemma member_base_cmd x args :
  member x (base_cmd ++ args) = member x base_cmd || member x args.
Proof. unfold member. apply existsb_app. Qed.

Lemma stderr_output_is_stripped stderr :
  (if nonempty stderr then Py.strip stderr else EmptyString) = Py.strip stderr.
Proof. destruct stderr; reflexivity. Qed.

Lemma classified_spec args eo st :
  classified env args eo st
  = outcome_on_stripped_stderr (negb eo && member "raw" args)
      (env (List.length (spawned st))
         {| argv := base_cmd ++ args;
            timeout := if member "sdr" args then 45 else 15 |}).
Proof.
  unfold classified, run_ipmi_command, outcome_on_stripped_stderr.
  cbv zeta. rewrite fst_bind, snd_bind.
  change (fst (run env (base_cmd ++ args)
                 (if member "sdr" args then 45 else 15) st))
    with (env (List.length (spawned st))
            {| argv := base_cmd ++ args;
               timeout := if member "sdr" args then 45 else 15 |}).
  set (st1 := snd (run env (base_cmd ++ args)
                     (if member "sdr" args then 45 else 15) st)).
  assert (C : console st1 = console st) by reflexivity.
  destruct (env _ _) as [rc out err| | |].
  - destruct (rc =? 0).
    + cbn [ret fst snd]. rewrite C.
      rewrite <- (app_nil_r (console st)) at 2. rewrite skipn_own_length.
      destruct eo; reflexivity.
    + rewrite stderr_output_is_stripped, member_base_cmd.
      change (member "raw" base_cmd) with false. cbn [orb].
      rewrite <- andb_assoc, (andb_comm (negb (nonempty _))), andb_assoc.
      destruct (nonempty (Py.strip err)); cbn [negb andb].
      * rewrite andb_false_r. rewrite fst_bind.
        repeat (rewrite fst_bind || unfold when || cbn [print ret fst snd]).
        destruct (base_cmd ++ args), (nonempty out), eo; reflexivity.
      * rewrite andb_true_r.
        destruct (negb eo && member "raw" args) eqn:R.
        -- cbn [bind print ret fst snd is_failure console]. rewrite C.
           rewrite skipn_own_length. reflexivity.
        -- repeat (rewrite fst_bind || unfold when || cbn [print ret fst snd]).
           destruct (base_cmd ++ args), (nonempty out), eo; reflexivity.
  - destruct eo; reflexivity.
  - destruct eo; reflexivity.
  - destruct eo; reflexivity.
Qed.

Lemma no_output_returns_bool args st :
  exists b, fst (run_ipmi_command env args false st) = PBool b.
Proof.
  unfold run_ipmi_command. cbv zeta. rewrite fst_bind.
  destruct (fst (run env _ _ st)) as [rc o e| | |];
    try (exists false; reflexivity).
  destruct (rc =? 0); [exists true; reflexivity|].
  match goal with |- context [if ?c then _ else _] => destruct c end;
    [exists true; reflexivity|].
  exists false.
  repeat (rewrite fst_bind || unfold when || cbn [print ret fst snd]).
  reflexivity.
Qed.

Lemma command_succeeds_classified args st :
  command_succeeds env args st
  = match classified env args false st with Failure => false | _ => true end.
Proof.
  unfold classified, command_succeeds. cbv zeta.
  destruct (no_output_returns_bool args st) as [b ->].
  destruct b; cbn [fst is_true is_failure]; [|reflexivity].
  destruct (existsb _ _); reflexivity.
Qed.

End Outcomes.

(** C6, as stated, fails: a raw command that expects no output and ends with
    exit status 1 and the diagnostic output " " (not empty) is classified as
    an ambiguous success, not as a failure, and [run_ipmi_command] returns
    [True]. *)
Lemma blank_stderr_is_not_a_failure :
  nonempty " " = true
  /\ outcome_as_documented true (Exited 1 EmptyString " ") = Failure
  /\ classified exits_1_blank_stderr DELL_ENABLE_AUTO_FAN_CMD_ARGS false initial
     = AmbiguousSuccess
  /\ fst (run_ipmi_command exits_1_blank_stderr DELL_ENABLE_AUTO_FAN_CMD_ARGS
            false initial) = PBool true
  /\ AmbiguousSuccess <> Failure.
Proof. repeat split; discriminate. Qed.

(** C6, amended. [run_ipmi_command] classifies the end of the process it
    starts as follows: exit status zero is a success; a non-zero exit status
    with diagnostic output that is not empty after [strip()] is a failure; a
    non-zero exit status with diagnostic output that is empty after [strip()],
    on a raw command that expects no output, is an ambiguous success;
    executable not found and timeout are failures.  An ambiguous success
    updates the tracked mode as a success does. *)
Theorem command_outcome_classes :
  forall (subprocess_run : nat -> invocation -> run_result)
         (command_args : list string) (expect_output : bool) (st : state),
    classified subprocess_run command_args expect_output st
    = outcome_on_stripped_stderr
        (negb expect_output && member "raw" command_args)
        (subprocess_run (List.length (spawned st))
           {| argv := base_cmd ++ command_args;
              timeout := if member "sdr" command_args then 45 else 15 |})
    /\ (classified subprocess_run DELL_ENABLE_AUTO_FAN_CMD_ARGS false st <> Failure ->
        idrac_fan_mode_is_manual (snd (set_idrac_fan_mode_auto subprocess_run st))
        = Some false)
    /\ (idrac_fan_mode_is_manual st <> Some true ->
        classified subprocess_run DELL_DISABLE_AUTO_FAN_CMD_ARGS false st <> Failure ->
        idrac_fan_mode_is_manual
          (snd (ensure_idrac_fan_mode_manual subprocess_run st)) = Some true).
Proof.
  intros env args eo st. split; [apply classified_spec | split].
  - intros H. destruct (set_idrac_fan_mode_auto_spec env st) as [_ F].
    rewrite command_succeeds_classified in F.
    destruct (classified env DELL_ENABLE_AUTO_FAN_CMD_ARGS false st);
      try congruence; unfold fan in F; injection F as F _; exact F.
  - intros Hmode H. destruct (ensure_manual_otherwise env st Hmode) as [_ F].
    rewrite command_succeeds_classified in F.
    destruct (classified env DELL_DISABLE_AUTO_FAN_CMD_ARGS false st);
      try congruence; unfold fan in F; injection F as F _; exact F.
Qed.

Lemma command_outcome_classes_witness :
  classified exits_1_blank_stderr DELL_ENABLE_AUTO_FAN_CMD_ARGS false initial
  = AmbiguousSuccess
  /\ idrac_fan_mode_is_manual
       (snd (set_idrac_fan_mode_auto exits_1_blank_stderr initial)) = Some false
  /\ idrac_fan_mode_is_manual
       (snd (ensure_idrac_fan_mode_manual exits_1_blank_stderr initial)) = Some true.
Proof.
  pose proof (command_outcome_classes exits_1_blank_stderr
                DELL_ENABLE_AUTO_FAN_CMD_ARGS false initial) as [C [A M]].
  split; [exact C | split].
  - apply A. simpl. discriminate.
  - apply M; simpl; discriminate.
Defined.

(** ** Shutdown (C4) *)

Section Shutdown.

Variable env : nat -> invocation -> run_result.

Lemma run_ipmi_command_kept args eo :
  preserves (fun st => finalizations (console st))
    (run_ipmi_command env args eo).
Proof. unfold run_ipmi_command. frame. Qed.

Lemma set_idrac_fan_mode_auto_kept :
  preserves (fun st => finalizations (console st))
    (set_idrac_fan_mode_auto env).
Proof.
  unfold set_idrac_fan_mode_auto. pose proof run_ipmi_command_kept. frame.
Qed.

Lemma ensure_idrac_fan_mode_manual_kept :
  preserves (fun st => finalizations (console st))
    (ensure_idrac_fan_mode_manual env).
Proof.
  unfold ensure_idrac_fan_mode_manual. pose proof run_ipmi_command_kept. frame.
Qed.

Lemma set_idrac_fan_speed_percentage_kept h :
  preserves (fun st => finalizations (console st))
    (set_idrac_fan_speed_percentage env h).
Proof.
  unfold set_idrac_fan_speed_percentage.
  pose proof run_ipmi_command_kept. pose proof ensure_idrac_fan_mode_manual_kept.
  frame.
Qed.

Lemma control_step_kept r :
  preserves (fun st => finalizations (console st))
    (control_step env r).
Proof.
  unfold control_step.
  pose proof set_idrac_fan_mode_auto_kept.
  pose proof set_idrac_fan_speed_percentage_kept. frame.
Qed.

Lemma control_loop_kept passes :
  preserves (fun st => finalizations (console st))
    (control_loop env passes).
Proof.
  induction passes as [|p later IH]; cbn [control_loop].
  - frame.
  - pose proof control_step_kept. frame.
Qed.

Lemma main_control_loop_kept passes :
  preserves (fun st => finalizations (console st))
    (main_control_loop env passes).
Proof. unfold main_control_loop. pose proof control_loop_kept. frame. Qed.

(** The [finally] block prints its opening line once. *)
Lemma finalization_counts last st :
  finalizations (console (snd (finalization env last st)))
  = S (finalizations (console st)).
Proof.
  unfold finalization. rewrite snd_bind.
  match goal with
  | |- finalizations (console (snd (?m ?s))) = _ =>
      assert (K : preserves (fun st => finalizations (console st)) m)
        by (pose proof set_idrac_fan_mode_auto_kept; frame);
      rewrite (K s)
  end.
  simpl. rewrite finalizations_app. unfold finalizations at 2. simpl. lia.
Qed.

Lemma finalization_fan_only last : fan_only (finalization env last).
Proof.
  unfold finalization. pose proof (set_idrac_fan_mode_auto_fan_only env). frame.
Qed.

(** The [finally] block, seen from the fan. *)
Lemma finalization_fan last st :
  fan (snd (finalization env last st))
  = match get_cpu_package_temp_from_ohm last with
    | Ok (Some t) =>
        if ge_int t TEMP_AUTO_THRESHOLD_NEW
        then fan (snd (set_idrac_fan_mode_auto env st))
        else fan st
    | Ok None => fan (snd (set_idrac_fan_mode_auto env st))
    | Raise _ => fan st
    end.
Proof.
  unfold finalization. rewrite snd_bind.
  destruct (get_cpu_package_temp_from_ohm last) as [[t|]|e];
    [destruct (ge_int t TEMP_AUTO_THRESHOLD_NEW)| |];
    rewrite ?snd_bind; cbn [ret snd];
    rewrite ?(print_fan Finished);
    try reflexivity;
    apply set_idrac_fan_mode_auto_fan_only; reflexivity.
Qed.

End Shutdown.

(** The [finally] block when the extractor returns in it.  However the loop
    is left (Ctrl+C, or an exception that escapes it), the block is entered
    exactly once and takes one more reading.  A reading of at least 70 makes
    it send the auto-mode command, whatever the tracked mode (Manual
    included); a reading below 70 makes it send nothing and leave the tracked
    mode alone; the result [None] makes it send the auto-mode command. *)
Theorem finalization_policy :
  forall (subprocess_run : nat -> invocation -> run_result)
         (passes : list ohm_response) (last : ohm_response) (st0 st : state),
    finalizations (console (snd (main subprocess_run passes last st0)))
    = S (finalizations (console st0))
    /\ (forall t, get_cpu_package_temp_from_ohm last = Ok (Some t) ->
          ge_int t TEMP_AUTO_THRESHOLD_NEW = true ->
          spawned (snd (finalization subprocess_run last st))
          = spawned st ++ [ENABLE_AUTO])
    /\ (forall t, get_cpu_package_temp_from_ohm last = Ok (Some t) ->
          lt_int t TEMP_AUTO_THRESHOLD_NEW = true ->
          fan (snd (finalization subprocess_run last st)) = fan st)
    /\ (get_cpu_package_temp_from_ohm last = Ok None ->
          spawned (snd (finalization subprocess_run last st))
          = spawned st ++ [ENABLE_AUTO]).
Proof.
  intros env passes last st0 st. split; [|split; [|split]].
  - unfold main. rewrite !snd_bind, finalization_counts.
    f_equal.
    match goal with
    | |- finalizations (console (snd (?m ?s))) = _ =>
        assert (K : preserves (fun st => finalizations (console st)) m)
          by frame;
        rewrite (K s)
    end.
    apply main_control_loop_kept.
  - intros t E H.
    pose proof (finalization_fan env last st) as F. rewrite E, H in F.
    destruct (set_idrac_fan_mode_auto_spec env st) as [_ A]. rewrite A in F.
    unfold fan in F. injection F as _ F. exact F.
  - intros t E H.
    pose proof (finalization_fan env last st) as F.
    rewrite E, (below_auto_not_auto t H) in F. exact F.
  - intros E.
    pose proof (finalization_fan env last st) as F. rewrite E in F.
    destruct (set_idrac_fan_mode_auto_spec env st) as [_ A]. rewrite A in F.
    unfold fan in F. injection F as _ F. exact F.
Qed.

Lemma finalization_policy_witness :
  spawned (snd (finalization every_process_exits_0
                  (Document (cpu_document [celsius "75.0"])) believed_manual))
  = [] ++ [ENABLE_AUTO]
  /\ fan (snd (finalization every_process_exits_0
                 (Document (cpu_document [celsius "55.0"])) believed_manual))
     = fan believed_manual
  /\ spawned (snd (finalization every_process_exits_0 RequestException
                     believed_manual))
     = [] ++ [ENABLE_AUTO]
  /\ finalizations
       (console (snd (main every_process_exits_0 scenario_passes
                        RequestException initial))) = 1%nat
  /\ finalizations
       (console (snd (main every_process_exits_0 [Document (Arr [])]
                        RequestException initial))) = 1%nat.
Proof.
  split; [|split; [|split; [|split]]].
  - exact (proj1 (proj2 (finalization_policy every_process_exits_0 []
                           (Document (cpu_document [celsius "75.0"]))
                           initial believed_manual))
             (literal "75.0") eq_refl eq_refl).
  - exact (proj1 (proj2 (proj2 (finalization_policy every_process_exits_0 []
                                  (Document (cpu_document [celsius "55.0"]))
                                  initial believed_manual)))
             (literal "55.0") eq_refl eq_refl).
  - exact (proj2 (proj2 (proj2 (finalization_policy every_process_exits_0 []
                                  RequestException initial believed_manual)))
             eq_refl).
  - exact (proj1 (finalization_policy every_process_exits_0 scenario_passes
                    RequestException initial initial)).
  - exact (proj1 (finalization_policy every_process_exits_0 [Document (Arr [])]
                    RequestException initial initial)).
Defined.

(** C4, where the code falls short.  The last telemetry answer is a JSON
    document that is not an object (an empty array), or one whose hardware
    node has a null label: no reading is available, and the script's own
    message for that case announces the auto-mode command.  But the extractor
    raises inside the [finally] block, which is entered once and left by the
    exception: no auto-mode command is sent, the line that announces it is
    not printed, and the fans stay in manual mode at the low speed.  When the
    answer cannot be fetched at all, the same run ends with the auto-mode
    command. *)
Theorem finalization_skips_auto_mode_when_the_extractor_raises :
  get_cpu_package_temp_from_ohm (Document (Arr [])) = Raise AttributeError
  /\ get_cpu_package_temp_from_ohm (Document unlabelled_hardware_document)
     = Raise AttributeError
  /\ fst (run_ending_on (Document (Arr []))) = Raise AttributeError
  /\ fan (snd (run_ending_on (Document (Arr []))))
     = (Some true, [ENABLE_MANUAL; SET_SPEED FAN_SPEED_LOW_HEX_NEW])
  /\ fst (run_ending_on (Document unlabelled_hardware_document))
     = Raise AttributeError
  /\ fan (snd (run_ending_on (Document unlabelled_hardware_document)))
     = (Some true, [ENABLE_MANUAL; SET_SPEED FAN_SPEED_LOW_HEX_NEW])
  /\ finalizations (console (snd (run_ending_on (Document (Arr []))))) = 1%nat
  /\ existsb is_enable_auto (spawned (snd (run_ending_on (Document (Arr [])))))
     = false
  /\ ~ In FinalBlind (console (snd (run_ending_on (Document (Arr [])))))
  /\ get_cpu_package_temp_from_ohm RequestException = Ok None
  /\ fst (run_ending_on RequestException) = Ok tt
  /\ fan (snd (run_ending_on RequestException))
     = (Some false,
        [ENABLE_MANUAL; SET_SPEED FAN_SPEED_LOW_HEX_NEW; ENABLE_AUTO])
  /\ In FinalBlind (console (snd (run_ending_on RequestException))).
Proof.
  split; [reflexivity|]. split; [reflexivity|]. split; [reflexivity|].
  split; [reflexivity|]. split; [reflexivity|]. split; [reflexivity|].
  split; [reflexivity|]. split; [reflexivity|].
  split; [intros H; vm_compute in H; intuition discriminate|].
  split; [reflexivity|]. split; [reflexivity|]. split; [reflexivity|].
  vm_compute. tauto.
Qed.

(** The two ways out of the loop. *)
Example loop_exits :
  fst (main_control_loop every_process_exits_0 scenario_passes initial)
  = KeyboardInterrupt
  /\ fst (main_control_loop every_process_exits_0
            [Document (Arr []); Document (cpu_document [celsius "50.0"])] initial)
     = Uncaught AttributeError
  /\ spawned (snd (main_control_loop every_process_exits_0
                     [Document (Arr []); Document (cpu_document [celsius "50.0"])]
                     initial)) = [].
Proof. repeat split. Qed.

(** ** The telemetry extractor (C8) *)

Section Extraction.

Import Snapshot.

Lemma typed_field v key ok :
  typed v key ok = true ->
  field v key = None \/ exists x, field v key = Some x /\ ok x = true.
Proof.
  unfold typed. destruct (field v key) as [x|]; [|left; reflexivity].
  intros H. right. exists x. split; [reflexivity | exact H].
Qed.

Lemma node_parts v :
  node v = true ->
  exists members, v = Obj members
    /\ typed v "Text" is_str = true /\ typed v "ImageURL" is_str = true
    /\ typed v "Value" is_str = true /\ typed v "Children" is_list = true.
Proof.
  destruct v; try discriminate. unfold node. intros H.
  apply andb_true_iff in H. destruct H as [H H4].
  apply andb_true_iff in H. destruct H as [H H3].
  apply andb_true_iff in H. destruct H as [H1 H2].
  eexists. repeat split; eassumption.
Qed.

Lemma node_get_text v :
  node v = true -> get v "Text" (Str EmptyString) = Ok (Str (text v)).
Proof.
  intros H. destruct (node_parts v H) as (m & -> & T & _).
  unfold text. destruct (typed_field _ _ _ T) as [E|(x & E & S)];
    simpl in E |- *; rewrite E; [reflexivity|].
  destruct x; try discriminate S. reflexivity.
Qed.

Lemma node_get_image v :
  node v = true -> get v "ImageURL" (Str EmptyString) = Ok (Str (image v)).
Proof.
  intros H. destruct (node_parts v H) as (m & -> & _ & T & _).
  unfold image. destruct (typed_field _ _ _ T) as [E|(x & E & S)];
    simpl in E |- *; rewrite E; [reflexivity|].
  destruct x; try discriminate S. reflexivity.
Qed.

Lemma node_get_children v :
  node v = true -> get v "Children" (Arr []) = Ok (Arr (children v)).
Proof.
  intros H. destruct (node_parts v H) as (m & -> & _ & _ & _ & T).
  unfold children. destruct (typed_field _ _ _ T) as [E|(x & E & S)];
    simpl in E |- *; rewrite E; [reflexivity|].
  destruct x; try discriminate S. reflexivity.
Qed.

(** The children of a node as the two top-level tests see them. *)
Lemma node_get_children_or_null v :
  node v = true ->
  exists c, get v "Children" Null = Ok c
    /\ (if negb (truthy c) || negb (is_list c) then children v = []
        else c = Arr (children v) /\ children v <> []).
Proof.
  intros H. destruct (node_parts v H) as (m & -> & _ & _ & _ & T).
  unfold children. destruct (typed_field _ _ _ T) as [E|(x & E & S)];
    simpl in E |- *; rewrite E.
  - exists Null. split; reflexivity.
  - exists x. split; [reflexivity|].
    destruct x as [| | | | |items|]; try discriminate S.
    destruct items; simpl; [reflexivity|]. split; [reflexivity|discriminate].
Qed.

Lemma node_value v :
  node v = true ->
  (has_key v "Value" = false /\ field v "Value" = None)
  \/ exists s, has_key v "Value" = true /\ field v "Value" = Some (Str s)
               /\ get v "Value" Null = Ok (Str s).
Proof.
  intros H. destruct (node_parts v H) as (m & -> & _ & _ & T & _).
  destruct (typed_field _ _ _ T) as [E|(x & E & S)]; simpl in E |- *; rewrite E.
  - left. split; reflexivity.
  - right. destruct x; try discriminate S. eexists. repeat split.
Qed.

Lemma is_cpu_node h : node h = true -> is_cpu h = Ok (cpu_class h).
Proof.
  intros H. unfold is_cpu, cpu_class.
  rewrite (node_get_text h H). cbn [Json.bind lower].
  rewrite (node_get_image h H). cbn [Json.bind endswith].
  destruct (Py.contains "cpu" _ || Py.contains "intel" _ || Py.contains "amd" _);
    reflexivity.
Qed.

Lemma scan_sensors_nodes sensors :
  forallb node sensors = true ->
  scan_sensors sensors = Ok (head (flat_map shown sensors)).
Proof.
  induction sensors as [|s rest IH]; [reflexivity|].
  cbn [forallb]. intros H. apply andb_true_iff in H. destruct H as [Hs Hrest].
  specialize (IH Hrest).
  cbn [scan_sensors flat_map]. rewrite (node_get_text s Hs). cbn [Json.bind eq_str].
  unfold shown at 1. unfold package_value.
  destruct (String.eqb (text s) "CPU Package"); [|exact IH].
  destruct (node_value s Hs) as [[K F]|(v & K & F & G)]; rewrite K, F.
  - exact IH.
  - cbn [andb]. rewrite G. cbn [Json.bind].
    destruct (Py.split v) as [|token others]; [exact IH|].
    destruct (Py.float token); [reflexivity | exact IH].
Qed.

Lemma head_is_firstn {A} (l : list A) :
  match head l with Some x => [x] | None => [] end = firstn 1 l.
Proof. destruct l; reflexivity. Qed.

Lemma scan_components_nodes groups : forall package_temps,
  forallb group_ok groups = true ->
  scan_components groups package_temps
  = Ok (package_temps ++ flat_map group_reading (filter is_temperatures groups)).
Proof.
  induction groups as [|g rest IH]; intros acc H.
  - simpl. rewrite app_nil_r. reflexivity.
  - cbn [forallb] in H. apply andb_true_iff in H. destruct H as [Hg Hrest].
    unfold group_ok in Hg. apply andb_true_iff in Hg. destruct Hg as [Hn Hs].
    cbn [scan_components filter]. rewrite (node_get_text g Hn).
    cbn [Json.bind eq_str]. unfold is_temperatures at 1.
    destruct (String.eqb (text g) "Temperatures").
    + rewrite (node_get_children g Hn). cbn [Json.bind iterate].
      rewrite (scan_sensors_nodes _ Hs). cbn [Json.bind].
      rewrite (IH _ Hrest). cbn [flat_map]. unfold group_reading at 2.
      unfold package_values. fold shown.
      rewrite <- head_is_firstn.
      destruct (head (flat_map shown (children g)));
        rewrite <- ?app_assoc; reflexivity.
    + apply IH, Hrest.
Qed.

Lemma scan_hardware_nodes hardware : forall package_temps,
  forallb hardware_ok hardware = true ->
  scan_hardware hardware package_temps
  = Ok (package_temps ++ flat_map hardware_readings hardware).
Proof.
  induction hardware as [|h rest IH]; intros acc H.
  - simpl. rewrite app_nil_r. reflexivity.
  - cbn [forallb] in H. apply andb_true_iff in H. destruct H as [Hh Hrest].
    unfold hardware_ok in Hh. apply andb_true_iff in Hh. destruct Hh as [Hh _].
    apply andb_true_iff in Hh. destruct Hh as [Hn Hg].
    cbn [scan_hardware flat_map]. rewrite (is_cpu_node h Hn). cbn [Json.bind].
    unfold hardware_readings at 1.
    destruct (cpu_class h).
    + rewrite (node_get_children h Hn). cbn [Json.bind iterate].
      rewrite (scan_components_nodes _ _ Hg). cbn [Json.bind].
      rewrite (IH _ Hrest), <- app_assoc. reflexivity.
    + apply IH, Hrest.
Qed.

Lemma first_package_values_readings data :
  first_package_values data = flat_map hardware_readings (hardware_nodes data).
Proof. reflexivity. Qed.

Lemma extractor_on_well_formed data :
  well_formed data = true ->
  get_cpu_package_temp_from_ohm (Document data)
  = Ok (maximum (first_package_values data)).
Proof.
  unfold well_formed. intros H. apply andb_true_iff in H. destruct H as [Hn Hc].
  rewrite first_package_values_readings. unfold hardware_nodes.
  cbn [get_cpu_package_temp_from_ohm].
  destruct (node_get_children_or_null data Hn) as (c & -> & C).
  cbn [Json.bind].
  assert (X : forall a b, a || b || a = a || b) by (intros [] []; reflexivity).
  rewrite X. clear X.
  destruct (negb (truthy c) || negb (is_list c)).
  - rewrite C. reflexivity.
  - destruct C as [-> C].
    destruct (children data) as [|computer others]; [congruence|].
    cbn [forallb] in Hc. apply andb_true_iff in Hc. destruct Hc as [Hc _].
    unfold computer_ok in Hc. apply andb_true_iff in Hc. destruct Hc as [Hcn Hh].
    destruct (node_get_children_or_null computer Hcn) as (hw & -> & W).
    cbn [Json.bind].
    destruct (negb (truthy hw) || negb (is_list hw)).
    + rewrite W. reflexivity.
    + destruct W as [-> W].
      rewrite (scan_hardware_nodes _ [] Hh). cbn [Json.bind app].
      destruct (flat_map hardware_readings (children computer)); reflexivity.
Qed.

Lemma extractor_without_arrays data :
  is_object data = true ->
  lacks_hardware_array data = true ->
  get_cpu_package_temp_from_ohm (Document data) = Ok None.
Proof.
  destruct data as [| | | | | |members]; try discriminate. intros _.
  unfold lacks_hardware_array, children, field.
  cbn [get_cpu_package_temp_from_ohm get Json.bind].
  destruct (find "Children" members) as [c|]; [|reflexivity].
  destruct c as [| | | | |items|];
    try (intros _; destruct (_ || _); reflexivity).
  destruct items as [|computer others]; [reflexivity|].
  cbn [truthy is_list negb orb].
  destruct computer as [| | | | | |m2]; try discriminate.
  cbn [is_object andb get Json.bind].
  destruct (find "Children" m2) as [hw|]; [|reflexivity].
  destruct hw as [| | | | |hardware|];
    try (intros _; destruct (_ || _); reflexivity).
  destruct hardware; [reflexivity | discriminate].
Qed.

End Extraction.

(** *** The maximum *)

Lemma py_max_in l : forall t, In (py_max t l) (t :: l).
Proof.
  induction l as [|x l IH]; intros t; [left; reflexivity|].
  cbn [py_max fold_left].
  change (fold_left (fun m y => if SFltb m y then y else m) l
            (if SFltb t x then x else t))
    with (py_max (if SFltb t x then x else t) l).
  destruct (IH (if SFltb t x then x else t)) as [H|H].
  - destruct (SFltb t x); [right; left | left]; exact H.
  - right. right. exact H.
Qed.

Lemma py_max_upper l : forall t,
  numbers (t :: l) = true ->
  forall x, In x (t :: l) -> SFleb x (py_max t l) = true.
Proof.
  induction l as [|y l IH]; intros t N x Hx.
  - destruct Hx as [<-|[]]. cbn [py_max fold_left]. apply le_refl.
    unfold numbers in N. cbn [forallb] in N.
    destruct (is_nan t); [discriminate | reflexivity].
  - cbn [py_max fold_left].
    change (fold_left (fun m z => if SFltb m z then z else m) l
              (if SFltb t y then y else t))
      with (py_max (if SFltb t y then y else t) l).
    unfold numbers in N. cbn [forallb] in N.
    apply andb_true_iff in N. destruct N as [Nt N].
    apply andb_true_iff in N. destruct N as [Ny N].
    apply negb_true_iff in Nt, Ny.
    destruct (SFltb t y) eqn:L.
    + assert (N' : numbers (y :: l) = true)
        by (unfold numbers; cbn [forallb]; rewrite Ny, N; reflexivity).
      destruct Hx as [<-|Hx]; [|exact (IH y N' x Hx)].
      apply (le_trans _ y); [apply lt_then_le, L | apply (IH y N'); left; reflexivity].
    + assert (N' : numbers (t :: l) = true)
        by (unfold numbers; cbn [forallb]; rewrite Nt, N; reflexivity).
      destruct Hx as [<-|[<-|Hx]].
      * apply (IH t N'). left. reflexivity.
      * apply (le_trans _ t);
          [apply not_lt_then_ge; assumption | apply (IH t N'); left; reflexivity].
      * apply (IH t N'). right. exact Hx.
Qed.

(** The order of the readings matters when one of them is NaN. *)
Example py_max_with_nan :
  py_max S754_nan [literal "50.0"] = S754_nan
  /\ py_max (literal "50.0") [S754_nan] = literal "50.0".
Proof. split; reflexivity. Qed.

(** Shapes of document on which the extractor raises instead of returning:
    a root that is not an object, and a "CPU Package" value that is a number
    rather than a text. *)
Example extractor_raises :
  get_cpu_package_temp_from_ohm (Document (Arr [])) = Raise AttributeError
  /\ get_cpu_package_temp_from_ohm
       (Document (Obj [("Children", Arr [Obj [("Children", Arr [
          Obj [("Text", Str "CPU"); ("Children", Arr [
            Obj [("Text", Str "Temperatures"); ("Children", Arr [
              Obj [("Text", Str "CPU Package");
                   ("Value", Float (literal "45.0"))]])]])]])]])]))
     = Raise AttributeError.
Proof. split; reflexivity. Qed.

(** C8, as stated, fails: a CPU node whose "Temperatures" group has two
    leaves named "CPU Package", showing 40.0 and 50.0, gives the reading 40.0,
    not the maximum 50.0 of every such leaf. *)
Lemma second_package_leaf_is_ignored :
  Snapshot.well_formed (cpu_document [celsius "40.0"; celsius "50.0"]) = true
  /\ Snapshot.every_package_value (cpu_document [celsius "40.0"; celsius "50.0"])
     = [literal "40.0"; literal "50.0"]
  /\ Snapshot.maximum
       (Snapshot.every_package_value (cpu_document [celsius "40.0"; celsius "50.0"]))
     = Some (literal "50.0")
  /\ get_cpu_package_temp_from_ohm
       (Document (cpu_document [celsius "40.0"; celsius "50.0"]))
     = Ok (Some (literal "40.0"))
  /\ SFltb (literal "40.0") (literal "50.0") = true.
Proof. repeat split. Qed.

(** C8, amended. For every well-formed telemetry snapshot (every node an
    object with textual label, icon reference and value and an array of
    children, at most one "Temperatures" group under a hardware node) the
    extractor returns the maximum over the CPU-class hardware nodes of the
    first value that parses among the leaves named "CPU Package" of the
    node's "Temperatures" group; leaves whose value does not parse are passed
    over; the result is a value that was read and, when no value read is NaN,
    no value read exceeds it.  When no value was parsed the result is "no
    reading", and so it is when the root object or its first child has no
    non-empty array of children, and when the document could not be fetched
    or decoded. *)
Theorem extractor_returns_maximum_of_first_readings :
  forall data : value,
    (Snapshot.well_formed data = true ->
       get_cpu_package_temp_from_ohm (Document data)
       = Ok (Snapshot.maximum (Snapshot.first_package_values data)))
    /\ (forall r,
          Snapshot.maximum (Snapshot.first_package_values data) = Some r ->
          In r (Snapshot.first_package_values data)
          /\ (numbers (Snapshot.first_package_values data) = true ->
              forall x, In x (Snapshot.first_package_values data) ->
                        SFleb x r = true))
    /\ (Snapshot.first_package_values data = [] ->
          Snapshot.maximum (Snapshot.first_package_values data) = None)
    /\ (Snapshot.is_object data = true ->
        Snapshot.lacks_hardware_array data = true ->
          get_cpu_package_temp_from_ohm (Document data) = Ok None)
    /\ get_cpu_package_temp_from_ohm RequestException = Ok None
    /\ get_cpu_package_temp_from_ohm JSONDecodeError = Ok None.
Proof.
  intros data. split; [|split; [|split; [|split; [|split]]]].
  - apply extractor_on_well_formed.
  - intros r H.
    destruct (Snapshot.first_package_values data) as [|t l]; [discriminate|].
    injection H as <-. split; [apply py_max_in | apply py_max_upper].
  - intros ->. reflexivity.
  - apply extractor_without_arrays.
  - reflexivity.
  - reflexivity.
Qed.

Lemma extractor_returns_maximum_of_first_readings_witness :
  get_cpu_package_temp_from_ohm
    (Document (cpu_document ["n/a"; celsius "61.5"; celsius "99.0"]))
  = Ok (Some (literal "61.5"))
  /\ get_cpu_package_temp_from_ohm (Document (Obj [("Text", Str "Sensor")]))
     = Ok None.
Proof.
  split.
  - exact (proj1 (extractor_returns_maximum_of_first_readings
                    (cpu_document ["n/a"; celsius "61.5"; celsius "99.0"]))
             eq_refl).
  - exact (proj1 (proj2 (proj2 (proj2
             (extractor_returns_maximum_of_first_readings
                (Obj [("Text", Str "Sensor")])))))
             eq_refl eq_refl).
Defined.

(** * Further properties of the command layer *)

Section Printing.

Variable env : nat -> invocation -> run_result.

Lemma prints_ret {A} P (a : A) : prints P (ret a).
Proof. intros st. exists []. split; [symmetry; apply app_nil_r | constructor]. Qed.

Lemma prints_bind {A B} P (m : M A) (k : A -> M B) :
  prints P m -> (forall a, prints P (k a)) -> prints P (bind m k).
Proof.
  intros Hm Hk st. rewrite snd_bind.
  destruct (Hm st) as (n1 & E1 & F1).
  destruct (Hk (fst (m st)) (snd (m st))) as (n2 & E2 & F2).
  exists (n1 ++ n2). split.
  - rewrite E2, E1, app_assoc. reflexivity.
  - apply Forall_app. split; assumption.
Qed.

Lemma prints_print (P : line -> Prop) l : P l -> prints P (print l).
Proof.
  intros H st. exists [l]. split; [reflexivity | constructor; [exact H | constructor]].
Qed.

Lemma prints_when P b m : prints P m -> prints P (when b m).
Proof. destruct b; simpl; auto using prints_ret. Qed.

Lemma prints_run P cmd t : prints P (run env cmd t).
Proof. intros st. exists []. split; [symmetry; apply app_nil_r | constructor]. Qed.

Lemma prints_set_mode P m : prints P (set_mode m).
Proof. intros st. exists []. split; [symmetry; apply app_nil_r | constructor]. Qed.

Lemma prints_get_mode P : prints P get_mode.
Proof. intros st. exists []. split; [symmetry; apply app_nil_r | constructor]. Qed.

End Printing.

Create HintDb printing.

#[local] Hint Resolve prints_ret prints_run prints_set_mode prints_get_mode
  : printing.

(** Splits a goal [prints P m] along the binds and branches of [m]; each
    printed line is left to [tac]. *)
Ltac printing tac :=
  repeat first
    [ solve [auto with printing]
    | progress intros
    | progress cbv zeta
    | apply prints_bind
    | apply prints_when
    | apply prints_print; solve [tac]
    | match goal with
      | |- context [match ?x with _ => _ end] => destruct x
      end ].

Section CommandLayer.

Variable env : nat -> invocation -> run_result.






(** The value [ensure_idrac_fan_mode_manual] returns tells the tracked mode
    it leaves. *)
Lemma ensure_reports_mode st :
  idrac_fan_mode_is_manual (snd (ensure_idrac_fan_mode_manual env st))
  = if fst (ensure_idrac_fan_mode_manual env st) then Some true else None.
Proof.
  destruct (idrac_fan_mode_is_manual st) as [[|]|] eqn:E.
  - rewrite (ensure_manual_when_manual env st E). exact E.
  - assert (N : idrac_fan_mode_is_manual st <> Some true) by congruence.
    destruct (ensure_manual_otherwise env st N) as [-> F].
    unfold fan in F. injection F as F _. exact F.
  - assert (N : idrac_fan_mode_is_manual st <> Some true) by congruence.
    destruct (ensure_manual_otherwise env st N) as [-> F].
    unfold fan in F. injection F as F _. exact F.
Qed.

Lemma ensure_sends st :
  spawned (snd (ensure_idrac_fan_mode_manual env st)) = spawned st
  \/ spawned (snd (ensure_idrac_fan_mode_manual env st))
     = spawned st ++ [ENABLE_MANUAL].
Proof.
  destruct (idrac_fan_mode_is_manual st) as [[|]|] eqn:E.
  - left. rewrite (ensure_manual_when_manual env st E). reflexivity.
  - right. assert (N : idrac_fan_mode_is_manual st <> Some true) by congruence.
    destruct (ensure_manual_otherwise env st N) as [_ F].
    unfold fan in F. injection F as _ F. exact F.
  - right. assert (N : idrac_fan_mode_is_manual st <> Some true) by congruence.
    destruct (ensure_manual_otherwise env st N) as [_ F].
    unfold fan in F. injection F as _ F. exact F.
Qed.

End CommandLayer.

(** X1. Each call of [run_ipmi_command] starts exactly one process, with the
    iDRAC connection arguments in front of the command arguments and a timeout
    of 45 seconds when "sdr" is one of the arguments and of 15 seconds
    otherwise; it leaves the tracked mode alone. *)
Theorem run_ipmi_command_starts_one_process :
  forall (subprocess_run : nat -> invocation -> run_result)
         (command_args : list string) (expect_output : bool) (st : state),
    let st' := snd (run_ipmi_command subprocess_run command_args expect_output st) in
    spawned st' = spawned st ++ [call_of command_args]
    /\ firstn 9 (argv (call_of command_args)) = base_cmd
    /\ skipn 9 (argv (call_of command_args)) = command_args
    /\ idrac_fan_mode_is_manual st' = idrac_fan_mode_is_manual st.
Proof.
  intros env args eo st. cbv zeta. repeat split.
  - apply run_ipmi_command_spawned.
  - apply run_ipmi_command_mode.
Qed.

(** X2. With [expect_output=True], [run_ipmi_command] returns the stripped
    standard output when the exit status is zero and [None] in every other
    case: a non-zero exit status is never taken for a success, whatever the
    diagnostic output.  The value is true only for exit status zero with
    output that is not blank. *)
Theorem expected_output_is_stdout_or_none :
  forall (subprocess_run : nat -> invocation -> run_result)
         (command_args : list string) (st : state),
    let answer := subprocess_run (List.length (spawned st)) (call_of command_args) in
    let v := fst (run_ipmi_command subprocess_run command_args true st) in
    v = match answer with
        | Exited returncode stdout _ =>
            if returncode =? 0 then PStr (Py.strip stdout) else PNone
        | _ => PNone
        end
    /\ (is_true v = true ->
        exists stdout stderr,
          answer = Exited 0 stdout stderr /\ nonempty (Py.strip stdout) = true).
Proof.
  intros env args st. cbv zeta.
  assert (V : fst (run_ipmi_command env args true st)
              = match env (List.length (spawned st)) (call_of args) with
                | Exited returncode stdout _ =>
                    if returncode =? 0 then PStr (Py.strip stdout) else PNone
                | _ => PNone
                end).
  { unfold run_ipmi_command. cbv zeta. rewrite fst_bind.
    change (fst (run env (base_cmd ++ args)
                   (if member "sdr" args then 45 else 15) st))
      with (env (List.length (spawned st)) (call_of args)).
    destruct (env _ _) as [rc out err| | |]; try reflexivity.
    destruct (rc =? 0); [reflexivity|].
    cbn [negb andb].
    repeat (rewrite fst_bind || unfold when || cbn [print ret fst snd]).
    reflexivity. }
  split; [exact V|]. rewrite V.
  destruct (env _ _) as [rc out err| | |]; try discriminate.
  destruct (rc =? 0) eqn:Z; [|discriminate].
  apply Z.eqb_eq in Z. subst rc. intros T. exists out, err.
  split; [reflexivity|]. destruct (Py.strip out); [discriminate | reflexivity].
Qed.

Lemma expected_output_is_stdout_or_none_witness :
  exists stdout stderr,
    (fun (n : nat) (c : invocation) => Exited 0 " 1c 00 " EmptyString)
      (List.length (spawned initial)) (call_of ["raw"; "0x30"; "0x30"]) 
    = Exited 0 stdout stderr
    /\ nonempty (Py.strip stdout) = true.
Proof.
  exact (proj2 (expected_output_is_stdout_or_none
                  (fun _ _ => Exited 0 " 1c 00 " EmptyString)
                  ["raw"; "0x30"; "0x30"] initial) eq_refl).
Defined.

(** X3. The value a mode function returns tells the tracked mode it leaves:
    after [set_idrac_fan_mode_auto] the mode is Auto when it returned [True]
    and Unknown when it returned [False]; after
    [ensure_idrac_fan_mode_manual] it is Manual when it returned [True] and
    Unknown when it returned [False]. *)
Theorem mode_functions_report_the_tracked_mode :
  forall (subprocess_run : nat -> invocation -> run_result) (st : state),
    idrac_fan_mode_is_manual (snd (set_idrac_fan_mode_auto subprocess_run st))
    = (if fst (set_idrac_fan_mode_auto subprocess_run st)
       then Some false else None)
    /\ idrac_fan_mode_is_manual
         (snd (ensure_idrac_fan_mode_manual subprocess_run st))
       = (if fst (ensure_idrac_fan_mode_manual subprocess_run st)
          then Some true else None).
Proof.
  intros env st. split.
  - destruct (set_idrac_fan_mode_auto_spec env st) as [-> F].
    unfold fan in F. injection F as F _. exact F.
  - apply ensure_reports_mode.
Qed.

(** X4. When [set_idrac_fan_speed_percentage] returns [True], its argument is
    a hexadecimal literal, the tracked mode is Manual and the last command
    sent is the speed command with that argument. *)
Theorem speed_success_means_manual_and_sent :
  forall (subprocess_run : nat -> invocation -> run_result)
         (speed_hex : string) (st : state),
    fst (set_idrac_fan_speed_percentage subprocess_run speed_hex st) = true ->
    Py.int16 speed_hex <> None
    /\ idrac_fan_mode_is_manual
         (snd (set_idrac_fan_speed_percentage subprocess_run speed_hex st))
       = Some true
    /\ exists before,
         spawned (snd (set_idrac_fan_speed_percentage subprocess_run speed_hex st))
         = before ++ [SET_SPEED speed_hex].
Proof.
  intros env h st T.
  assert (Hhex : Py.int16 h <> None).
  { intros N. unfold set_idrac_fan_speed_percentage in T. rewrite N in T.
    discriminate T. }
  split; [exact Hhex|].
  pose proof (set_speed_after_ensure env h st Hhex) as S. cbv zeta in S.
  pose proof (ensure_reports_mode env st) as R.
  destruct (fst (ensure_idrac_fan_mode_manual env st)).
  - destruct S as [_ S]. unfold fan in S. injection S as Sm Ss.
    split; [rewrite Sm; exact R | eexists; exact Ss].
  - destruct S as [S _]. rewrite S in T. discriminate T.
Qed.

Lemma speed_success_means_manual_and_sent_witness :
  Py.int16 FAN_SPEED_MEDIUM_HEX_NEW <> None
  /\ idrac_fan_mode_is_manual
       (snd (set_idrac_fan_speed_percentage every_process_exits_0
               FAN_SPEED_MEDIUM_HEX_NEW initial)) = Some true
  /\ exists before,
       spawned (snd (set_idrac_fan_speed_percentage every_process_exits_0
                       FAN_SPEED_MEDIUM_HEX_NEW initial))
       = before ++ [SET_SPEED FAN_SPEED_MEDIUM_HEX_NEW].
Proof.
  exact (speed_success_means_manual_and_sent every_process_exits_0
           FAN_SPEED_MEDIUM_HEX_NEW initial eq_refl).
Defined.



(** * Further properties of the loop *)

Section Runs.

Variable env : nat -> invocation -> run_result.

Lemma fan_eq st m l :
  fan st = (m, l) -> idrac_fan_mode_is_manual st = m /\ spawned st = l.
Proof.
  intros H. split; [exact (f_equal fst H) | exact (f_equal snd H)].
Qed.

Lemma loop_fan_cons p later st :
  fan (snd (control_loop env (p :: later) st))
  = match get_cpu_package_temp_from_ohm p with
    | Raise _ => fan st
    | Ok r => fan (snd (control_loop env later (snd (control_step env r st))))
    end.
Proof.
  destruct (get_cpu_package_temp_from_ohm p) as [r|e] eqn:E.
  - apply (pass_fan env p r later st _ E). reflexivity.
  - cbn [control_loop]. rewrite snd_bind, E. reflexivity.
Qed.

Lemma speed_for_constant t : speed_constant (speed_for t).
Proof.
  unfold speed_for, speed_constant.
  destruct (lt_int t TEMP_LOW_THRESHOLD_NEW); simpl; auto.
Qed.

Lemma raw_command_succeeds args st :
  member "sdr" args = false ->
  member "raw" args = true ->
  command_succeeds env args st
  = accepted (env (List.length (spawned st)) (ipmi args)).
Proof.
  intros Hs Hr. rewrite command_succeeds_classified, classified_spec.
  rewrite Hs, Hr. reflexivity.
Qed.

Lemma auto_succeeds st :
  command_succeeds env DELL_ENABLE_AUTO_FAN_CMD_ARGS st
  = accepted (env (List.length (spawned st)) ENABLE_AUTO).
Proof. apply raw_command_succeeds; reflexivity. Qed.

Lemma manual_succeeds st :
  command_succeeds env DELL_DISABLE_AUTO_FAN_CMD_ARGS st
  = accepted (env (List.length (spawned st)) ENABLE_MANUAL).
Proof. apply raw_command_succeeds; reflexivity. Qed.

(** What one pass does to the fan. *)
Lemma control_step_sends r st :
  exists more,
    spawned (snd (control_step env r st)) = spawned st ++ more
    /\ pass_sends env (List.length (spawned st))
         (idrac_fan_mode_is_manual st) more
         (idrac_fan_mode_is_manual (snd (control_step env r st))).
Proof.
  destruct r as [t|].
  - destruct (ge_int t TEMP_AUTO_THRESHOLD_NEW) eqn:G.
    + pose proof (step_fan_auto env t st G) as F.
      destruct (fan_eq _ _ _ F) as [Fm Fs]. exists [ENABLE_AUTO].
      split; [exact Fs|]. rewrite Fm, auto_succeeds. apply SendsAuto.
    + destruct (idrac_fan_mode_is_manual st) as [[|]|] eqn:M.
      * pose proof (step_fan_manual env t st G M) as F.
        destruct (fan_eq _ _ _ F) as [Fm Fs].
        exists [SET_SPEED (speed_for t)].
        split; [exact Fs|]. rewrite Fm.
        apply SendsSpeed, speed_for_constant.
      * assert (N : idrac_fan_mode_is_manual st <> Some true) by congruence.
        pose proof (step_fan_manual_otherwise env t st G N) as F.
        rewrite manual_succeeds in F.
        destruct (accepted (env (List.length (spawned st)) ENABLE_MANUAL))
          eqn:C;
          destruct (fan_eq _ _ _ F) as [Fm Fs]; eexists;
          (split; [exact Fs|]); rewrite Fm.
        -- apply SendsManualThenSpeed;
             [discriminate | apply speed_for_constant | exact C].
        -- apply SendsManualOnly; [discriminate | exact C].
      * assert (N : idrac_fan_mode_is_manual st <> Some true) by congruence.
        pose proof (step_fan_manual_otherwise env t st G N) as F.
        rewrite manual_succeeds in F.
        destruct (accepted (env (List.length (spawned st)) ENABLE_MANUAL))
          eqn:C;
          destruct (fan_eq _ _ _ F) as [Fm Fs]; eexists;
          (split; [exact Fs|]); rewrite Fm.
        -- apply SendsManualThenSpeed;
             [discriminate | apply speed_for_constant | exact C].
        -- apply SendsManualOnly; [discriminate | exact C].
  - exists []. split; [symmetry; apply app_nil_r | apply SendsNothing].
Qed.

(** What the [finally] block does to the fan. *)
Lemma finalization_sends last st :
  exists more,
    spawned (snd (finalization env last st)) = spawned st ++ more
    /\ pass_sends env (List.length (spawned st))
         (idrac_fan_mode_is_manual st) more
         (idrac_fan_mode_is_manual (snd (finalization env last st)))
    /\ (more = [] \/ more = [ENABLE_AUTO]).
Proof.
  pose proof (finalization_fan env last st) as F.
  destruct (set_idrac_fan_mode_auto_spec env st) as [_ A].
  assert (Same : fan (snd (finalization env last st)) = fan st ->
          exists more,
            spawned (snd (finalization env last st)) = spawned st ++ more
            /\ pass_sends env (List.length (spawned st))
                 (idrac_fan_mode_is_manual st) more
                 (idrac_fan_mode_is_manual (snd (finalization env last st)))
            /\ (more = [] \/ more = [ENABLE_AUTO])).
  { intros E. destruct (fan_eq _ _ _ E) as [Em Es]. exists [].
    rewrite Em, Es, app_nil_r.
    split; [reflexivity | split; [apply SendsNothing | left; reflexivity]]. }
  assert (Auto : fan (snd (finalization env last st))
                 = fan (snd (set_idrac_fan_mode_auto env st)) ->
          exists more,
            spawned (snd (finalization env last st)) = spawned st ++ more
            /\ pass_sends env (List.length (spawned st))
                 (idrac_fan_mode_is_manual st) more
                 (idrac_fan_mode_is_manual (snd (finalization env last st)))
            /\ (more = [] \/ more = [ENABLE_AUTO])).
  { intros E. rewrite A in E. destruct (fan_eq _ _ _ E) as [Em Es].
    exists [ENABLE_AUTO]. rewrite Em, auto_succeeds.
    split; [exact Es | split; [apply SendsAuto | right; reflexivity]]. }
  destruct (get_cpu_package_temp_from_ohm last) as [[t|]|e]; auto.
  destruct (ge_int t TEMP_AUTO_THRESHOLD_NEW); auto.
Qed.

(** An invariant of the passes is an invariant of the loop: [I k mode new]
    speaks of the number of passes made, the tracked mode and the commands
    sent since the [base] ones. *)
Lemma control_loop_invariant (base : list invocation)
    (I : nat -> option bool -> list invocation -> Prop) :
  (forall k m new more m',
      I k m new ->
      pass_sends env (List.length base + List.length new) m more m' ->
      I (S k) m' (new ++ more)) ->
  forall passes st sofar k0,
    spawned st = base ++ sofar ->
    I k0 (idrac_fan_mode_is_manual st) sofar ->
    exists k new,
      (k0 <= k <= k0 + List.length passes)%nat
      /\ snd (fan (snd (control_loop env passes st))) = base ++ new
      /\ I k (fst (fan (snd (control_loop env passes st)))) new.
Proof.
  intros Step. induction passes as [|p later IH]; intros st sofar k0 B H.
  - exists k0, sofar. split; [simpl; lia | split; [exact B | exact H]].
  - rewrite loop_fan_cons.
    destruct (get_cpu_package_temp_from_ohm p) as [r|e].
    + destruct (control_step_sends r st) as (more & S1 & P1).
      rewrite B, length_app in P1.
      destruct (IH (snd (control_step env r st)) (sofar ++ more) (S k0))
        as (k & new & Hk & Hs & Hi).
      * rewrite S1, B, app_assoc. reflexivity.
      * apply (Step k0 _ _ _ _ H P1).
      * exists k, new. split; [simpl; lia | split; assumption].
    + exists k0, sofar. split; [simpl; lia | split; [exact B | exact H]].
Qed.

Lemma main_control_loop_invariant (st : state)
    (I : nat -> option bool -> list invocation -> Prop) :
  (forall k m new more m',
      I k m new ->
      pass_sends env (List.length (spawned st) + List.length new) m more m' ->
      I (S k) m' (new ++ more)) ->
  I O None [] ->
  forall passes,
    exists k new,
      (k <= List.length passes)%nat
      /\ spawned (snd (main_control_loop env passes st)) = spawned st ++ new
      /\ I k (idrac_fan_mode_is_manual (snd (main_control_loop env passes st)))
           new.
Proof.
  intros Step Start passes. unfold main_control_loop. rewrite !snd_bind.
  set (st1 := snd (set_mode None (snd (print Banner st)))).
  destruct (control_loop_invariant (spawned st) I Step passes st1 [] O)
    as (k & new & Hk & Hs & Hi).
  - symmetry. apply app_nil_r.
  - exact Start.
  - exists k, new. split; [lia | split; [exact Hs | exact Hi]].
Qed.

(** The program, seen from the fan: the loop, then the [finally] block. *)
Lemma main_fan passes last st :
  fan (snd (main env passes last st))
  = fan (snd (finalization env last (snd (main_control_loop env passes st)))).
Proof.
  unfold main. rewrite !snd_bind.
  apply finalization_fan_only.
  destruct (fst (main_control_loop env passes st)); reflexivity.
Qed.

Lemma main_invariant (st : state)
    (I : nat -> option bool -> list invocation -> Prop) :
  (forall k m new more m',
      I k m new ->
      pass_sends env (List.length (spawned st) + List.length new) m more m' ->
      I (S k) m' (new ++ more)) ->
  I O None [] ->
  forall passes last,
    exists k new,
      (k <= S (List.length passes))%nat
      /\ spawned (snd (main env passes last st)) = spawned st ++ new
      /\ I k (idrac_fan_mode_is_manual (snd (main env passes last st))) new.
Proof.
  intros Step Start passes last.
  destruct (main_control_loop_invariant st I Step Start passes)
    as (k & new & Hk & Hs & Hi).
  destruct (finalization_sends last (snd (main_control_loop env passes st)))
    as (more & Fs & Fp & _).
  rewrite Hs, length_app in Fp.
  destruct (fan_eq _ _ _ (main_fan passes last st)) as [Fm Fsp].
  exists (S k), (new ++ more). split; [lia | split].
  - rewrite Fsp, Fs, Hs, app_assoc. reflexivity.
  - rewrite Fm. apply (Step k _ _ _ _ Hi Fp).
Qed.

Lemma told_manual_app calls : forall n manual more,
  told_manual env n manual (calls ++ more)
  = told_manual env (n + List.length calls)
      (told_manual env n manual calls) more.
Proof.
  induction calls as [|c calls IH]; intros n manual more.
  - cbn [app told_manual List.length]. rewrite Nat.add_0_r. reflexivity.
  - cbn [app told_manual List.length]. rewrite IH. f_equal. lia.
Qed.

Lemma speed_follows_manual_app calls : forall n manual more,
  speed_follows_manual env n manual (calls ++ more)
  = speed_follows_manual env n manual calls
    && speed_follows_manual env (n + List.length calls)
         (told_manual env n manual calls) more.
Proof.
  induction calls as [|c calls IH]; intros n manual more.
  - cbn [app told_manual speed_follows_manual List.length].
    rewrite Nat.add_0_r. reflexivity.
  - cbn [app told_manual speed_follows_manual List.length].
    replace (n + S (List.length calls))%nat
      with (S n + List.length calls)%nat by lia.
    destruct (is_enable_manual c); [apply IH|].
    destruct (is_enable_auto c); [apply IH|].
    rewrite IH, andb_assoc. reflexivity.
Qed.

(** The loop is left by an exception on the first answer on which the
    extractor raises. *)
Lemma control_loop_stops before p later e :
  get_cpu_package_temp_from_ohm p = Raise e ->
  forall st,
    control_loop env (before ++ p :: later) st
    = control_loop env (before ++ [p]) st.
Proof.
  intros E. induction before as [|q before IH]; intros st.
  - cbn [app control_loop]. unfold bind. destruct (print TickHeader st).
    rewrite E. reflexivity.
  - cbn [app control_loop]. unfold bind. destruct (print TickHeader st).
    destruct (get_cpu_package_temp_from_ohm q) as [r|]; [|reflexivity].
    destruct (control_step env r _) as [? s1].
    destruct (print Waiting s1). apply IH.
Qed.

Lemma control_loop_exit before p later e :
  get_cpu_package_temp_from_ohm p = Raise e ->
  forallb returns before = true ->
  forall st, fst (control_loop env (before ++ p :: later) st) = Uncaught e.
Proof.
  intros E. induction before as [|q before IH]; intros R st.
  - cbn [app control_loop]. rewrite fst_bind, E. reflexivity.
  - cbn [forallb] in R. apply andb_true_iff in R. destruct R as [Rq R].
    unfold returns in Rq. cbn [app control_loop]. rewrite fst_bind.
    destruct (get_cpu_package_temp_from_ohm q); [|discriminate].
    rewrite !fst_bind. apply IH, R.
Qed.

End Runs.

Lemma pass_sends_short env n m more m' :
  pass_sends env n m more m' -> (List.length more <= 2)%nat.
Proof. intros H. destruct H; simpl; lia. Qed.

Lemma pass_sends_known env n m more m' :
  pass_sends env n m more m' ->
  Forall (fun c => In c known_commands /\ timeout c = 15) more.
Proof.
  assert (K : forall h, speed_constant h ->
            In (SET_SPEED h) known_commands /\ timeout (SET_SPEED h) = 15).
  { intros h [<-|[<-|[]]]; split; simpl; auto. }
  assert (A : In ENABLE_AUTO known_commands /\ timeout ENABLE_AUTO = 15)
    by (split; simpl; auto).
  assert (E : In ENABLE_MANUAL known_commands /\ timeout ENABLE_MANUAL = 15)
    by (split; simpl; auto).
  intros H. destruct H as [mode|mode|h Hh|mode h N Hh Ha|mode N Ha].
  - apply Forall_nil.
  - apply Forall_cons; [exact A | apply Forall_nil].
  - apply Forall_cons; [exact (K h Hh) | apply Forall_nil].
  - apply Forall_cons; [exact E|].
    apply Forall_cons; [exact (K h Hh) | apply Forall_nil].
  - apply Forall_cons; [exact E | apply Forall_nil].
Qed.

Lemma speed_is_not_auto_enable speed_hex :
  is_enable_auto (SET_SPEED speed_hex) = false.
Proof.
  unfold is_enable_auto.
  destruct (list_eq_dec string_dec (argv (SET_SPEED speed_hex)) (argv ENABLE_AUTO))
    as [E|]; [|reflexivity].
  discriminate E.
Qed.

Lemma pass_sends_in_order env n m more m' manual :
  pass_sends env n m more m' ->
  (m = Some true -> manual = true) ->
  speed_follows_manual env n manual more = true
  /\ (m' = Some true -> told_manual env n manual more = true).
Proof.
  intros H Hm. destruct H as [mode|mode|h Hh|mode h N Hh Ha|mode N Ha].
  - split; [reflexivity | exact Hm].
  - split; [reflexivity|].
    destruct (accepted (env n ENABLE_AUTO)); discriminate.
  - rewrite (Hm eq_refl). cbn [speed_follows_manual told_manual].
    rewrite speed_is_not_manual_enable, speed_is_not_auto_enable.
    split; reflexivity.
  - cbn [speed_follows_manual told_manual].
    change (is_enable_manual ENABLE_MANUAL) with true. cbv iota.
    rewrite speed_is_not_manual_enable, speed_is_not_auto_enable, Ha.
    split; reflexivity.
  - split; [reflexivity | discriminate].
Qed.

(** What one more pass adds to the commands of a run. *)
Lemma control_loop_snoc env before next : forall st,
  exists more,
    snd (fan (snd (control_loop env (before ++ [next]) st)))
    = snd (fan (snd (control_loop env before st))) ++ more
    /\ (List.length more <= 2)%nat.
Proof.
  induction before as [|q before IH]; intros st; cbn [app].
  - rewrite loop_fan_cons.
    destruct (get_cpu_package_temp_from_ohm next) as [r|e].
    + destruct (control_step_sends env r st) as (more & S1 & P1).
      exists more. split; [exact S1 | apply (pass_sends_short _ _ _ _ _ P1)].
    + exists []. split; [symmetry; apply app_nil_r | simpl; lia].
  - rewrite !loop_fan_cons.
    destruct (get_cpu_package_temp_from_ohm q) as [r|e].
    + apply IH.
    + exists []. split; [symmetry; apply app_nil_r | simpl; lia].
Qed.

(** X6. The script only adds to the commands sent, and sends few of them:
    every pass of the loop sends at most two (the manual-mode command and a
    speed command), whatever the state it starts from and whatever passes
    came before it in the run, and the [finally] block sends at most one
    more; so a run of [n] passes sends at most [2n], and [2n+1] with the
    [finally] block. *)
Theorem at_most_two_commands_per_pass :
  forall (subprocess_run : nat -> invocation -> run_result)
         (passes : list ohm_response) (next last : ohm_response)
         (r : option spec_float) (st : state),
    (exists more,
        spawned (snd (control_step subprocess_run r st)) = spawned st ++ more
        /\ (List.length more <= 2)%nat)
    /\ (exists more,
          spawned (snd (main_control_loop subprocess_run (passes ++ [next]) st))
          = spawned (snd (main_control_loop subprocess_run passes st)) ++ more
          /\ (List.length more <= 2)%nat)
    /\ (exists more,
          spawned (snd (main subprocess_run passes last st))
          = spawned (snd (main_control_loop subprocess_run passes st)) ++ more
          /\ (List.length more <= 1)%nat)
    /\ (exists new,
          spawned (snd (main_control_loop subprocess_run passes st))
          = spawned st ++ new
          /\ (List.length new <= 2 * List.length passes)%nat)
    /\ (exists new,
          spawned (snd (main subprocess_run passes last st)) = spawned st ++ new
          /\ (List.length new <= 2 * List.length passes + 1)%nat).
Proof.
  intros env passes next last r st.
  destruct (main_control_loop_invariant env st
              (fun k _ new => (List.length new <= 2 * k)%nat)) with
    (passes := passes) as (n & new & Hn & Hs & Hi).
  { intros k m new more m' H P. rewrite length_app.
    pose proof (pass_sends_short _ _ m more m' P). lia. }
  { simpl. lia. }
  destruct (finalization_sends env last
              (snd (main_control_loop env passes st)))
    as (more & Fs & _ & Fm).
  destruct (fan_eq _ _ _ (main_fan env passes last st)) as [_ Fsp].
  assert (Fl : (List.length more <= 1)%nat)
    by (destruct Fm as [-> | ->]; simpl; lia).
  split; [|split; [|split; [|split]]].
  - destruct (control_step_sends env r st) as (one & S1 & P1).
    exists one. split; [exact S1 | apply (pass_sends_short _ _ _ _ _ P1)].
  - unfold main_control_loop. rewrite !snd_bind.
    apply (control_loop_snoc env passes next).
  - exists more. split; [rewrite Fsp; exact Fs | exact Fl].
  - exists new. split; [exact Hs | lia].
  - exists (new ++ more). split.
    + rewrite Fsp, Fs, Hs, app_assoc. reflexivity.
    + rewrite length_app. lia.
Qed.

(** X7. Whatever the telemetry and the answers of ipmitool, every process
    the script starts is one of four: the auto-mode command, the manual-mode
    command and the speed command at the low or at the medium speed, each
    with a timeout of 15 seconds.  It never starts anything else, and never
    a sensor query. *)
Theorem only_known_commands_are_sent :
  forall (subprocess_run : nat -> invocation -> run_result)
         (passes : list ohm_response) (last : ohm_response) (st : state),
    exists new,
      spawned (snd (main subprocess_run passes last st)) = spawned st ++ new
      /\ Forall (fun c => In c known_commands /\ timeout c = 15) new.
Proof.
  intros env passes last st.
  destruct (main_invariant env st
              (fun _ _ new =>
                 Forall (fun c => In c known_commands /\ timeout c = 15) new))
    with (passes := passes) (last := last)
    as (n & new & _ & Hs & Hi).
  { intros k m new more m' H P. apply Forall_app. split; [exact H|].
    apply (pass_sends_known _ _ m more m' P). }
  { constructor. }
  exists new. split; assumption.
Qed.

(** X8. Going by the commands of a run and their answers, a speed command
    is sent only while the iDRAC is in manual mode: the last mode command
    before every speed command is the manual-mode command, and its process
    ended in a way that [run_ipmi_command] takes for a success.  No speed
    command comes first, after an auto-mode command or after a manual-mode
    command that failed. *)
Theorem speed_commands_follow_accepted_manual_mode :
  forall (subprocess_run : nat -> invocation -> run_result)
         (passes : list ohm_response) (last : ohm_response) (st : state),
    exists new,
      spawned (snd (main subprocess_run passes last st)) = spawned st ++ new
      /\ speed_follows_manual subprocess_run (List.length (spawned st))
           false new = true.
Proof.
  intros env passes last st.
  destruct (main_invariant env st
              (fun _ m new =>
                 speed_follows_manual env (List.length (spawned st)) false new
                 = true
                 /\ (m = Some true ->
                     told_manual env (List.length (spawned st)) false new
                     = true)))
    with (passes := passes) (last := last)
    as (n & new & _ & Hs & Hi & _).
  { intros k m new more m' [H1 H2] P.
    rewrite speed_follows_manual_app, told_manual_app, H1.
    apply (pass_sends_in_order env _ m more m' _ P H2). }
  { split; [reflexivity | discriminate]. }
  exists new. split; assumption.
Qed.

(** X9. The auto-mode command is not remembered the way the manual-mode
    command is: on a run of readings of at least 70 the script sends the
    auto-mode command on every pass, whatever the answers, and the tracked
    mode is not Manual afterwards. *)
Theorem auto_mode_is_requested_on_every_hot_pass :
  forall (subprocess_run : nat -> invocation -> run_result)
         (passes : list ohm_response) (temps : list spec_float) (st : state),
    map get_cpu_package_temp_from_ohm passes = map (fun t => Ok (Some t)) temps ->
    forallb (fun t => ge_int t TEMP_AUTO_THRESHOLD_NEW) temps = true ->
    let st' := snd (control_loop subprocess_run passes st) in
    spawned st' = spawned st ++ repeat ENABLE_AUTO (List.length passes)
    /\ (passes <> [] -> idrac_fan_mode_is_manual st' <> Some true).
Proof.
  intros env passes. cbv zeta.
  induction passes as [|p later IH]; intros [|t temps] st E B;
    try discriminate E.
  - split; [symmetry; apply app_nil_r | intros N; contradiction].
  - cbn [map] in E. injection E as Ep El.
    cbn [forallb] in B. apply andb_true_iff in B. destruct B as [Bt B].
    pose proof (step_fan_auto env t st Bt) as F.
    set (m1 := if command_succeeds env DELL_ENABLE_AUTO_FAN_CMD_ARGS st
               then Some false else None) in F.
    set (s1 := {| idrac_fan_mode_is_manual := m1;
                  spawned := spawned st ++ [ENABLE_AUTO];
                  console := [] |}).
    destruct (fan_eq _ _ _ (pass_fan env p (Some t) later st s1 Ep F))
      as [Fm Fs].
    destruct (IH temps s1 El B) as [I1 I2]. split.
    + rewrite Fs, I1. subst s1. cbn [spawned List.length repeat].
      rewrite <- app_assoc. reflexivity.
    + intros _. rewrite Fm. destruct later as [|q later'].
      * subst s1 m1. cbn [control_loop ret snd idrac_fan_mode_is_manual].
        destruct (command_succeeds env DELL_ENABLE_AUTO_FAN_CMD_ARGS st);
          discriminate.
      * apply I2. discriminate.
Qed.

Lemma auto_mode_is_requested_on_every_hot_pass_witness :
  spawned (snd (control_loop every_process_exits_0
                  [Document (cpu_document [celsius "72.0"]);
                   Document (cpu_document [celsius "80.5"])] initial))
  = spawned initial ++ repeat ENABLE_AUTO 2.
Proof.
  exact (proj1 (auto_mode_is_requested_on_every_hot_pass every_process_exits_0
                  [Document (cpu_document [celsius "72.0"]);
                   Document (cpu_document [celsius "80.5"])]
                  [literal "72.0"; literal "80.5"] initial eq_refl eq_refl)).
Defined.

(** X10. An exception of the extractor ends the loop at once: the answers
    that would have come after it play no part in the run; when the
    extractor returned on every earlier pass, the loop is left with that
    exception. *)
Theorem extractor_exception_ends_the_loop :
  forall (subprocess_run : nat -> invocation -> run_result)
         (before : list ohm_response) (p : ohm_response)
         (later : list ohm_response) (last : ohm_response) (e : exn)
         (st : state),
    get_cpu_package_temp_from_ohm p = Raise e ->
    main subprocess_run (before ++ p :: later) last st
    = main subprocess_run (before ++ [p]) last st
    /\ (forallb returns before = true ->
        fst (main_control_loop subprocess_run (before ++ p :: later) st)
        = Uncaught e).
Proof.
  intros env before p later last e st E. split.
  - unfold main, main_control_loop, bind.
    destruct (print Banner st) as [? s0]. destruct (set_mode None s0) as [? s1].
    rewrite (control_loop_stops env before p later e E s1). reflexivity.
  - intros R. unfold main_control_loop. rewrite !fst_bind.
    apply (control_loop_exit env before p later e E R).
Qed.

Lemma extractor_exception_ends_the_loop_witness :
  main every_process_exits_0
    ([Document (cpu_document [celsius "50.0"])]
       ++ Document (Arr []) :: [Document (cpu_document [celsius "72.0"])])
    RequestException initial
  = main every_process_exits_0
      ([Document (cpu_document [celsius "50.0"])] ++ [Document (Arr [])])
      RequestException initial
  /\ fst (main_control_loop every_process_exits_0
            ([Document (cpu_document [celsius "50.0"])]
               ++ Document (Arr []) :: [Document (cpu_document [celsius "72.0"])])
            initial)
     = Uncaught AttributeError.
Proof.
  split.
  - exact (proj1 (extractor_exception_ends_the_loop every_process_exits_0
                    [Document (cpu_document [celsius "50.0"])]
                    (Document (Arr []))
                    [Document (cpu_document [celsius "72.0"])]
                    RequestException AttributeError initial eq_refl)).
  - exact (proj2 (extractor_exception_ends_the_loop every_process_exits_0
                    [Document (cpu_document [celsius "50.0"])]
                    (Document (Arr []))
                    [Document (cpu_document [celsius "72.0"])]
                    RequestException AttributeError initial eq_refl) eq_refl).
Defined.

(** X11. [main_control_loop] starts from the Unknown mode, whatever the
    tracked mode was: when its first reading is below 70, the first command
    it sends is the manual-mode command, even from a state in which the mode
    was tracked as Manual. *)
Theorem loop_starts_from_unknown_mode :
  forall (subprocess_run : nat -> invocation -> run_result)
         (p : ohm_response) (t : spec_float) (later : list ohm_response)
         (st : state),
    get_cpu_package_temp_from_ohm p = Ok (Some t) ->
    ge_int t TEMP_AUTO_THRESHOLD_NEW = false ->
    exists rest,
      spawned (snd (main_control_loop subprocess_run (p :: later) st))
      = spawned st ++ ENABLE_MANUAL :: rest.
Proof.
  intros env p t later st E G. unfold main_control_loop. rewrite !snd_bind.
  set (st1 := snd (set_mode None (snd (print Banner st)))).
  assert (N : idrac_fan_mode_is_manual st1 <> Some true) by discriminate.
  pose proof (step_fan_manual_otherwise env t st1 G N) as F.
  destruct (control_loop_invariant env
              (spawned (snd (control_step env (Some t) st1)))
              (fun _ _ _ => True) (fun _ _ _ _ _ _ _ => Logic.I)
              later (snd (control_step env (Some t) st1)) [] O)
    as (n & new & _ & Hs & _).
  { symmetry. apply app_nil_r. }
  { exact Logic.I. }
  pose proof (loop_fan_cons env p later st1) as L. rewrite E in L.
  assert (S0 : spawned (snd (control_loop env (p :: later) st1))
               = spawned (snd (control_step env (Some t) st1)) ++ new)
    by exact (eq_trans (f_equal snd L) Hs).
  destruct (command_succeeds env DELL_DISABLE_AUTO_FAN_CMD_ARGS st1);
    destruct (fan_eq _ _ _ F) as [_ Fs]; rewrite S0, Fs;
    change (spawned st1) with (spawned st).
  - exists ([SET_SPEED (speed_for t)] ++ new).
    rewrite <- app_assoc. reflexivity.
  - exists new. rewrite <- app_assoc. reflexivity.
Qed.

Lemma loop_starts_from_unknown_mode_witness :
  exists rest,
    spawned (snd (main_control_loop every_process_exits_0
                    [Document (cpu_document [celsius "50.0"])] believed_manual))
    = spawned believed_manual ++ ENABLE_MANUAL :: rest.
Proof.
  exact (loop_starts_from_unknown_mode every_process_exits_0
           (Document (cpu_document [celsius "50.0"])) (literal "50.0") []
           believed_manual eq_refl eq_refl).
Defined.



(** * Further properties of the policy and of the extractor *)

Section FloatOrderMore.

Lemma le_not_nan x y : SFleb x y = true -> is_nan x = false /\ is_nan y = false.
Proof. destruct x, y; split; try reflexivity; discriminate. Qed.

Lemma lt_not_nan x y : SFltb x y = true -> is_nan x = false /\ is_nan y = false.
Proof. destruct x, y; split; try reflexivity; discriminate. Qed.

Lemma le_lt_trans x y z :
  SFleb x y = true -> SFltb y z = true -> SFltb x z = true.
Proof.
  intros H1 H2. destruct (SFltb x z) eqn:L; [reflexivity|].
  destruct (le_not_nan x y H1) as [Nx _].
  destruct (lt_not_nan y z H2) as [_ Nz].
  pose proof (not_lt_then_ge x z Nx Nz L) as G.
  pose proof (le_trans z x y G H1) as C.
  rewrite (lt_then_not_ge y z H2) in C. discriminate.
Qed.

Lemma le_antisym x y :
  SFleb x y = true -> SFleb y x = true -> SFeqb x y = true.
Proof.
  unfold SFleb, SFeqb. rewrite (compare_swap x y).
  destruct (SFcompare x y) as [[]|]; simpl; congruence.
Qed.

Lemma eq_then_le x y : SFeqb x y = true -> SFleb x y = true /\ SFleb y x = true.
Proof.
  unfold SFleb, SFeqb. rewrite (compare_swap x y).
  destruct (SFcompare x y) as [[]|]; simpl; split; congruence.
Qed.

Lemma eq_ge_int x y n : SFeqb x y = true -> ge_int x n = ge_int y n.
Proof.
  intros E. destruct (eq_then_le x y E) as [L1 L2]. unfold ge_int.
  destruct (SFleb (float_of_int n) x) eqn:A, (SFleb (float_of_int n) y) eqn:B;
    try reflexivity.
  - rewrite (le_trans _ _ _ A L1) in B. discriminate.
  - rewrite (le_trans _ _ _ B L2) in A. discriminate.
Qed.

Lemma eq_lt_int x y n : SFeqb x y = true -> lt_int x n = lt_int y n.
Proof.
  intros E. destruct (eq_then_le x y E) as [L1 L2]. unfold lt_int.
  destruct (SFltb x (float_of_int n)) eqn:A, (SFltb y (float_of_int n)) eqn:B;
    try reflexivity.
  - rewrite (le_lt_trans _ _ _ L2 A) in B. discriminate.
  - rewrite (le_lt_trans _ _ _ L1 B) in A. discriminate.
Qed.

Lemma eq_target x y : SFeqb x y = true -> target x = target y.
Proof.
  intros E. unfold target, speed_for.
  rewrite (eq_ge_int x y _ E), (eq_lt_int x y _ E). reflexivity.
Qed.

Lemma numbers_same_elements l1 l2 :
  (forall x, In x l1 <-> In x l2) -> numbers l1 = true -> numbers l2 = true.
Proof.
  unfold numbers. intros S N. rewrite forallb_forall in *.
  intros x Hx. apply N, S, Hx.
Qed.

Lemma py_max_same_elements t1 o1 t2 o2 :
  (forall x, In x (t1 :: o1) <-> In x (t2 :: o2)) ->
  numbers (t1 :: o1) = true ->
  SFeqb (py_max t1 o1) (py_max t2 o2) = true.
Proof.
  intros S N1. pose proof (numbers_same_elements _ _ S N1) as N2.
  apply le_antisym.
  - apply (py_max_upper o2 t2 N2). apply S, py_max_in.
  - apply (py_max_upper o1 t1 N1). apply S, py_max_in.
Qed.

(** The action a pass takes is the one the thresholds give. *)
Lemma takes_action_target env t st a : takes_action env t st a -> a = target t.
Proof.
  intros [A _]. destruct (control_step_target env t st) as [B _].
  rewrite B in A. apply app_inv_head in A. congruence.
Qed.

Lemma target_monotone t1 t2 :
  SFleb t1 t2 = true -> (escalation (target t1) <= escalation (target t2))%nat.
Proof.
  intros L. unfold target, speed_for.
  destruct (ge_int t1 TEMP_AUTO_THRESHOLD_NEW) eqn:G1.
  - unfold ge_int in *. rewrite (le_trans _ _ _ G1 L). constructor.
  - destruct (lt_int t1 TEMP_LOW_THRESHOLD_NEW) eqn:L1.
    + cbn [escalation]. change (String.eqb FAN_SPEED_LOW_HEX_NEW FAN_SPEED_LOW_HEX_NEW)
        with true. cbv iota. lia.
    + destruct (ge_int t2 TEMP_AUTO_THRESHOLD_NEW); [simpl; lia|].
      destruct (lt_int t2 TEMP_LOW_THRESHOLD_NEW) eqn:L2; [|simpl; lia].
      unfold lt_int in *. rewrite (le_lt_trans _ _ _ L L2) in L1. discriminate.
Qed.

End FloatOrderMore.

(** X13. The action of a pass is a function of the reading alone, and a
    hotter reading never gets a lower action: with low speed below medium
    speed below auto mode, [t1 <= t2] implies that the action taken on [t1]
    is at most the action taken on [t2], whatever the states the two passes
    start from. *)
Theorem hotter_reading_never_lowers_the_action :
  forall (subprocess_run : nat -> invocation -> run_result)
         (t1 t2 : spec_float) (st1 st2 : state) (a1 a2 : FanAction),
    takes_action subprocess_run t1 st1 a1 ->
    takes_action subprocess_run t2 st2 a2 ->
    (SFeqb t1 t2 = true -> a1 = a2)
    /\ (SFleb t1 t2 = true -> (escalation a1 <= escalation a2)%nat).
Proof.
  intros env t1 t2 st1 st2 a1 a2 H1 H2.
  rewrite (takes_action_target env t1 st1 a1 H1).
  rewrite (takes_action_target env t2 st2 a2 H2).
  split; [apply eq_target | apply target_monotone].
Qed.

Lemma hotter_reading_never_lowers_the_action_witness :
  (escalation (SetManualSpeed FAN_SPEED_LOW_HEX_NEW)
   <= escalation (SetManualSpeed FAN_SPEED_MEDIUM_HEX_NEW))%nat.
Proof.
  exact (proj2 (hotter_reading_never_lowers_the_action every_process_exits_0
                  (literal "59.9") (literal "60.0") initial believed_manual
                  (SetManualSpeed FAN_SPEED_LOW_HEX_NEW)
                  (SetManualSpeed FAN_SPEED_MEDIUM_HEX_NEW)
                  (conj eq_refl eq_refl) (conj eq_refl eq_refl))
           eq_refl).
Defined.

(** X14. A reading that is not a number (the text "nan" parses to one) is
    below no threshold and at least no threshold: the pass takes the medium
    speed, not the auto mode. *)
Theorem nan_reading_gets_the_medium_speed :
  forall (subprocess_run : nat -> invocation -> run_result)
         (t : spec_float) (st : state),
    is_nan t = true ->
    takes_action subprocess_run t st (SetManualSpeed FAN_SPEED_MEDIUM_HEX_NEW).
Proof.
  intros env t st N. destruct t; try discriminate N.
  apply (control_step_manual env S754_nan st). reflexivity.
Qed.

Lemma nan_reading_gets_the_medium_speed_witness :
  get_cpu_package_temp_from_ohm (Document (cpu_document [celsius "nan"]))
  = Ok (Some (literal "nan"))
  /\ takes_action every_process_exits_0 (literal "nan") initial
       (SetManualSpeed FAN_SPEED_MEDIUM_HEX_NEW).
Proof.
  split; [reflexivity|].
  exact (nan_reading_gets_the_medium_speed every_process_exits_0
           (literal "nan") initial eq_refl).
Defined.

(** X15. On well-formed snapshots the reading does not depend on the order
    in which the monitor lists the CPUs, nor on a value shown twice: two
    snapshots whose first "CPU Package" values are the same numbers, none of
    them NaN, give the same reading (up to the equality of floats) and the
    same action. *)
Theorem reading_ignores_the_order_of_the_cpus :
  forall d1 d2 : value,
    Snapshot.well_formed d1 = true ->
    Snapshot.well_formed d2 = true ->
    (forall x, In x (Snapshot.first_package_values d1)
               <-> In x (Snapshot.first_package_values d2)) ->
    numbers (Snapshot.first_package_values d1) = true ->
    exists r1 r2,
      get_cpu_package_temp_from_ohm (Document d1) = Ok r1
      /\ get_cpu_package_temp_from_ohm (Document d2) = Ok r2
      /\ same_reading r1 r2 = true
      /\ option_map target r1 = option_map target r2.
Proof.
  intros d1 d2 W1 W2 S N.
  rewrite (extractor_on_well_formed d1 W1), (extractor_on_well_formed d2 W2).
  destruct (Snapshot.first_package_values d1) as [|t1 o1],
           (Snapshot.first_package_values d2) as [|t2 o2].
  - exists None, None. repeat split.
  - exfalso. apply (proj2 (S t2)). left. reflexivity.
  - exfalso. apply (proj1 (S t1)). left. reflexivity.
  - pose proof (py_max_same_elements t1 o1 t2 o2 S N) as E.
    exists (Some (py_max t1 o1)), (Some (py_max t2 o2)).
    split; [reflexivity | split; [reflexivity | split; [exact E|]]].
    cbn [option_map]. rewrite (eq_target _ _ E). reflexivity.
Qed.

Lemma reading_ignores_the_order_of_the_cpus_witness :
  exists r1 r2,
    get_cpu_package_temp_from_ohm
      (Document (two_cpu_document (celsius "55.0") (celsius "71.0"))) = Ok r1
    /\ get_cpu_package_temp_from_ohm
         (Document (two_cpu_document (celsius "71.0") (celsius "55.0"))) = Ok r2
    /\ same_reading r1 r2 = true
    /\ option_map target r1 = option_map target r2.
Proof.
  apply (reading_ignores_the_order_of_the_cpus
           (two_cpu_document (celsius "55.0") (celsius "71.0"))
           (two_cpu_document (celsius "71.0") (celsius "55.0"))
           eq_refl eq_refl).
  - intros x. vm_compute. tauto.
  - reflexivity.
Defined.

(** * Further properties of the console and of the value texts *)

Section LogLines.

Variable env : nat -> invocation -> run_result.

Lemma run_ipmi_command_not_applied args eo :
  prints (fun l => is_speed_applied l = false) (run_ipmi_command env args eo).
Proof. unfold run_ipmi_command. printing ltac:(reflexivity). Qed.

Lemma set_idrac_fan_mode_auto_not_applied :
  prints (fun l => is_speed_applied l = false) (set_idrac_fan_mode_auto env).
Proof.
  unfold set_idrac_fan_mode_auto. pose proof run_ipmi_command_not_applied.
  printing ltac:(reflexivity).
Qed.

Lemma ensure_idrac_fan_mode_manual_not_applied :
  prints (fun l => is_speed_applied l = false)
    (ensure_idrac_fan_mode_manual env).
Proof.
  unfold ensure_idrac_fan_mode_manual. pose proof run_ipmi_command_not_applied.
  printing ltac:(reflexivity).
Qed.

Lemma set_idrac_fan_speed_percentage_not_applied speed_hex :
  prints (fun l => is_speed_applied l = false)
    (set_idrac_fan_speed_percentage env speed_hex).
Proof.
  unfold set_idrac_fan_speed_percentage.
  pose proof run_ipmi_command_not_applied.
  pose proof ensure_idrac_fan_mode_manual_not_applied.
  printing ltac:(reflexivity).
Qed.

Lemma speed_for_percent t :
  Py.int16 (speed_for t)
  = Some match Py.int16 (speed_for t) with Some n => n | None => 0 end.
Proof.
  unfold speed_for. destruct (lt_int t TEMP_LOW_THRESHOLD_NEW); reflexivity.
Qed.

(** The lines of a pass on a reading below 70. *)
Lemma manual_pass_lines t st :
  ge_int t TEMP_AUTO_THRESHOLD_NEW = false ->
  exists decision quiet,
    is_speed_applied decision = false
    /\ Forall (fun l => is_speed_applied l = false) quiet
    /\ console (snd (control_step env (Some t) st))
       = console st ++ [LocalTemp t; decision] ++ quiet
         ++ (if fst (set_idrac_fan_speed_percentage env (speed_for t) st)
             then [SpeedApplied (speed_for t)
                     match Py.int16 (speed_for t) with
                     | Some n => n
                     | None => 0
                     end]
             else []).
Proof.
  intros G. unfold control_step. rewrite G. cbv zeta.
  change (if lt_int t TEMP_LOW_THRESHOLD_NEW
          then FAN_SPEED_LOW_HEX_NEW else FAN_SPEED_MEDIUM_HEX_NEW)
    with (speed_for t).
  set (decision := if lt_int t TEMP_LOW_THRESHOLD_NEW
                   then DecisionLow t (speed_for t)
                   else DecisionMedium t (speed_for t)).
  rewrite !snd_bind.
  set (s2 := snd (print decision (snd (print (LocalTemp t) st)))).
  destruct (set_idrac_fan_speed_percentage_not_applied (speed_for t) s2)
    as (quiet & E & Q).
  destruct (set_idrac_fan_speed_percentage_fan_only env (speed_for t) s2 st
              eq_refl) as [D _].
  exists decision, quiet. split; [|split; [exact Q|]].
  - subst decision. destruct (lt_int t TEMP_LOW_THRESHOLD_NEW); reflexivity.
  - rewrite <- D.
    destruct (fst (set_idrac_fan_speed_percentage env (speed_for t) s2)).
    + cbn [when print snd console]. rewrite E. subst s2.
      cbn [print snd console]. rewrite <- !app_assoc. reflexivity.
    + cbn [when ret snd]. rewrite E. subst s2.
      cbn [print snd console]. rewrite <- !app_assoc, app_nil_r. reflexivity.
Qed.

(** The lines of a pass on a reading of at least 70. *)
Lemma auto_pass_lines t st :
  ge_int t TEMP_AUTO_THRESHOLD_NEW = true ->
  exists quiet,
    Forall (fun l => is_speed_applied l = false) quiet
    /\ console (snd (control_step env (Some t) st)) = console st ++ quiet.
Proof.
  intros G. unfold control_step. rewrite G.
  assert (P : prints (fun l => is_speed_applied l = false)
                (print (LocalTemp t) ;;
                 print (DecisionAuto t) ;;
                 set_idrac_fan_mode_auto env ;; ret tt)%ctl).
  { pose proof set_idrac_fan_mode_auto_not_applied.
    printing ltac:(reflexivity). }
  destruct (P st) as (quiet & E & Q). exists quiet. split; assumption.
Qed.

End LogLines.

Section ValueTexts.

Lemma rev_rev s : forall a b, Py.rev a (Py.rev b s) = Py.rev (s ++ a)%string b.
Proof.
  induction s as [|c s IH]; intros a b; [reflexivity|].
  cbn [Py.rev]. rewrite IH. reflexivity.
Qed.

Lemma append_empty s : (s ++ EmptyString)%string = s.
Proof. induction s as [|c s IH]; [reflexivity | simpl; rewrite IH; reflexivity]. Qed.

Lemma rev_involutive s : Py.rev EmptyString (Py.rev EmptyString s) = s.
Proof. rewrite rev_rev. cbn [Py.rev]. apply append_empty. Qed.

Lemma split_from_token tok : forall cur tail,
  no_space tok = true -> starts_blank tail = true ->
  Py.rev cur tok <> EmptyString ->
  exists others,
    Py.split_from cur (tok ++ tail)
    = Py.rev EmptyString (Py.rev cur tok) :: others.
Proof.
  induction tok as [|a tok IH]; intros cur tail N B C.
  - cbn [Py.rev] in *. cbn [append].
    destruct tail as [|c rest].
    + destruct cur; [contradiction|]. eexists. reflexivity.
    + cbn [starts_blank] in B. cbn [Py.split_from]. rewrite B.
      destruct cur; [contradiction|]. eexists. reflexivity.
  - cbn [no_space] in N. apply andb_true_iff in N. destruct N as [Na N].
    apply negb_true_iff in Na.
    change ((String a tok ++ tail)%string) with (String a (tok ++ tail)%string).
    cbn [Py.split_from]. rewrite Na. cbn [Py.rev] in *.
    apply IH; assumption.
Qed.

Lemma split_from_lead lead s :
  all_space lead = true ->
  Py.split_from EmptyString (lead ++ s) = Py.split_from EmptyString s.
Proof.
  induction lead as [|c lead IH]; intros A; [reflexivity|].
  cbn [all_space] in A. apply andb_true_iff in A. destruct A as [Ac A].
  change ((String c lead ++ s)%string) with (String c (lead ++ s)%string).
  cbn [Py.split_from]. rewrite Ac. apply IH, A.
Qed.

Lemma split_first_token lead number tail :
  all_space lead = true -> number <> EmptyString ->
  no_space number = true -> starts_blank tail = true ->
  exists others, Py.split (lead ++ number ++ tail) = number :: others.
Proof.
  intros A Ne N B. unfold Py.split. rewrite (split_from_lead lead _ A).
  destruct (split_from_token number EmptyString tail N B) as (others & E).
  - intros C. apply Ne. rewrite <- (rev_involutive number), C. reflexivity.
  - exists others. rewrite E, rev_involutive. reflexivity.
Qed.

End ValueTexts.

(** X16. The line that reports a fan speed as applied is truthful: a pass
    prints it only on a reading below 70, for the speed of that reading and
    its percentage, and only when [set_idrac_fan_speed_percentage] returned
    [True]; the tracked mode is then Manual and the last command sent is the
    speed command. *)
Theorem speed_applied_line_is_truthful :
  forall (subprocess_run : nat -> invocation -> run_result)
         (r : option spec_float) (st : state) (new : list line)
         (speed_hex : string) (percent : Z),
    console (snd (control_step subprocess_run r st)) = console st ++ new ->
    In (SpeedApplied speed_hex percent) new ->
    exists t,
      r = Some t
      /\ ge_int t TEMP_AUTO_THRESHOLD_NEW = false
      /\ speed_hex = speed_for t
      /\ Py.int16 speed_hex = Some percent
      /\ fst (set_idrac_fan_speed_percentage subprocess_run speed_hex st) = true
      /\ idrac_fan_mode_is_manual (snd (control_step subprocess_run r st))
         = Some true
      /\ exists before,
           spawned (snd (control_step subprocess_run r st))
           = before ++ [SET_SPEED speed_hex].
Proof.
  intros env r st new h n E H. destruct r as [t|].
  - destruct (ge_int t TEMP_AUTO_THRESHOLD_NEW) eqn:G.
    + exfalso. destruct (auto_pass_lines env t st G) as (quiet & Q & C).
      rewrite C in E. apply app_inv_head in E. subst quiet.
      rewrite Forall_forall in Q. specialize (Q _ H). discriminate Q.
    + destruct (manual_pass_lines env t st G) as (decision & quiet & D & Q & C).
      rewrite C in E. apply app_inv_head in E. subst new.
      rewrite Forall_forall in Q. cbn [app In] in H.
      destruct H as [H|[H|H]]; [discriminate H | subst decision; discriminate D|].
      apply in_app_or in H. destruct H as [H|H];
        [specialize (Q _ H); discriminate Q|].
      destruct (fst (set_idrac_fan_speed_percentage env (speed_for t) st)) eqn:T;
        [|destruct H].
      destruct H as [H|[]]. injection H as <- <-.
      exists t. split; [reflexivity | split; [exact G | split; [reflexivity|]]].
      split; [apply speed_for_percent | split; [exact T|]].
      pose proof (step_fan env t st) as F. unfold target in F.
      rewrite G in F. cbn [perform] in F.
      pose proof (set_speed_after_ensure env (speed_for t) st
                    (speed_for_is_hex t)) as S. cbv zeta in S.
      pose proof (ensure_reports_mode env st) as R.
      destruct (fst (ensure_idrac_fan_mode_manual env st)).
      * destruct S as [_ S]. rewrite S in F.
        destruct (fan_eq _ _ _ F) as [Sm Ss].
        split; [rewrite Sm; exact R | eexists; exact Ss].
      * destruct S as [S _]. rewrite S in T. discriminate T.
  - exfalso. cbn [control_step print snd console] in E.
    apply app_inv_head in E. subst new.
    destruct H as [H|[]]. discriminate H.
Qed.

Lemma speed_applied_line_is_truthful_witness :
  exists t,
    Some (literal "50.0") = Some t
    /\ ge_int t TEMP_AUTO_THRESHOLD_NEW = false
    /\ FAN_SPEED_LOW_HEX_NEW = speed_for t
    /\ Py.int16 FAN_SPEED_LOW_HEX_NEW = Some 10
    /\ fst (set_idrac_fan_speed_percentage every_process_exits_0
              FAN_SPEED_LOW_HEX_NEW initial) = true
    /\ idrac_fan_mode_is_manual
         (snd (control_step every_process_exits_0 (Some (literal "50.0"))
                 initial)) = Some true
    /\ exists before,
         spawned (snd (control_step every_process_exits_0
                         (Some (literal "50.0")) initial))
         = before ++ [SET_SPEED FAN_SPEED_LOW_HEX_NEW].
Proof.
  apply (speed_applied_line_is_truthful every_process_exits_0
           (Some (literal "50.0")) initial
           [LocalTemp (literal "50.0");
            DecisionLow (literal "50.0") FAN_SPEED_LOW_HEX_NEW;
            ManualAttempt; ManualDone;
            SpeedApplied FAN_SPEED_LOW_HEX_NEW 10]
           FAN_SPEED_LOW_HEX_NEW 10).
  - reflexivity.
  - simpl. tauto.
Defined.

(** X17. The reading of a "CPU Package" leaf is the number before the first
    whitespace of its value: whitespace in front of it and whatever follows
    the next whitespace (a unit, say) play no part.  When that first word is
    not a number the leaf is passed over. *)
Theorem reading_is_the_first_word_of_the_value :
  forall (members : list (string * value)) (others : list value)
         (lead number tail : string),
    find "Text" members = Some (Str "CPU Package") ->
    find "Value" members = Some (Str (lead ++ number ++ tail)) ->
    all_space lead = true ->
    number <> EmptyString ->
    no_space number = true ->
    starts_blank tail = true ->
    scan_sensors (Obj members :: others)
    = match Py.float number with
      | Some t => Ok (Some t)
      | None => scan_sensors others
      end.
Proof.
  intros members others lead number tail Ht Hv A Ne N B.
  destruct (split_first_token lead number tail A Ne N B) as (rest & S).
  cbn [scan_sensors get Json.bind has_key eq_str]. rewrite Ht, Hv.
  cbn [Json.bind eq_str]. change (String.eqb "CPU Package" "CPU Package") with true.
  cbn [andb Json.bind]. rewrite S. reflexivity.
Qed.

Lemma reading_is_the_first_word_of_the_value_witness :
  scan_sensors
    [Obj [("Text", Str "CPU Package");
          ("Value", Str (" " ++ "45.0" ++ String " " (String "176" "C")))]]
  = match Py.float "45.0" with
    | Some t => Ok (Some t)
    | None => scan_sensors []
    end.
Proof.
  apply (reading_is_the_first_word_of_the_value
           [("Text", Str "CPU Package");
            ("Value", Str (" " ++ "45.0" ++ String " " (String "176" "C")))]
           [] " " "45.0" (String " " (String "176" "C")));
    try reflexivity.
  discriminate.
Defined.

(** X18. While no command is accepted (ipmitool missing, every call timing
    out or failing), the script sends mode commands only, never a speed
    command, and the tracked mode stays Unknown. *)
Theorem no_speed_command_while_nothing_is_accepted :
  forall (subprocess_run : nat -> invocation -> run_result)
         (passes : list ohm_response) (last : ohm_response) (st : state),
    (forall n c, accepted (subprocess_run n c) = false) ->
    exists new,
      spawned (snd (main subprocess_run passes last st)) = spawned st ++ new
      /\ Forall (fun c => c = ENABLE_AUTO \/ c = ENABLE_MANUAL) new
      /\ idrac_fan_mode_is_manual (snd (main subprocess_run passes last st))
         = None.
Proof.
  intros env passes last st Rejected.
  destruct (main_invariant env st
              (fun _ m new =>
                 Forall (fun c => c = ENABLE_AUTO \/ c = ENABLE_MANUAL) new
                 /\ m = None))
    with (passes := passes) (last := last)
    as (n & new & _ & Hs & Hf & Hm).
  { intros k m new more m' [H1 H2] P. subst m.
    assert (A : Forall (fun c => c = ENABLE_AUTO \/ c = ENABLE_MANUAL)
                  (new ++ [ENABLE_AUTO])).
    { apply Forall_app. split; [exact H1|].
      apply Forall_cons; [left; reflexivity | apply Forall_nil]. }
    assert (B : Forall (fun c => c = ENABLE_AUTO \/ c = ENABLE_MANUAL)
                  (new ++ [ENABLE_MANUAL])).
    { apply Forall_app. split; [exact H1|].
      apply Forall_cons; [right; reflexivity | apply Forall_nil]. }
    inversion P as [mode|mode|h Hh|mode h N Hh Ha|mode N Ha]; subst.
    - rewrite app_nil_r. split; [exact H1 | reflexivity].
    - rewrite Rejected. split; [exact A | reflexivity].
    - rewrite Rejected in Ha. discriminate Ha.
    - split; [exact B | reflexivity]. }
  { split; [constructor | reflexivity]. }
  exists new. split; [exact Hs | split; [exact Hf | exact Hm]].
Qed.

Lemma no_speed_command_while_nothing_is_accepted_witness :
  exists new,
    spawned (snd (main every_process_times_out scenario_passes RequestException
                    initial)) = spawned initial ++ new
    /\ Forall (fun c => c = ENABLE_AUTO \/ c = ENABLE_MANUAL) new
    /\ idrac_fan_mode_is_manual
         (snd (main every_process_times_out scenario_passes RequestException
                 initial)) = None.
Proof.
  exact (no_speed_command_while_nothing_is_accepted every_process_times_out
           scenario_passes RequestException initial (fun _ _ => eq_refl)).
Defined.

(** X19. The tracked mode is backed by the answers of the iDRAC: when a run
    ends with the tracked mode Manual, the last mode command sent was the
    manual-mode command and it was accepted; when it ends with the tracked
    mode Auto, the last command sent was the auto-mode command and it was
    accepted.  After a mode command that failed the tracked mode is
    Unknown. *)
Theorem tracked_mode_is_backed_by_an_accepted_command :
  forall (subprocess_run : nat -> invocation -> run_result)
         (passes : list ohm_response) (last : ohm_response) (st : state),
    exists new,
      let st' := snd (main subprocess_run passes last st) in
      spawned st' = spawned st ++ new
      /\ (idrac_fan_mode_is_manual st' = Some true ->
          told_manual subprocess_run (List.length (spawned st)) false new
          = true)
      /\ (idrac_fan_mode_is_manual st' = Some false ->
          exists before,
            new = before ++ [ENABLE_AUTO]
            /\ accepted (subprocess_run
                           (List.length (spawned st) + List.length before)%nat
                           ENABLE_AUTO) = true).
Proof.
  intros env passes last st.
  destruct (main_invariant env st
              (fun _ m new =>
                 (m = Some true ->
                  told_manual env (List.length (spawned st)) false new = true)
                 /\ (m = Some false ->
                     exists before,
                       new = before ++ [ENABLE_AUTO]
                       /\ accepted (env (List.length (spawned st)
                                         + List.length before)%nat
                                      ENABLE_AUTO) = true)))
    with (passes := passes) (last := last)
    as (n & new & _ & Hs & Hm & Ha).
  { intros k m new more m' [H1 H2] P.
    inversion P as [mode|mode|h Hh|mode h N Hh Hacc|mode N Hacc]; subst.
    - rewrite app_nil_r. split; assumption.
    - destruct (accepted (env (List.length (spawned st) + List.length new)%nat
                            ENABLE_AUTO)) eqn:A.
      + split; [discriminate|]. intros _. exists new.
        split; [reflexivity | exact A].
      + split; discriminate.
    - split; [|discriminate]. intros _.
      destruct (pass_sends_in_order env _ _ _ _
                  (told_manual env (List.length (spawned st)) false new)
                  P H1) as [_ T].
      rewrite told_manual_app. apply T. reflexivity.
    - split; [|discriminate]. intros _.
      destruct (pass_sends_in_order env _ _ _ _
                  (told_manual env (List.length (spawned st)) false new)
                  P H1) as [_ T].
      rewrite told_manual_app. apply T. reflexivity.
    - split; discriminate. }
  { split; discriminate. }
  exists new. cbv zeta. split; [exact Hs | split; assumption].
Qed.

Lemma tracked_mode_is_backed_by_an_accepted_command_witness :
  exists new,
    let st' := snd (main every_process_exits_0 scenario_passes RequestException
                      initial) in
    spawned st' = spawned initial ++ new
    /\ (idrac_fan_mode_is_manual st' = Some true ->
        told_manual every_process_exits_0 (List.length (spawned initial))
          false new = true)
    /\ (idrac_fan_mode_is_manual st' = Some false ->
        exists before,
          new = before ++ [ENABLE_AUTO]
          /\ accepted (every_process_exits_0
                         (List.length (spawned initial) + List.length before)%nat
                         ENABLE_AUTO) = true).
Proof.
  exact (tracked_mode_is_backed_by_an_accepted_command every_process_exits_0
           scenario_passes RequestException initial).
Defined.
